(** * dify-router: the distributed route plane

  A shallow embedding of the gateway's route catalog
  (internal/gateway/route_manager.go), its matcher, the dispatcher and the
  admin handlers (package gateway), and the authentication middleware
  (package middleware), together with the properties the specification
  states about them.

  Conventions of the embedding:
  - Go [string] is [string] (a sequence of bytes); Go [int] and [int64] are
    [Z], with the wrap-around written out where the code does arithmetic;
  - Go maps are [gmap]; a [range] over a map visits the entries in an
    unspecified order, so every loop over a map takes the visiting order as
    an argument, and the theorems hold for every order;
  - the mutex is not modelled: each operation runs under the lock, hence
    atomically, and is a function from the state before to the state after;
  - calls to the shared store are a record of the replies the client
    observes (reads) and a list of the commands it sent (writes);
  - readings of the wall clock are arguments. *)

From Stdlib Require Import ZArith String Ascii List Bool Lia.
From stdpp Require Import gmap strings list fin_maps pretty.

Local Open Scope string_scope.
Local Open Scope Z_scope.

(** ** Package strings, as far as the gateway uses it *)

Module GoStrings.

(** [strings.HasPrefix s prefix]. *)
Fixpoint HasPrefix (s prefix : string) {struct prefix} : bool :=
  match prefix with
  | EmptyString => true
  | String c prefix' =>
      match s with
      | EmptyString => false
      | String d s' => Ascii.eqb c d && HasPrefix s' prefix'
      end
  end.

Fixpoint drop_bytes (n : nat) (s : string) : string :=
  match n with
  | O => s
  | S n' => match s with
            | EmptyString => EmptyString
            | String _ s' => drop_bytes n' s'
            end
  end.

(** [strings.TrimPrefix s prefix]: [s] without the leading [prefix], and
    [s] itself when it does not start with [prefix]. *)
Definition TrimPrefix (s prefix : string) : string :=
  if HasPrefix s prefix then drop_bytes (String.length prefix) s else s.

(** [strings.Contains s substr]. *)
Fixpoint Contains (s substr : string) : bool :=
  HasPrefix s substr ||
  match s with
  | EmptyString => false
  | String _ s' => Contains s' substr
  end.

(** [strings.ReplaceAll s old new] for an [old] of one byte, the only use
    the gateway makes of it. *)
Fixpoint ReplaceAll (s : string) (old : ascii) (new : string) : string :=
  match s with
  | EmptyString => EmptyString
  | String c s' =>
      if Ascii.eqb c old then new +:+ ReplaceAll s' old new
      else String c (ReplaceAll s' old new)
  end.

End GoStrings.

(** ** Types (internal/gateway/types.go) *)

Module RouteConfig.
Record t : Type := Build {
  ID : string;
  Path : string;
  Method : string;
  Handler : string;
  SandboxType : string;
  Code : string;
  Target : string;
  Timeout : Z;
  Metadata : gmap string string;
  CreatedAt : Z;
  UpdatedAt : Z;
  Version : Z
}.

Definition with_stamps (r : t) (createdAt updatedAt version : Z) : t :=
  Build (ID r) (Path r) (Method r) (Handler r) (SandboxType r) (Code r)
        (Target r) (Timeout r) (Metadata r) createdAt updatedAt version.
End RouteConfig.

Module SandboxInstance.
Record t : Type := Build {
  ID : string;
  URL : string;
  Type_ : string;
  Status : string;
  Load : Z;
  LastPing : Z
}.

Definition with_Load (i : t) (load : Z) : t :=
  Build (ID i) (URL i) (Type_ i) (Status i) load (LastPing i).
End SandboxInstance.

Module RouteEvent.
Record t : Type := Build {
  EventID : string;
  EventType : string;
  RouteID : string;
  RouteData : option RouteConfig.t;   (* a nil pointer is [None] *)
  Timestamp : Z;
  Source : string
}.
End RouteEvent.

(** A Go [error]: [None] is [nil]. *)
Definition error : Type := option string.

(** Arithmetic on [int] and [int64] (64 bits, two's complement) keeps the low
    64 bits of the result. *)
Definition wrap64 (z : Z) : Z := (z + 2 ^ 63) mod 2 ^ 64 - 2 ^ 63.

(** ** Libraries outside the repository

  The gateway calls encoding/json, strconv, regexp, net/http and
  gorilla/mux; their functions are taken as they are. *)

Record Extern : Type := {
  (* json.Unmarshal into a RouteConfig; None when it returns an error *)
  json_Unmarshal : string -> option RouteConfig.t;
  (* json.Marshal of a RouteConfig *)
  json_Marshal : RouteConfig.t -> string;
  (* strconv.ParseInt(s, 10, 64): the value it returns (the caller drops
     the error) *)
  strconv_ParseInt : string -> Z;
  (* regexp.MatchString(pattern, s): matched, which is false when the
     pattern does not compile *)
  regexp_MatchString : string -> string -> bool;
  (* whether http.NewRequest(GET, url, nil) returns a request: it returns
     nil and an error when the url does not parse *)
  http_NewRequest_ok : string -> bool;
  (* a new mux router is given the one route Path(tpl).Methods(GET) and
     asked to Match the request, which is a GET request known by its url,
     or nil: what Match returns, or None when the calls panic (mux
     dereferences the request) *)
  mux_Match : string -> option string -> option bool
}.

(** [http.NewRequest("GET", url, nil)] as a caller sees it who drops the
    error: the request, or nil. *)
Definition http_NewRequest (X : Extern) (url : string) : option string :=
  if http_NewRequest_ok X url then Some url else None.

(** ** The matcher (route_manager.go, matchRoute)

    A function that can panic returns an [option]: [None] is the panic. *)

Section Matcher.
Context (X : Extern).

(** [matchPathWithParams] drops the error of [http.NewRequest]: when the
    request path does not parse, the request it hands to [route.Match] is
    nil. *)
Definition matchPathWithParams (routePath requestPath : string)
    : option bool :=
  let req := http_NewRequest X requestPath in
  mux_Match X routePath req.

Definition calculateMatchPriority
    (route : RouteConfig.t) (path method : string) : option Z :=
  if negb (String.eqb (RouteConfig.Method route) method)
     && negb (String.eqb (RouteConfig.Method route) "ANY")
  then Some 0
  else if String.eqb (RouteConfig.Path route) path then Some 100
  else
    match matchPathWithParams (RouteConfig.Path route) path with
    | None => None
    | Some true => Some 90
    | Some false =>
        if GoStrings.HasPrefix path (RouteConfig.Path route +:+ "/")
        then Some 80
        else if GoStrings.Contains (RouteConfig.Path route) "*"
                && regexp_MatchString X
                     ("^" +:+ GoStrings.ReplaceAll (RouteConfig.Path route)
                                "*" ".*" +:+ "$")
                     path
        then Some 70
        else Some 0
    end.

(** The loop of [matchRoute] over the routes in the order the [range]
    visits them. [matchedRoute] and [matchPriority] are the two locals;
    [&route] is the address of the copy made for the iteration (the loop
    variable is per iteration, as in Go 1.22 and later). The result is
    [Some nil-or-route] when the loop ends, [None] when
    [calculateMatchPriority] panics on a route. *)
Fixpoint matchRoute_range (routes : list RouteConfig.t) (path method : string)
    (matchedRoute : option RouteConfig.t) (matchPriority : Z)
    : option (option RouteConfig.t) :=
  match routes with
  | [] => Some matchedRoute
  | route :: routes' =>
      match calculateMatchPriority route path method with
      | None => None
      | Some priority =>
          if priority >? matchPriority
          then matchRoute_range routes' path method (Some route) priority
          else matchRoute_range routes' path method matchedRoute matchPriority
      end
  end.

Definition matchRoute (order : list (string * RouteConfig.t))
    (path method : string) : option (option RouteConfig.t) :=
  matchRoute_range (order.*2) path method None 0.

End Matcher.

(** ** The shared store, as the route manager sees it *)

(** What a read returns: a value, [redis.Nil], or another error. *)
Inductive Reply (A : Type) : Type :=
| ReplyOk (a : A)
| RedisNil
| ReplyErr.
Arguments ReplyOk {A} a.
Arguments RedisNil {A}.
Arguments ReplyErr {A}.

(** The replies the client of one replica observes. *)
Record RedisClient : Type := {
  (* GET gateway:config:version *)
  Get_config_version : Reply string;
  (* SMEMBERS gateway:routes:updated *)
  SMembers_routes_updated : Reply (list string);
  (* HGET gateway:routes <id>: the value when err == nil *)
  HGet_routes : string -> option string;
  (* HGETALL gateway:routes: the entries, in the order the range over the
     reply visits them, when err == nil *)
  HGetAll_routes : option (list (string * string));
  (* whether HSET / HDEL on gateway:routes return no error *)
  HSet_routes_ok : bool;
  HDel_routes_ok : bool
}.

(** The commands a replica sends. [XAdd] carries the event that
    [PublishRouteEvent] serialises into the entry. *)
Inductive RedisCmd : Type :=
| HSet (key field value : string)
| HDel (key field : string)
| SAdd (key member : string)
| SetInt (key : string) (value : Z)
| Del (key : string)
| XAdd (stream : string) (event : RouteEvent.t).

(** The store after a command of reconciliation, which only ever deletes the
    marker set. *)
Definition redis_after (cmd : RedisCmd) (rc : RedisClient) : RedisClient :=
  match cmd with
  | Del key =>
      if String.eqb key "gateway:routes:updated" then
        {| Get_config_version := Get_config_version rc;
           SMembers_routes_updated := ReplyOk [];
           HGet_routes := HGet_routes rc;
           HGetAll_routes := HGetAll_routes rc;
           HSet_routes_ok := HSet_routes_ok rc;
           HDel_routes_ok := HDel_routes_ok rc |}
      else rc
  | _ => rc
  end.

(** ** The route manager (route_manager.go) *)

Module RouteManager.
Record t : Type := Build {
  routeCache : gmap string RouteConfig.t;
  routeVersions : gmap string Z;
  updateChannel : bool;    (* the channel of capacity 1: is a signal queued *)
  redisEnabled : bool;
  lastConfigUpdate : Z;
  instanceID : string
}.

Definition with_routes (rm : t) (cache : gmap string RouteConfig.t)
    (versions : gmap string Z) : t :=
  Build cache versions (updateChannel rm) (redisEnabled rm)
        (lastConfigUpdate rm) (instanceID rm).

Definition with_lastConfigUpdate (rm : t) (v : Z) : t :=
  Build (routeCache rm) (routeVersions rm) (updateChannel rm)
        (redisEnabled rm) v (instanceID rm).

(** The non-blocking send on [updateChannel]: the signal is queued, or
    dropped when one is queued already. *)
Definition notify (rm : t) : t :=
  Build (routeCache rm) (routeVersions rm) true (redisEnabled rm)
        (lastConfigUpdate rm) (instanceID rm).

(** [rm.routeVersions[id]]: a missing key reads as 0. *)
Definition version_of (rm : t) (id : string) : Z :=
  default 0 (routeVersions rm !! id).

(** The maps of [NewRouteManager], before the first load. *)
Definition new (enabled : bool) (instance : string) : t :=
  Build ∅ ∅ false enabled 0 instance.
End RouteManager.

Section Catalog.
Context (X : Extern).

(** *** Reconciliation *)

(** The body of the loop of [loadRoutesIncremental] for one member of the
    marker set. *)
Definition applyUpdatedRoute (rc : RedisClient) (rm : RouteManager.t)
    (routeID : string) : RouteManager.t :=
  if String.eqb routeID "" then rm
  else if GoStrings.HasPrefix routeID "DELETE:" then
    let actualRouteID := GoStrings.TrimPrefix routeID "DELETE:" in
    match RouteManager.routeCache rm !! actualRouteID with
    | Some _ =>
        RouteManager.with_routes rm
          (delete actualRouteID (RouteManager.routeCache rm))
          (delete actualRouteID (RouteManager.routeVersions rm))
    | None => rm
    end
  else
    match HGet_routes rc routeID with
    | Some routeJSON =>
        match json_Unmarshal X routeJSON with
        | Some route =>
            if RouteConfig.Version route >? RouteManager.version_of rm routeID
            then RouteManager.with_routes rm
                   (<[routeID := route]> (RouteManager.routeCache rm))
                   (<[routeID := RouteConfig.Version route]>
                      (RouteManager.routeVersions rm))
            else rm
        | None => rm
        end
    | None => rm
    end.

(** The loop of [loadAllRoutesFromRedis] over the entries of the reply. *)
Fixpoint loadAll_range (routes : list (string * string))
    (cache : gmap string RouteConfig.t) (versions : gmap string Z)
    : gmap string RouteConfig.t * gmap string Z :=
  match routes with
  | [] => (cache, versions)
  | (routeID, routeJSON) :: routes' =>
      match json_Unmarshal X routeJSON with
      | Some route =>
          loadAll_range routes' (<[routeID := route]> cache)
                        (<[routeID := RouteConfig.Version route]> versions)
      | None => loadAll_range routes' cache versions
      end
  end.

Definition loadAllRoutesFromRedis (rc : RedisClient) (rm : RouteManager.t)
    : RouteManager.t :=
  match HGetAll_routes rc with
  | None => rm
  | Some routes =>
      let '(cache, versions) := loadAll_range routes ∅ ∅ in
      RouteManager.with_routes rm cache versions
  end.

(** The global version that [loadRoutesIncremental] reads: [None] when the
    read fails with an error other than [redis.Nil]. *)
Definition currentConfigVersion (rc : RedisClient) : option Z :=
  match Get_config_version rc with
  | ReplyErr => None
  | RedisNil => Some 0
  | ReplyOk configVersionJSON =>
      Some (if String.eqb configVersionJSON "" then 0
            else strconv_ParseInt X configVersionJSON)
  end.

(** [loadRoutesIncremental]: the manager after the call and the commands it
    sent. *)
Definition loadRoutesIncremental (rc : RedisClient) (rm : RouteManager.t)
    : RouteManager.t * list RedisCmd :=
  if negb (RouteManager.redisEnabled rm) then (rm, [])
  else
    match currentConfigVersion rc with
    | None => (rm, [])
    | Some currentConfigVersion =>
        if currentConfigVersion <=? RouteManager.lastConfigUpdate rm
        then (rm, [])
        else
          match SMembers_routes_updated rc with
          | ReplyErr => (rm, [])
          | reply =>
              let updatedRoutes :=
                match reply with ReplyOk l => l | _ => [] end in
              if (0 <? Z.of_nat (length updatedRoutes))
              then
                (RouteManager.with_lastConfigUpdate
                   (fold_left (applyUpdatedRoute rc) updatedRoutes rm)
                   currentConfigVersion,
                 [Del "gateway:routes:updated"])
              else
                (RouteManager.with_lastConfigUpdate
                   (loadAllRoutesFromRedis rc rm) currentConfigVersion,
                 [])
          end
    end.

(** *** Events from the stream *)

Definition handleCreateEvent (rm : RouteManager.t) (event : RouteEvent.t)
    : error * RouteManager.t :=
  match RouteEvent.RouteData event with
  | None => (Some "missing route data for CREATE event", rm)
  | Some routeData =>
      let targetRouteID :=
        if String.eqb (RouteConfig.ID routeData) ""
        then RouteEvent.RouteID event else RouteConfig.ID routeData in
      (None,
       RouteManager.with_routes rm
         (<[targetRouteID := routeData]> (RouteManager.routeCache rm))
         (<[targetRouteID := RouteConfig.Version routeData]>
            (RouteManager.routeVersions rm)))
  end.

Definition handleUpdateEvent (rm : RouteManager.t) (event : RouteEvent.t)
    : error * RouteManager.t :=
  match RouteEvent.RouteData event with
  | None => (Some "missing route data for UPDATE event", rm)
  | Some routeData =>
      let targetRouteID :=
        if String.eqb (RouteConfig.ID routeData) ""
        then RouteEvent.RouteID event else RouteConfig.ID routeData in
      match RouteManager.routeCache rm !! targetRouteID with
      | Some _ =>
          (None,
           RouteManager.with_routes rm
             (<[targetRouteID := routeData]> (RouteManager.routeCache rm))
             (<[targetRouteID := RouteConfig.Version routeData]>
                (RouteManager.routeVersions rm)))
      | None =>
          (None,
           RouteManager.with_routes rm
             (<[targetRouteID := routeData]> (RouteManager.routeCache rm))
             (<[targetRouteID := RouteConfig.Version routeData]>
                (RouteManager.routeVersions rm)))
      end
  end.

Definition handleDeleteEvent (rm : RouteManager.t) (event : RouteEvent.t)
    : error * RouteManager.t :=
  let targetRouteID := RouteEvent.RouteID event in
  match RouteManager.routeCache rm !! targetRouteID with
  | Some _ =>
      (None,
       RouteManager.with_routes rm
         (delete targetRouteID (RouteManager.routeCache rm))
         (delete targetRouteID (RouteManager.routeVersions rm)))
  | None =>
      match RouteEvent.RouteData event with
      | Some routeData =>
          if negb (String.eqb (RouteConfig.ID routeData) "") then
            let alternativeID := RouteConfig.ID routeData in
            match RouteManager.routeCache rm !! alternativeID with
            | Some _ =>
                (None,
                 RouteManager.with_routes rm
                   (delete alternativeID (RouteManager.routeCache rm))
                   (delete alternativeID (RouteManager.routeVersions rm)))
            | None => (None, rm)
            end
          else (None, rm)
      | None => (None, rm)
      end
  end.

Definition HandleEvent (rm : RouteManager.t) (event : RouteEvent.t)
    : error * RouteManager.t :=
  if String.eqb (RouteEvent.EventType event) "CREATE"
  then handleCreateEvent rm event
  else if String.eqb (RouteEvent.EventType event) "UPDATE"
  then handleUpdateEvent rm event
  else if String.eqb (RouteEvent.EventType event) "DELETE"
  then handleDeleteEvent rm event
  else (None, rm).

End Catalog.

(** ** Admin mutations (route_manager.go) *)

(** One reading of the wall clock, [time.Now()]. *)
Record Time : Type := { Unix : Z; UnixNano : Z }.

(** [PublishRouteEvent]: the publisher stamps the event and appends it to the
    stream; the callers in the route manager only log its error. *)
Definition PublishRouteEvent (now : Time) (event : RouteEvent.t) : RedisCmd :=
  XAdd "gateway:route:events"
       (RouteEvent.Build
          (RouteEvent.EventID event) (RouteEvent.EventType event)
          (RouteEvent.RouteID event) (RouteEvent.RouteData event)
          (Unix now)
          (if String.eqb (RouteEvent.Source event) "" then "gateway"
           else RouteEvent.Source event)).

Definition validateRouteConfiguration (route : RouteConfig.t) : error :=
  if String.eqb (RouteConfig.ID route) "" then Some "route ID is required"
  else if String.eqb (RouteConfig.Path route) ""
  then Some "route path is required"
  else if String.eqb (RouteConfig.Method route) ""
  then Some "route method is required"
  else if String.eqb (RouteConfig.Handler route) ""
  then Some "route handler is required"
  else if negb (String.eqb (RouteConfig.Handler route) "sandbox"
                || String.eqb (RouteConfig.Handler route) "proxy"
                || String.eqb (RouteConfig.Handler route) "static")
  then Some ("invalid handler type: " +:+ RouteConfig.Handler route)
  else if String.eqb (RouteConfig.Handler route) "sandbox"
          && negb (String.eqb (RouteConfig.SandboxType route) "python"
                   || String.eqb (RouteConfig.SandboxType route) "nodejs"
                   || String.eqb (RouteConfig.SandboxType route) "go")
  then Some ("invalid sandbox type: " +:+ RouteConfig.SandboxType route)
  else None.

Section Admin.
Context (X : Extern).

(** In the three mutations [time_Now k] is the reading taken at the [k]-th
    call of [time.Now] in the text of the function, [updateConfigVersion]
    and [PublishRouteEvent] included. *)

Definition AddRoute (rc : RedisClient) (time_Now : nat -> Time)
    (rm : RouteManager.t) (route : RouteConfig.t)
    : error * RouteManager.t * list RedisCmd :=
  match validateRouteConfiguration route with
  | Some err => (Some err, rm, [])
  | None =>
      let now := Unix (time_Now 0%nat) in
      let route :=
        RouteConfig.with_stamps route
          (if RouteConfig.CreatedAt route =? 0 then now
           else RouteConfig.CreatedAt route)
          now (UnixNano (time_Now 1%nat)) in
      let saved :=
        if RouteManager.redisEnabled rm then
          HSet "gateway:routes" (RouteConfig.ID route) (json_Marshal X route)
          :: (if HSet_routes_ok rc
              then [SAdd "gateway:routes:updated" (RouteConfig.ID route);
                    SetInt "gateway:config:version"
                           (UnixNano (time_Now 2%nat))]
              else [])
        else [] in
      let published :=
        if RouteManager.redisEnabled rm then
          [PublishRouteEvent (time_Now 3%nat)
             (RouteEvent.Build ("create-" +:+ pretty now) "CREATE"
                (RouteConfig.ID route) (Some route) now "route-manager")]
        else [] in
      (None,
       RouteManager.notify
         (RouteManager.with_routes rm
            (<[RouteConfig.ID route := route]> (RouteManager.routeCache rm))
            (<[RouteConfig.ID route := RouteConfig.Version route]>
               (RouteManager.routeVersions rm))),
       (saved ++ published)%list)
  end.

Definition UpdateRoute (rc : RedisClient) (time_Now : nat -> Time)
    (rm : RouteManager.t) (routeID : string) (newRoute : RouteConfig.t)
    : error * RouteManager.t * list RedisCmd :=
  match RouteManager.routeCache rm !! routeID with
  | None => (Some ("route " +:+ routeID +:+ " not found"), rm, [])
  | Some _ =>
      match validateRouteConfiguration newRoute with
      | Some err => (Some err, rm, [])
      | None =>
          if negb (String.eqb routeID (RouteConfig.ID newRoute))
          then (Some "route ID cannot be changed", rm, [])
          else
            let newRoute :=
              RouteConfig.with_stamps newRoute
                (RouteConfig.CreatedAt newRoute)
                (Unix (time_Now 0%nat)) (UnixNano (time_Now 1%nat)) in
            let saved :=
              if RouteManager.redisEnabled rm then
                HSet "gateway:routes" routeID (json_Marshal X newRoute)
                :: (if HSet_routes_ok rc
                    then [SAdd "gateway:routes:updated" routeID;
                          SetInt "gateway:config:version"
                                 (UnixNano (time_Now 2%nat))]
                    else [])
              else [] in
            let published :=
              if RouteManager.redisEnabled rm then
                [PublishRouteEvent (time_Now 5%nat)
                   (RouteEvent.Build
                      ("update-" +:+ pretty (Unix (time_Now 3%nat)))
                      "UPDATE" routeID (Some newRoute)
                      (Unix (time_Now 4%nat)) "route-manager")]
              else [] in
            (None,
             RouteManager.notify
               (RouteManager.with_routes rm
                  (<[routeID := newRoute]> (RouteManager.routeCache rm))
                  (<[routeID := RouteConfig.Version newRoute]>
                     (RouteManager.routeVersions rm))),
             (saved ++ published)%list)
      end
  end.

Definition DeleteRoute (rc : RedisClient) (time_Now : nat -> Time)
    (rm : RouteManager.t) (routeID : string)
    : error * RouteManager.t * list RedisCmd :=
  let deleted :=
    if RouteManager.redisEnabled rm then
      HDel "gateway:routes" routeID
      :: (if HDel_routes_ok rc
          then [SAdd "gateway:routes:updated" ("DELETE:" +:+ routeID);
                SetInt "gateway:config:version" (UnixNano (time_Now 0%nat))]
          else [])
    else [] in
  let published :=
    if RouteManager.redisEnabled rm then
      [PublishRouteEvent (time_Now 3%nat)
         (RouteEvent.Build
            ("delete-" +:+ pretty (Unix (time_Now 1%nat)))
            "DELETE" routeID None (Unix (time_Now 2%nat)) "route-manager")]
    else [] in
  (None,
   RouteManager.notify
     (RouteManager.with_routes rm
        (delete routeID (RouteManager.routeCache rm))
        (delete routeID (RouteManager.routeVersions rm))),
   (deleted ++ published)%list).

End Admin.

(** ** HTTP: responses, configuration, requests *)

(** A response body: a JSON object written from a [gin.H], or bytes copied
    from a sandbox. *)
Inductive Body : Type :=
| JSON (fields : list (string * string))
| Raw (bytes : string).

Record Response : Type := {
  StatusCode : Z;
  Header : list (string * string);
  ResponseBody : Body
}.

(** [c.JSON(code, gin.H{...})] and [w.WriteHeader(code)] followed by
    [json.NewEncoder(w).Encode(gin.H{...})]. *)
Definition respondJSON (code : Z) (fields : list (string * string))
    : Response :=
  {| StatusCode := code; Header := []; ResponseBody := JSON fields |}.

(** What a handler of the gateway listener does with a request: it answers,
    or it panics (a nil pointer is dereferenced). *)
Inductive Outcome : Type :=
| Responded (resp : Response)
| Panicked.

(** The [app] section of the configuration (static.AppConfig). *)
Module AppConfig.
Record t : Type := Build {
  Port : Z;
  Debug : bool;
  GatewayKey : string;
  AdminKey : string;
  Key : string
}.
End AppConfig.

(** An inbound request: [Header_X_Api_Key] is [Header.Get("X-Api-Key")],
    the empty string when the header is absent. *)
Module Request.
Record t : Type := Build {
  URL_Path : string;
  Method : string;
  Header_X_Api_Key : string
}.
End Request.

(** ** Authentication (package middleware, and the gateway listener) *)

(** A gin middleware either aborts with a response or calls [c.Next()]. *)
Inductive Middleware : Type :=
| Abort (resp : Response)
| Next.

Definition GatewayAuth (config : AppConfig.t) (c : Request.t) : Middleware :=
  let apiKey := Request.Header_X_Api_Key c in
  let expectedKey :=
    if String.eqb (AppConfig.GatewayKey config) "" then AppConfig.Key config
    else AppConfig.GatewayKey config in
  if String.eqb expectedKey "" || negb (String.eqb expectedKey apiKey)
  then Abort (respondJSON 401 [("error", "invalid gateway api key")])
  else Next.

Definition AdminAuth (config : AppConfig.t) (c : Request.t) : Middleware :=
  let apiKey := Request.Header_X_Api_Key c in
  let expectedKey :=
    if String.eqb (AppConfig.AdminKey config) "" then AppConfig.Key config
    else AppConfig.AdminKey config in
  if String.eqb expectedKey "" || negb (String.eqb expectedKey apiKey)
  then Abort (respondJSON 401 [("error", "invalid admin api key")])
  else Next.

Definition authenticateGatewayRequest (config : AppConfig.t) (r : Request.t)
    : bool :=
  let apiKey := Request.Header_X_Api_Key r in
  let expectedKey :=
    if String.eqb (AppConfig.GatewayKey config) "" then AppConfig.Key config
    else AppConfig.GatewayKey config in
  negb (String.eqb expectedKey "") && String.eqb expectedKey apiKey.

(** ** Load balancer (balancer.go) *)

Module LoadBalancer.

(** The largest [int], [int(^uint(0) >> 1)]. *)
Definition MaxInt : Z := 2 ^ 63 - 1.

(** The candidates are pointers into the pool: each is the key of the
    instance in the pool and the instance it points to. *)
Fixpoint leastConnections_range (instances : list (string * SandboxInstance.t))
    (selected : option (string * SandboxInstance.t)) (minLoad : Z)
    : option (string * SandboxInstance.t) :=
  match instances with
  | [] => selected
  | instance :: instances' =>
      if SandboxInstance.Load instance.2 <? minLoad
      then leastConnections_range instances' (Some instance)
                                  (SandboxInstance.Load instance.2)
      else leastConnections_range instances' selected minLoad
  end.

(** [selected.Load++] when [selected] is not nil. *)
Definition increment (selected : option (string * SandboxInstance.t))
    : option (string * SandboxInstance.t) :=
  match selected with
  | Some (key, instance) =>
      Some (key, SandboxInstance.with_Load instance
                   (wrap64 (SandboxInstance.Load instance + 1)))
  | None => None
  end.

Definition leastConnections (instances : list (string * SandboxInstance.t))
    : option (string * SandboxInstance.t) :=
  increment (leastConnections_range instances None MaxInt).

(** [roundRobin] and [random] have the same text: the instance at index
    [rand.Intn(len(instances))]. *)
Definition random (rand_Intn : Z -> Z)
    (instances : list (string * SandboxInstance.t))
    : option (string * SandboxInstance.t) :=
  if (length instances =? 0)%nat then None
  else increment
         (instances !! Z.to_nat (rand_Intn (Z.of_nat (length instances)))).

Definition roundRobin := random.

Definition Select (strategy : string) (rand_Intn : Z -> Z)
    (instances : list (string * SandboxInstance.t))
    : option (string * SandboxInstance.t) :=
  if (length instances =? 0)%nat then None
  else if String.eqb strategy "least-connections"
  then leastConnections instances
  else if String.eqb strategy "round-robin" then roundRobin rand_Intn instances
  else if String.eqb strategy "random" then random rand_Intn instances
  else leastConnections instances.

End LoadBalancer.

(** ** Sandbox pool *)

Module SandboxPool.
Record t : Type := Build {
  instances : gmap string SandboxInstance.t;
  loadBalancer : string          (* the strategy of the pool's balancer *)
}.
End SandboxPool.

(** What the runtime decides and the code does not: the order in which a
    [range] visits the route cache and the pool, and [rand.Intn]. *)
Record Runtime : Type := {
  range_routeCache : list (string * RouteConfig.t);
  range_instances : list (string * SandboxInstance.t);
  rand_Intn : Z -> Z
}.

Definition is_candidate (sandboxType : string)
    (instance : string * SandboxInstance.t) : bool :=
  String.eqb (SandboxInstance.Type_ instance.2) sandboxType
  && String.eqb (SandboxInstance.Status instance.2) "healthy".

(** [GetHealthyInstance]: the pointer and the error it returns, and the pool
    after the balancer has counted the dispatch. *)
Definition GetHealthyInstance (rt : Runtime) (sp : SandboxPool.t)
    (sandboxType : string)
    : option SandboxInstance.t * error * SandboxPool.t :=
  let candidates := List.filter (is_candidate sandboxType) (range_instances rt) in
  if (length candidates =? 0)%nat
  then (None,
        Some ("no healthy " +:+ sandboxType +:+ " sandbox available"), sp)
  else
    match LoadBalancer.Select (SandboxPool.loadBalancer sp) (rand_Intn rt)
                              candidates with
    | Some (key, instance) =>
        (Some instance, None,
         SandboxPool.Build (<[key := instance]> (SandboxPool.instances sp))
                           (SandboxPool.loadBalancer sp))
    | None => (None, None, sp)
    end.

(** ** Dispatcher (package gateway, the gateway listener) *)

(** A value of type [interface{}] in the execution envelope. *)
Inductive Any : Type :=
| AnyString (s : string)
| AnyBool (b : bool)
| AnyInt (i : Z).

(** [time.Second], in the nanoseconds of a [time.Duration]. *)
Definition Second : Z := 1000000000.

(** The outbound side: whether [http.NewRequest] accepts the URL, and what
    [client.Do] returns for a client with the given [Timeout], the URL, the
    [X-Api-Key] header and the envelope: an error or the sandbox's
    response. *)
Record HttpClient : Type := {
  NewRequest : string -> error;
  Do : Z -> string -> string -> gmap string Any -> string + Response
}.

(** The envelope that [handleSandboxRequest] builds. *)
Definition executionReq (route : RouteConfig.t) : gmap string Any :=
  <["timeout" := AnyInt (RouteConfig.Timeout route)]>
    (<["enable_network" := AnyBool true]>
       (<["preload" := AnyString ""]>
          (<["code" := AnyString (RouteConfig.Code route)]>
             (<["language" := AnyString "python3"]> ∅)))).

(** The [Timeout] of the client that [forwardToSandbox] builds. *)
Definition clientTimeout (reqData : gmap string Any) : Z :=
  match reqData !! "timeout" with
  | Some (AnyInt to) => wrap64 (to * Second)
  | _ => 30 * Second
  end.

Definition forwardToSandbox (config : AppConfig.t) (http : HttpClient)
    (instance : option SandboxInstance.t) (reqData : gmap string Any)
    (r : Request.t) : Outcome :=
  let timeout := clientTimeout reqData in
  match instance with
  | None => Panicked
  | Some instance =>
      let url := SandboxInstance.URL instance +:+ "/run" in
      match NewRequest http url with
      | Some err => Responded (respondJSON 500 [("error", err)])
      | None =>
          let apiKey :=
            if String.eqb (Request.Header_X_Api_Key r) "" then
              if String.eqb (AppConfig.GatewayKey config) ""
              then "xai-sandbox" else AppConfig.GatewayKey config
            else Request.Header_X_Api_Key r in
          match Do http timeout url apiKey reqData with
          | inl err =>
              Responded
                (respondJSON 502 [("error", "sandbox unavailable: " +:+ err)])
          | inr resp => Responded resp
          end
      end
  end.

Definition handleSandboxRequest (config : AppConfig.t) (http : HttpClient)
    (rt : Runtime) (sp : SandboxPool.t) (route : RouteConfig.t)
    (r : Request.t) : Outcome * SandboxPool.t :=
  match GetHealthyInstance rt sp (RouteConfig.SandboxType route) with
  | (_, Some err, sp') => (Responded (respondJSON 503 [("error", err)]), sp')
  | (instance, None, sp') =>
      (forwardToSandbox config http instance (executionReq route) r, sp')
  end.

Definition handleProxyRequest (route : RouteConfig.t) (r : Request.t)
    : Outcome :=
  Responded (respondJSON 501 [("error", "proxy handler not implemented")]).

Definition handleStaticRequest (route : RouteConfig.t) (r : Request.t)
    : Outcome :=
  Responded (respondJSON 501 [("error", "static handler not implemented")]).

Section Dispatcher.
Context (X : Extern) (config : AppConfig.t) (http : HttpClient).

Definition dynamicRouteHandler (rt : Runtime) (sp : SandboxPool.t)
    (r : Request.t) : Outcome * SandboxPool.t :=
  let path := Request.URL_Path r in
  let method := Request.Method r in
  match matchRoute X (range_routeCache rt) path method with
  | None => (Panicked, sp)
  | Some None =>
      (Responded (respondJSON 404 [("error", "route not found")]), sp)
  | Some (Some route) =>
      if String.eqb (RouteConfig.Handler route) "sandbox"
      then handleSandboxRequest config http rt sp route r
      else if String.eqb (RouteConfig.Handler route) "proxy"
      then (handleProxyRequest route r, sp)
      else if String.eqb (RouteConfig.Handler route) "static"
      then (handleStaticRequest route r, sp)
      else (Responded (respondJSON 500 [("error", "unknown handler type")]),
            sp)
  end.

Definition authenticatedRouteHandler (rt : Runtime) (sp : SandboxPool.t)
    (r : Request.t) : Outcome * SandboxPool.t :=
  if negb (authenticateGatewayRequest config r)
  then (Responded (respondJSON 401 [("error", "invalid gateway api key")]), sp)
  else dynamicRouteHandler rt sp r.

End Dispatcher.

(** ** Admin handlers (package gateway, the admin listener)

    [body] is what [c.BindJSON] decodes, [inl] with the message of its error
    otherwise. *)

Section AdminHandlers.
Context (X : Extern) (rc : RedisClient) (time_Now : nat -> Time).

Definition addRouteHandler (rm : RouteManager.t)
    (body : string + RouteConfig.t)
    : Response * RouteManager.t * list RedisCmd :=
  match body with
  | inl err => (respondJSON 400 [("error", err)], rm, [])
  | inr route =>
      match AddRoute X rc time_Now rm route with
      | (Some err, rm', cmds) => (respondJSON 400 [("error", err)], rm', cmds)
      | (None, rm', cmds) =>
          (respondJSON 200 [("message", "route added");
                            ("id", RouteConfig.ID route)], rm', cmds)
      end
  end.

Definition updateRouteHandler (rm : RouteManager.t) (id : string)
    (body : string + RouteConfig.t)
    : Response * RouteManager.t * list RedisCmd :=
  match body with
  | inl err => (respondJSON 400 [("error", err)], rm, [])
  | inr route =>
      match UpdateRoute X rc time_Now rm id route with
      | (Some err, rm', cmds) => (respondJSON 400 [("error", err)], rm', cmds)
      | (None, rm', cmds) =>
          (respondJSON 200 [("message", "route updated");
                            ("id", RouteConfig.ID route)], rm', cmds)
      end
  end.

Definition deleteRouteHandler (rm : RouteManager.t) (id : string)
    : Response * RouteManager.t * list RedisCmd :=
  match DeleteRoute rc time_Now rm id with
  | (Some err, rm', cmds) => (respondJSON 400 [("error", err)], rm', cmds)
  | (None, rm', cmds) =>
      (respondJSON 200 [("message", "route deleted")], rm', cmds)
  end.

End AdminHandlers.

(** ** The admin listener (setupGinRoutes, corsMiddleware) *)

Definition corsHeaders : list (string * string) :=
  [("Access-Control-Allow-Origin", "*");
   ("Access-Control-Allow-Methods", "GET, POST, PUT, DELETE, OPTIONS");
   ("Access-Control-Allow-Headers",
    "Content-Type, Authorization, X-Requested-With")].

(** [corsMiddleware] sets the three headers and answers an OPTIONS request
    at once with 204. *)
Definition corsMiddleware (c : Request.t) : Middleware :=
  if String.eqb (Request.Method c) "OPTIONS"
  then Abort {| StatusCode := 204; Header := corsHeaders;
                ResponseBody := Raw "" |}
  else Next.

Definition with_corsHeaders (resp : Response) : Response :=
  {| StatusCode := StatusCode resp;
     Header := (corsHeaders ++ Header resp)%list;
     ResponseBody := ResponseBody resp |}.

(** What gin finds for the method and the path of a request: a handler
    that [setupGinRoutes] registers in the group [/admin]; or nothing; or a
    registered path that differs from the path of the request in the
    trailing slash only, and then gin answers with a redirect before any
    middleware runs. *)
Inductive Lookup : Type :=
| Found (handler : Request.t -> Response)
| NotFound
| RedirectTrailingSlash (resp : Response).

(** The chain of the admin listener. [setupGinRoutes] gives
    [corsMiddleware] to the engine, so it runs for every request the engine
    handles, whether a handler is found or not (so do [gin.Recovery] and
    [gin.Logger], which do not change the answer of a handler that
    returns); it gives [AdminAuth] to the group [/admin], so it runs for the
    requests that gin routes to a handler of the group, after the
    middleware of the engine. A request no handler is found for gets the
    404 of gin. *)
Definition adminListener (config : AppConfig.t)
    (gin_lookup : Request.t -> Lookup) (c : Request.t) : Response :=
  match gin_lookup c with
  | RedirectTrailingSlash resp => resp
  | Found handler =>
      match corsMiddleware c with
      | Abort resp => resp
      | Next =>
          with_corsHeaders
            match AdminAuth config c with
            | Abort resp => resp
            | Next => handler c
            end
      end
  | NotFound =>
      match corsMiddleware c with
      | Abort resp => resp
      | Next =>
          with_corsHeaders
            {| StatusCode := 404; Header := [];
               ResponseBody := Raw "404 page not found" |}
      end
  end.

(** The same lookup with every handler replaced by [handler]. *)
Definition with_handler (gin_lookup : Request.t -> Lookup)
    (handler : Request.t -> Response) (c : Request.t) : Lookup :=
  match gin_lookup c with
  | Found _ => Found handler
  | NotFound => NotFound
  | RedirectTrailingSlash resp => RedirectTrailingSlash resp
  end.

(** ** The priority table of the specification (section 4.4)

    One constructor per row; a row applies only when no row above it does.
    [starts_with] and [contains] say in words of strings what the rows
    ask of the paths. The path of a route matches the path of a request as
    a parameterized pattern when mux says so of the request that
    [http.NewRequest] builds for the path. *)

Definition starts_with (s prefix : string) : Prop :=
  exists rest, s = prefix +:+ rest.

Definition contains (s substr : string) : Prop :=
  exists before after, s = before +:+ substr +:+ after.

Definition disqualified (route : RouteConfig.t) (method : string) : Prop :=
  RouteConfig.Method route <> method /\ RouteConfig.Method route <> "ANY".

Definition parameterized_match (X : Extern) (route : RouteConfig.t)
    (path : string) : Prop :=
  mux_Match X (RouteConfig.Path route) (http_NewRequest X path) = Some true.

Definition wildcard_matches (X : Extern) (route : RouteConfig.t)
    (path : string) : Prop :=
  contains (RouteConfig.Path route) "*" /\
  regexp_MatchString X
    ("^" +:+ GoStrings.ReplaceAll (RouteConfig.Path route) "*" ".*" +:+ "$")
    path = true.

Inductive spec_priority (X : Extern) (route : RouteConfig.t)
    (path method : string) : Z -> Prop :=
| prio_disqualified :
    disqualified route method ->
    spec_priority X route path method 0
| prio_exact :
    ~ disqualified route method ->
    RouteConfig.Path route = path ->
    spec_priority X route path method 100
| prio_parameterized :
    ~ disqualified route method ->
    RouteConfig.Path route <> path ->
    parameterized_match X route path ->
    spec_priority X route path method 90
| prio_prefix :
    ~ disqualified route method ->
    RouteConfig.Path route <> path ->
    ~ parameterized_match X route path ->
    starts_with path (RouteConfig.Path route +:+ "/") ->
    spec_priority X route path method 80
| prio_wildcard :
    ~ disqualified route method ->
    RouteConfig.Path route <> path ->
    ~ parameterized_match X route path ->
    ~ starts_with path (RouteConfig.Path route +:+ "/") ->
    wildcard_matches X route path ->
    spec_priority X route path method 70
| prio_otherwise :
    ~ disqualified route method ->
    RouteConfig.Path route <> path ->
    ~ parameterized_match X route path ->
    ~ starts_with path (RouteConfig.Path route +:+ "/") ->
    ~ wildcard_matches X route path ->
    spec_priority X route path method 0.

(** ** The consistency of the catalog

    The two maps of a replica agree: an id has a version exactly when it has
    a route, and the version is that of the route cached under the id. *)

Definition catalog_consistent (rm : RouteManager.t) : Prop :=
  forall id,
    RouteManager.routeVersions rm !! id
    = RouteConfig.Version <$> RouteManager.routeCache rm !! id.

(** ** Sample data for the examples *)

Module Sample.

Definition route (id path method handler : string) (timeout version : Z)
    : RouteConfig.t :=
  RouteConfig.Build id path method handler "python" "print('hi')" ""
                    timeout ∅ 0 0 version.

Definition exact : RouteConfig.t := route "exact" "/a/b" "GET" "sandbox" 5 1.
Definition wild : RouteConfig.t := route "wild" "/a/*" "GET" "sandbox" 5 2.
Definition hello7 : RouteConfig.t :=
  route "hello" "/api/hello" "GET" "sandbox" 5 7.
Definition hello10 : RouteConfig.t :=
  route "hello" "/api/hello" "GET" "sandbox" 5 10.
Definition hello5 : RouteConfig.t :=
  route "hello" "/api/hello" "GET" "sandbox" 5 5.
Definition anonymous5 : RouteConfig.t :=
  route "" "/api/hello" "GET" "sandbox" 5 5.
Definition no_timeout : RouteConfig.t :=
  route "slow" "/api/slow" "GET" "sandbox" 0 1.

(** A reader of unsigned decimal numbers, for [strconv.ParseInt]. *)
Fixpoint decimal (s : string) (acc : Z) : Z :=
  match s with
  | EmptyString => acc
  | String c s' =>
      let d := Z.of_nat (nat_of_ascii c) - 48 in
      if (0 <=? d) && (d <=? 9) then decimal s' (10 * acc + d) else 0
  end.

(** A store whose documents are the names of the routes above. *)
Definition decode (document : string) : option RouteConfig.t :=
  if String.eqb document "hello7" then Some hello7
  else if String.eqb document "hello10" then Some hello10
  else if String.eqb document "hello5" then Some hello5
  else None.

(** The libraries on the data of the examples. [http.NewRequest] rejects
    the url [/%], whose escape is not complete. No route of the examples
    has a parameter: mux matches no request against their paths, and it
    panics when the request is nil. *)
Definition extern : Extern :=
  {| json_Unmarshal := decode;
     json_Marshal := fun r => RouteConfig.ID r;
     strconv_ParseInt := fun s => decimal s 0;
     regexp_MatchString := fun pattern s =>
       String.eqb pattern "^/a/.*$" && GoStrings.HasPrefix s "/a/";
     http_NewRequest_ok := fun url => negb (String.eqb url "/%");
     mux_Match := fun _ req =>
                    match req with Some _ => Some false | None => None end |}.

Definition cache : gmap string RouteConfig.t :=
  <["exact" := exact]> (<["wild" := wild]> ∅).

Definition clock (k : nat) : Time :=
  {| Unix := 1700000000; UnixNano := 1700000000000000000 + Z.of_nat k |}.

Definition redis : RedisClient :=
  {| Get_config_version := ReplyOk "42";
     SMembers_routes_updated := ReplyOk ["hello"];
     HGet_routes := fun id =>
       if String.eqb id "hello" then Some "hello7" else None;
     HGetAll_routes := Some [("hello", "hello7")];
     HSet_routes_ok := true;
     HDel_routes_ok := true |}.

(** A replica with the store enabled and nothing cached. *)
Definition manager : RouteManager.t := RouteManager.new true "instance-1".

Definition event (type id : string) (data : option RouteConfig.t)
    : RouteEvent.t :=
  RouteEvent.Build "test-1" type id data 1700000000 "test".

Definition config_without_keys : AppConfig.t :=
  AppConfig.Build 8195 false "" "" "".

Definition config : AppConfig.t :=
  AppConfig.Build 8195 false "gateway-secret" "admin-secret" "".

Definition request (path method key : string) : Request.t :=
  Request.Build path method key.

(** No sandbox answers: every [client.Do] fails. *)
Definition http_down : HttpClient :=
  {| NewRequest := fun _ => None;
     Do := fun _ _ _ _ => inl "connection refused" |}.

Definition sandbox : SandboxInstance.t :=
  SandboxInstance.Build "py-1" "http://py-1:8194" "python" "healthy" 0 0.

Definition pool : SandboxPool.t :=
  SandboxPool.Build (<["py-1" := sandbox]> ∅) "least-connections".

(** A runtime whose ranges visit the one route [hello] and the one
    sandbox. *)
Definition runtime : Runtime :=
  {| range_routeCache := [("hello", hello7)];
     range_instances := [("py-1", sandbox)];
     rand_Intn := fun _ => 0 |}.

End Sample.

(** ** Sandbox pool operations (types.go, after the types)

    The pool holds pointers: an operation on an instance changes the entry of
    the pool under the key the pointer is stored at. [marshal] is
    [json.Marshal] of an instance. *)

Definition instance_with_URL (i : SandboxInstance.t) (url : string)
    : SandboxInstance.t :=
  SandboxInstance.Build (SandboxInstance.ID i) url (SandboxInstance.Type_ i)
    (SandboxInstance.Status i) (SandboxInstance.Load i)
    (SandboxInstance.LastPing i).

Definition instance_with_Status (i : SandboxInstance.t) (status : string)
    (lastPing : Z) : SandboxInstance.t :=
  SandboxInstance.Build (SandboxInstance.ID i) (SandboxInstance.URL i)
    (SandboxInstance.Type_ i) status (SandboxInstance.Load i) lastPing.

Section Pool.
Context (marshal : SandboxInstance.t -> string).

Definition updateInstanceInRedis (instance : SandboxInstance.t) : RedisCmd :=
  HSet "sandbox:instances" (SandboxInstance.ID instance) (marshal instance).

Definition buildHealthCheckURL (instance : SandboxInstance.t) : string :=
  if String.eqb (SandboxInstance.URL instance) "" then ""
  else if GoStrings.HasPrefix (SandboxInstance.URL instance) "http://"
          || GoStrings.HasPrefix (SandboxInstance.URL instance) "https://"
  then SandboxInstance.URL instance +:+ "/health"
  else "http://" +:+ SandboxInstance.URL instance +:+ "/health".

Definition RegisterInstance (sp : SandboxPool.t) (instance : SandboxInstance.t)
    : error * SandboxPool.t * list RedisCmd :=
  let instance :=
    if negb (String.eqb (SandboxInstance.URL instance) "")
       && negb (GoStrings.HasPrefix (SandboxInstance.URL instance) "http://")
       && negb (GoStrings.HasPrefix (SandboxInstance.URL instance) "https://")
    then instance_with_URL instance ("http://" +:+ SandboxInstance.URL instance)
    else instance in
  (None,
   SandboxPool.Build
     (<[SandboxInstance.ID instance := instance]> (SandboxPool.instances sp))
     (SandboxPool.loadBalancer sp),
   [updateInstanceInRedis instance]).

(** [RemoveInstance]; [hdel] is the error of HDEL sandbox:instances. *)
Definition RemoveInstance (hdel : error) (sp : SandboxPool.t)
    (instanceID : string) : error * SandboxPool.t * list RedisCmd :=
  (hdel,
   SandboxPool.Build (delete instanceID (SandboxPool.instances sp))
                     (SandboxPool.loadBalancer sp),
   [HDel "sandbox:instances" instanceID]).

(** The body of the loop of [checkInstancesHealth] on one instance.
    [http_Get url] is what [client.Get] returns: the status code of the
    response, or [None] for an error; [now] is [time.Now().Unix()]. *)
Definition checkInstanceHealth (http_Get : string -> option Z) (now : Z)
    (instance : SandboxInstance.t) : SandboxInstance.t :=
  let healthURL := buildHealthCheckURL instance in
  if String.eqb healthURL ""
  then instance_with_Status instance "unhealthy"
         (SandboxInstance.LastPing instance)
  else
    match http_Get healthURL with
    | None =>
        instance_with_Status instance "unhealthy"
          (SandboxInstance.LastPing instance)
    | Some code =>
        if code =? 200 then instance_with_Status instance "healthy" now
        else instance_with_Status instance "unhealthy"
               (SandboxInstance.LastPing instance)
    end.

(** [checkInstancesHealth]: the range visits the keys [ids]; each pass reads
    the instance the key points to, probes it and writes it back to the
    store. [time_Now id] is the reading of the clock taken for the instance
    under [id]. *)
Fixpoint checkInstancesHealth (http_Get : string -> option Z)
    (time_Now : string -> Time) (ids : list string) (sp : SandboxPool.t)
    : SandboxPool.t * list RedisCmd :=
  match ids with
  | [] => (sp, [])
  | id :: ids' =>
      match SandboxPool.instances sp !! id with
      | Some instance =>
          let instance :=
            checkInstanceHealth http_Get (Unix (time_Now id)) instance in
          let '(sp', cmds) :=
            checkInstancesHealth http_Get time_Now ids'
              (SandboxPool.Build (<[id := instance]> (SandboxPool.instances sp))
                                 (SandboxPool.loadBalancer sp)) in
          (sp', updateInstanceInRedis instance :: cmds)
      | None => checkInstancesHealth http_Get time_Now ids' sp
      end
  end.

End Pool.

(** ** The event consumer (route_manager.go, after the route manager) *)

Module XMessage.
Record t : Type := Build {
  ID : string;
  Values : gmap string Any
}.
End XMessage.

Module EventConsumerConfig.
Record t : Type := Build {
  ConsumerGroup : string;
  ConsumerName : string;
  BatchSize : Z;
  BlockTime : Z;
  AutoAck : bool
}.
End EventConsumerConfig.

(** The acknowledgement a consumer sends. *)
Inductive StreamCmd : Type :=
| XAck (stream group id : string).

Section Consumer.
(** [json.Unmarshal] into a [RouteEvent], and the error of XACK for the
    message with a given id. *)
Context (json_Unmarshal_event : string -> option RouteEvent.t)
        (xack : string -> error).

Definition processMessage (config : EventConsumerConfig.t)
    (rm : RouteManager.t) (message : XMessage.t)
    : error * RouteManager.t * list StreamCmd :=
  match XMessage.Values message !! "event_data" with
  | Some (AnyString eventData) =>
      match json_Unmarshal_event eventData with
      | None => (Some "failed to unmarshal event", rm, [])
      | Some event =>
          match HandleEvent rm event with
          | (Some err, rm') =>
              (Some ("event handler failed: " +:+ err), rm', [])
          | (None, rm') =>
              if EventConsumerConfig.AutoAck config then
                (match xack (XMessage.ID message) with
                 | Some err => Some ("failed to ack message: " +:+ err)
                 | None => None
                 end,
                 rm',
                 [XAck "gateway:route:events"
                       (EventConsumerConfig.ConsumerGroup config)
                       (XMessage.ID message)])
              else (None, rm', [])
          end
      end
  | _ => (Some "missing event_data in message", rm, [])
  end.

(** The loop of [consumeEvents] over the messages of one read: an error of
    [processMessage] is logged and the loop goes on. *)
Fixpoint processMessages (config : EventConsumerConfig.t)
    (rm : RouteManager.t) (messages : list XMessage.t)
    : RouteManager.t * list StreamCmd :=
  match messages with
  | [] => (rm, [])
  | message :: messages' =>
      let '(_, rm', acks) := processMessage config rm message in
      let '(rm'', acks') := processMessages config rm' messages' in
      (rm'', (acks ++ acks')%list)
  end.

End Consumer.

(** ** More sample data *)

Module Sample2.

(** A codec that reads back the one document it writes. *)
Definition stamped : RouteConfig.t :=
  RouteConfig.with_stamps Sample.hello7 1700000000 1700000000
                          1700000000000000001.

Definition extern : Extern :=
  {| json_Unmarshal := fun s =>
       if String.eqb s "hello" then Some stamped else None;
     json_Marshal := fun r => RouteConfig.ID r;
     strconv_ParseInt := fun s => Sample.decimal s 0;
     regexp_MatchString := fun _ _ => false;
     http_NewRequest_ok := fun url => negb (String.eqb url "/%");
     mux_Match := fun _ req =>
                    match req with Some _ => Some false | None => None end |}.

(** The store after [AddRoute] of [hello]. *)
Definition redis : RedisClient :=
  {| Get_config_version := ReplyOk "1700000000000000002";
     SMembers_routes_updated := ReplyOk ["hello"];
     HGet_routes := fun id =>
       if String.eqb id "hello" then Some "hello" else None;
     HGetAll_routes := Some [("hello", "hello")];
     HSet_routes_ok := true;
     HDel_routes_ok := true |}.

Definition bare_sandbox : SandboxInstance.t :=
  SandboxInstance.Build "py-2" "py-2:8194" "python" "starting" 0 0.

Definition busy_sandbox : SandboxInstance.t :=
  SandboxInstance.Build "py-3" "http://py-3:8194" "python" "healthy" 4 0.

Definition marshal (i : SandboxInstance.t) : string := SandboxInstance.ID i.

Definition consumer : EventConsumerConfig.t :=
  EventConsumerConfig.Build "route-managers" "consumer-1" 10 5000000000 true.

Definition decode_event (s : string) : option RouteEvent.t :=
  if String.eqb s "create-hello"
  then Some (Sample.event "CREATE" "hello" (Some Sample.hello7))
  else if String.eqb s "create-nothing"
  then Some (Sample.event "CREATE" "hello" None)
  else None.

Definition message (id data : string) : XMessage.t :=
  XMessage.Build id (<["event_data" := AnyString data]> ∅).

End Sample2.

(** * Properties *)

(** ** Strings *)

Lemma HasPrefix_starts_with (s prefix : string) :
  GoStrings.HasPrefix s prefix = true <-> starts_with s prefix.
Proof.
  unfold starts_with. revert s.
  induction prefix as [|c prefix IH]; intros s; simpl.
  - split; [intros _; exists s; reflexivity | reflexivity].
  - destruct s as [|d s]; simpl.
    + split; [discriminate | intros [rest H]; discriminate].
    + rewrite andb_true_iff, Ascii.eqb_eq, IH. split.
      * intros [-> [rest ->]]. exists rest. reflexivity.
      * intros [rest H]. injection H as -> ->. split; [reflexivity|].
        exists rest. reflexivity.
Qed.

Lemma Contains_contains (s substr : string) :
  GoStrings.Contains s substr = true <-> contains s substr.
Proof.
  unfold contains.
  induction s as [|c s IH].
  - simpl. rewrite orb_false_r, HasPrefix_starts_with. split.
    + intros [rest H]. exists "", rest. exact H.
    + intros [before [after H]]. destruct before as [|b before].
      * exists after. exact H.
      * discriminate.
  - cbn [GoStrings.Contains]. rewrite orb_true_iff, HasPrefix_starts_with, IH.
    split.
    + intros [[rest H] | [before [after H]]].
      * exists "", rest. exact H.
      * exists (String c before), after. simpl. rewrite H. reflexivity.
    + intros [before [after H]]. destruct before as [|b before].
      * left. exists after. exact H.
      * right. simpl in H. injection H as -> ->. exists before, after.
        reflexivity.
Qed.

(** ** The matcher *)

Section MatcherFacts.
Context (X : Extern).

Lemma disqualified_test (route : RouteConfig.t) (method : string) :
  negb (String.eqb (RouteConfig.Method route) method)
  && negb (String.eqb (RouteConfig.Method route) "ANY") = true
  <-> disqualified route method.
Proof.
  unfold disqualified.
  rewrite andb_true_iff, !negb_true_iff, !String.eqb_neq. reflexivity.
Qed.

Lemma wildcard_test (route : RouteConfig.t) (path : string) :
  GoStrings.Contains (RouteConfig.Path route) "*"
  && regexp_MatchString X
       ("^" +:+ GoStrings.ReplaceAll (RouteConfig.Path route) "*" ".*" +:+ "$")
       path = true
  <-> wildcard_matches X route path.
Proof.
  unfold wildcard_matches. rewrite andb_true_iff, Contains_contains.
  reflexivity.
Qed.

(** A priority that is computed is the one of the table. *)
Lemma calculateMatchPriority_table route path method p :
  calculateMatchPriority X route path method = Some p ->
  spec_priority X route path method p.
Proof.
  unfold calculateMatchPriority, matchPathWithParams.
  destruct (negb (String.eqb (RouteConfig.Method route) method)
            && negb (String.eqb (RouteConfig.Method route) "ANY")) eqn:Hd.
  { intros [= <-]. apply prio_disqualified, disqualified_test, Hd. }
  assert (Hnd : ~ disqualified route method).
  { rewrite <- disqualified_test, Hd. discriminate. }
  destruct (String.eqb (RouteConfig.Path route) path) eqn:He.
  { intros [= <-]. apply prio_exact; [exact Hnd | apply String.eqb_eq, He]. }
  apply String.eqb_neq in He. cbv zeta.
  destruct (mux_Match X (RouteConfig.Path route) (http_NewRequest X path))
    as [[|]|] eqn:Hm; [| |discriminate].
  { intros [= <-]. apply prio_parameterized; assumption. }
  assert (Hnm : ~ parameterized_match X route path).
  { unfold parameterized_match. rewrite Hm. discriminate. }
  destruct (GoStrings.HasPrefix path (RouteConfig.Path route +:+ "/")) eqn:Hp.
  { intros [= <-]. apply prio_prefix; try assumption.
    apply HasPrefix_starts_with, Hp. }
  assert (Hnp : ~ starts_with path (RouteConfig.Path route +:+ "/")).
  { rewrite <- HasPrefix_starts_with, Hp. discriminate. }
  match goal with |- context [if ?b then _ else _] => destruct b eqn:Hw end.
  - intros [= <-]. apply prio_wildcard; try assumption. apply wildcard_test, Hw.
  - intros [= <-]. apply prio_otherwise; try assumption.
    rewrite <- wildcard_test, Hw. discriminate.
Qed.

(** The priority is not computed exactly when the route accepts the method,
    its path is not the path of the request, and mux panics on the request
    that [http.NewRequest] returns for the path of the request. *)
Lemma calculateMatchPriority_panics route path method :
  calculateMatchPriority X route path method = None
  <-> ~ disqualified route method
      /\ RouteConfig.Path route <> path
      /\ mux_Match X (RouteConfig.Path route) (http_NewRequest X path) = None.
Proof.
  unfold calculateMatchPriority, matchPathWithParams.
  destruct (negb (String.eqb (RouteConfig.Method route) method)
            && negb (String.eqb (RouteConfig.Method route) "ANY")) eqn:Hd.
  { split; [discriminate|]. intros [Hnd _]. exfalso.
    apply Hnd, disqualified_test, Hd. }
  assert (Hnd : ~ disqualified route method).
  { rewrite <- disqualified_test, Hd. discriminate. }
  destruct (String.eqb_spec (RouteConfig.Path route) path) as [He|He].
  { split; [discriminate|]. intros (_ & Hne & _). contradiction. }
  cbv zeta.
  destruct (mux_Match X (RouteConfig.Path route) (http_NewRequest X path))
    as [[|]|].
  - split; [discriminate | intros (_ & _ & [=])].
  - split; [|intros (_ & _ & [=])].
    repeat case_match; discriminate.
  - split; auto.
Qed.

Lemma spec_priority_functional route path method p q :
  spec_priority X route path method p ->
  spec_priority X route path method q -> p = q.
Proof.
  intros Hp Hq.
  destruct Hp; destruct Hq; try reflexivity; try contradiction; congruence.
Qed.

Lemma calculateMatchPriority_values route path method p :
  calculateMatchPriority X route path method = Some p ->
  p ∈ [0; 100; 90; 80; 70].
Proof.
  intros H. destruct (calculateMatchPriority_table route path method p H);
    set_solver.
Qed.

Lemma calculateMatchPriority_nonneg route path method p :
  calculateMatchPriority X route path method = Some p -> 0 <= p.
Proof.
  intros H. apply calculateMatchPriority_values in H.
  rewrite !elem_of_cons in H.
  destruct H as [->|[->|[->|[->|[->|H]]]]]; try lia.
  by apply elem_of_nil in H.
Qed.

(** The loop keeps the best route seen so far. Started from a pair of
    locals that agree, it panics exactly when the priority of a route
    visited is not computed; otherwise it ends with a route of the largest
    priority among the start and the routes visited, or with no route when
    the start had none and nothing visited has a positive priority. *)
Lemma matchRoute_range_best routes path method :
  forall matchedRoute matchPriority,
    match matchedRoute with
    | Some r => calculateMatchPriority X r path method = Some matchPriority
                /\ 0 < matchPriority
    | None => matchPriority = 0
    end ->
    match matchRoute_range X routes path method matchedRoute matchPriority with
    | None =>
        exists r, r ∈ routes /\ calculateMatchPriority X r path method = None
    | Some result =>
        (forall r, r ∈ routes ->
           exists p, calculateMatchPriority X r path method = Some p)
        /\ match result with
           | Some best =>
               (matchedRoute = Some best \/ best ∈ routes)
               /\ exists pb,
                    calculateMatchPriority X best path method = Some pb
                    /\ 0 < pb
                    /\ matchPriority <= pb
                    /\ forall r p, r ∈ routes ->
                         calculateMatchPriority X r path method = Some p ->
                         p <= pb
           | None =>
               matchedRoute = None
               /\ forall r, r ∈ routes ->
                    calculateMatchPriority X r path method = Some 0
           end
    end.
Proof.
  induction routes as [|route routes IH]; intros matchedRoute matchPriority Hinv.
  - simpl. split; [intros r Hr; by apply elem_of_nil in Hr|].
    destruct matchedRoute as [r|].
    + destruct Hinv as [Hp Hpos]. split; [by left|].
      exists matchPriority. repeat split; auto; try lia.
      intros r' p Hr'. by apply elem_of_nil in Hr'.
    + split; [reflexivity|]. intros r' Hr'. by apply elem_of_nil in Hr'.
  - cbn [matchRoute_range].
    destruct (calculateMatchPriority X route path method) as [priority|]
      eqn:Hprio.
    2: { exists route. split; [apply list_elem_of_here | exact Hprio]. }
    pose proof (calculateMatchPriority_nonneg route path method _ Hprio)
      as Hnn.
    destruct (Z.gtb_spec priority matchPriority) as [Hgt|Hle].
    + assert (Hpos : 0 < priority).
      { destruct matchedRoute; [destruct Hinv|]; lia. }
      specialize (IH (Some route) priority (conj Hprio Hpos)).
      destruct (matchRoute_range X routes path method (Some route) priority)
        as [result|].
      * destruct IH as [Hall IH]. split.
        { intros r [->|Hr]%elem_of_cons; eauto. }
        destruct result as [best|].
        -- destruct IH as (Hin & pb & Hb & Hbpos & Hge & Hmax).
           split.
           { right. destruct Hin as [[= ->]|Hin];
               [apply list_elem_of_here | by apply list_elem_of_further]. }
           exists pb. repeat split; auto; try lia.
           intros r p [->|Hr]%elem_of_cons Hp; [|by eapply Hmax].
           rewrite Hprio in Hp. injection Hp as <-. exact Hge.
        -- destruct IH as [[=] _].
      * destruct IH as (r & Hr & Hnone). exists r.
        split; [by apply list_elem_of_further | exact Hnone].
    + specialize (IH matchedRoute matchPriority Hinv).
      destruct (matchRoute_range X routes path method matchedRoute
                  matchPriority) as [result|].
      * destruct IH as [Hall IH]. split.
        { intros r [->|Hr]%elem_of_cons; eauto. }
        destruct result as [best|].
        -- destruct IH as (Hin & pb & Hb & Hbpos & Hge & Hmax).
           split.
           { destruct Hin as [Hin|Hin]; [by left | right].
             by apply list_elem_of_further. }
           exists pb. repeat split; auto.
           intros r p [->|Hr]%elem_of_cons Hp; [|by eapply Hmax].
           rewrite Hprio in Hp. injection Hp as <-. lia.
        -- destruct IH as [-> Hz]. split; [reflexivity|].
           intros r [->|Hr]%elem_of_cons; [|by apply Hz].
           rewrite Hprio. f_equal. lia.
      * destruct IH as (r & Hr & Hnone). exists r.
        split; [by apply list_elem_of_further | exact Hnone].
Qed.

Lemma range_visits_cache (cache : gmap string RouteConfig.t)
    (order : list (string * RouteConfig.t)) (r : RouteConfig.t) :
  order ≡ₚ map_to_list cache ->
  r ∈ order.*2 <-> exists id, cache !! id = Some r.
Proof.
  intros Hperm. rewrite list_elem_of_fmap. split.
  - intros [[id r'] [-> Hin]]. exists id. simpl.
    rewrite Hperm in Hin. by apply elem_of_map_to_list in Hin.
  - intros [id Hid]. exists (id, r). split; [reflexivity|].
    rewrite Hperm. by apply elem_of_map_to_list.
Qed.

End MatcherFacts.

(** C1: what the code does. [matchRoute] does not return for every request:
    [matchPathWithParams] drops the error of [http.NewRequest] and hands
    the request, nil when the path of the request does not parse, to mux,
    which dereferences it. The call panics exactly when mux panics for a
    cached route that accepts the method and has another path than the
    request. For the catalog of the one route GET /api/hello and the
    request GET with path [/%] the table gives priority 0, so the claim
    says nil, and the code panics. Whenever [matchRoute] returns, for every
    catalog and every order of the range, it returns what the claim says: a
    cached route of positive priority at least that of every cached route,
    or nil when every cached route has priority 0; and every priority that
    is computed is the one of the table of section 4.4. *)
Theorem matchRoute_highest_priority (X : Extern)
    (cache : gmap string RouteConfig.t)
    (order : list (string * RouteConfig.t)) (path method : string) :
  order ≡ₚ map_to_list cache ->
  match matchRoute X order path method with
  | Some (Some best) =>
      (exists id, cache !! id = Some best)
      /\ exists pb,
           calculateMatchPriority X best path method = Some pb
           /\ 0 < pb
           /\ forall id r, cache !! id = Some r ->
                exists p, calculateMatchPriority X r path method = Some p
                          /\ p <= pb
  | Some None =>
      forall id r, cache !! id = Some r ->
        calculateMatchPriority X r path method = Some 0
  | None =>
      exists id r, cache !! id = Some r
                   /\ calculateMatchPriority X r path method = None
  end
  /\ (forall route,
        calculateMatchPriority X route path method = None
        <-> ~ disqualified route method
            /\ RouteConfig.Path route <> path
            /\ mux_Match X (RouteConfig.Path route) (http_NewRequest X path)
               = None)
  /\ (forall route p,
        calculateMatchPriority X route path method = Some p ->
        spec_priority X route path method p)
  /\ (forall route p,
        spec_priority X route path method p ->
        calculateMatchPriority X route path method = Some p
        \/ calculateMatchPriority X route path method = None)
  /\ (matchRoute Sample.extern [("hello", Sample.hello7)] "/%" "GET" = None
      /\ spec_priority Sample.extern Sample.hello7 "/%" "GET" 0).
Proof.
  intros Hperm. split; [|split; [|split; [|split]]].
  - unfold matchRoute.
    pose proof (matchRoute_range_best X (order.*2) path method None 0 eq_refl)
      as H.
    destruct (matchRoute_range X (order.*2) path method None 0)
      as [[best|]|].
    + destruct H as (Hall & [[=]|Hin] & pb & Hb & Hpos & _ & Hmax).
      split; [by apply (range_visits_cache cache order)|].
      exists pb. split; [exact Hb | split; [exact Hpos|]].
      intros id r Hr.
      assert (Hr' : r ∈ order.*2).
      { apply (range_visits_cache cache order); eauto. }
      destruct (Hall r Hr') as [p Hp]. exists p. split; [exact Hp|].
      by eapply Hmax.
    + destruct H as (_ & _ & Hz). intros id r Hr. apply Hz.
      apply (range_visits_cache cache order); eauto.
    + destruct H as (r & Hr & Hnone).
      apply (range_visits_cache cache order r Hperm) in Hr as [id Hid].
      eauto.
  - intros route. apply calculateMatchPriority_panics.
  - intros route p. apply calculateMatchPriority_table.
  - intros route p Hp.
    destruct (calculateMatchPriority X route path method) as [q|] eqn:Hq;
      [left | by right].
    f_equal. eapply spec_priority_functional; [|exact Hp].
    by apply calculateMatchPriority_table.
  - split; [reflexivity|].
    apply prio_otherwise.
    + intros [Hm _]. by apply Hm.
    + discriminate.
    + discriminate.
    + intros [rest Hrest]. discriminate.
    + intros [[before [after Hc]] _].
      assert (Hn : GoStrings.Contains "/api/hello" "*" = true).
      { apply Contains_contains. by exists before, after. }
      discriminate Hn.
Qed.

(** The catalog of scenario 4, [/a/b] and [/a/*], asked for [/a/b]: the
    exact route is returned. *)
Lemma matchRoute_highest_priority_witness :
  map_to_list Sample.cache ≡ₚ map_to_list Sample.cache
  /\ match matchRoute Sample.extern (map_to_list Sample.cache) "/a/b" "GET" with
     | Some (Some best) =>
         (exists id, Sample.cache !! id = Some best)
         /\ exists pb,
              calculateMatchPriority Sample.extern best "/a/b" "GET" = Some pb
              /\ 0 < pb
              /\ forall id r, Sample.cache !! id = Some r ->
                   exists p,
                     calculateMatchPriority Sample.extern r "/a/b" "GET"
                     = Some p
                     /\ p <= pb
     | Some None =>
         forall id r, Sample.cache !! id = Some r ->
           calculateMatchPriority Sample.extern r "/a/b" "GET" = Some 0
     | None =>
         exists id r, Sample.cache !! id = Some r
                      /\ calculateMatchPriority Sample.extern r "/a/b" "GET"
                         = None
     end.
Proof.
  split; [reflexivity|].
  apply (matchRoute_highest_priority Sample.extern Sample.cache
           (map_to_list Sample.cache) "/a/b" "GET").
  reflexivity.
Defined.

(** Scenario 4 of the specification: the exact route wins over the
    wildcard, whichever is visited first. *)
Example matchRoute_exact_over_wildcard :
  matchRoute Sample.extern [("exact", Sample.exact); ("wild", Sample.wild)]
             "/a/b" "GET" = Some (Some Sample.exact)
  /\ matchRoute Sample.extern [("wild", Sample.wild); ("exact", Sample.exact)]
                "/a/b" "GET" = Some (Some Sample.exact)
  /\ calculateMatchPriority Sample.extern Sample.wild "/a/b" "GET" = Some 70.
Proof. repeat split; vm_compute; reflexivity. Qed.

(** ** The catalog: consistency of the two maps *)

Lemma TrimPrefix_prefixed (prefix s : string) :
  GoStrings.HasPrefix (prefix +:+ s) prefix = true
  /\ GoStrings.TrimPrefix (prefix +:+ s) prefix = s.
Proof.
  assert (H : GoStrings.HasPrefix (prefix +:+ s) prefix = true).
  { apply HasPrefix_starts_with. exists s. reflexivity. }
  split; [exact H|]. unfold GoStrings.TrimPrefix. rewrite H.
  induction prefix as [|c prefix IH]; [reflexivity|].
  simpl. apply IH. apply HasPrefix_starts_with. exists s. reflexivity.
Qed.

Lemma catalog_consistent_spelled (rm : RouteManager.t) :
  catalog_consistent rm
  <-> dom (RouteManager.routeCache rm) = dom (RouteManager.routeVersions rm)
      /\ forall id r, RouteManager.routeCache rm !! id = Some r ->
           RouteManager.routeVersions rm !! id = Some (RouteConfig.Version r).
Proof.
  unfold catalog_consistent. split.
  - intros H. split.
    + apply set_eq. intros id. rewrite !elem_of_dom, H.
      destruct (RouteManager.routeCache rm !! id); simpl;
        split; intros [? ?]; eauto; discriminate.
    + intros id r Hr. rewrite H, Hr. reflexivity.
  - intros [Hdom Hver] id.
    destruct (RouteManager.routeCache rm !! id) as [r|] eqn:Hr; simpl.
    + by apply Hver.
    + apply not_elem_of_dom. rewrite <- Hdom. by apply not_elem_of_dom.
Qed.

Lemma consistent_new (enabled : bool) (instance : string) :
  catalog_consistent (RouteManager.new enabled instance).
Proof. intros id. simpl. by rewrite !lookup_empty. Qed.

Lemma consistent_insert (rm : RouteManager.t) (id : string)
    (route : RouteConfig.t) :
  catalog_consistent rm ->
  catalog_consistent
    (RouteManager.with_routes rm
       (<[id := route]> (RouteManager.routeCache rm))
       (<[id := RouteConfig.Version route]> (RouteManager.routeVersions rm))).
Proof.
  intros H id'. simpl. destruct (decide (id = id')) as [->|Hne].
  - by rewrite !lookup_insert_eq.
  - rewrite !lookup_insert_ne by done. apply H.
Qed.

Lemma consistent_delete (rm : RouteManager.t) (id : string) :
  catalog_consistent rm ->
  catalog_consistent
    (RouteManager.with_routes rm
       (delete id (RouteManager.routeCache rm))
       (delete id (RouteManager.routeVersions rm))).
Proof.
  intros H id'. simpl. destruct (decide (id = id')) as [->|Hne].
  - by rewrite !lookup_delete_eq.
  - rewrite !lookup_delete_ne by done. apply H.
Qed.

Lemma consistent_notify (rm : RouteManager.t) :
  catalog_consistent rm -> catalog_consistent (RouteManager.notify rm).
Proof. intros H id. apply H. Qed.

Lemma consistent_with_lastConfigUpdate (rm : RouteManager.t) (v : Z) :
  catalog_consistent rm ->
  catalog_consistent (RouteManager.with_lastConfigUpdate rm v).
Proof. intros H id. apply H. Qed.

Create HintDb catalog.
#[local] Hint Resolve consistent_new consistent_insert consistent_delete
  consistent_notify consistent_with_lastConfigUpdate : catalog.

Section CatalogFacts.
Context (X : Extern).

Lemma applyUpdatedRoute_consistent rc rm member :
  catalog_consistent rm ->
  catalog_consistent (applyUpdatedRoute X rc rm member).
Proof.
  intros H. unfold applyUpdatedRoute.
  repeat case_match; auto with catalog.
Qed.

Lemma applyUpdatedRoute_fold_consistent rc members :
  forall rm, catalog_consistent rm ->
    catalog_consistent (fold_left (applyUpdatedRoute X rc) members rm).
Proof.
  induction members as [|member members IH]; intros rm H; simpl.
  - exact H.
  - apply IH, applyUpdatedRoute_consistent, H.
Qed.

Lemma loadAll_range_agree routes :
  forall cache versions,
    (forall id, versions !! id = RouteConfig.Version <$> cache !! id) ->
    forall id,
      (loadAll_range X routes cache versions).2 !! id
      = RouteConfig.Version <$> (loadAll_range X routes cache versions).1 !! id.
Proof.
  induction routes as [|[routeID routeJSON] routes IH];
    intros cache versions H; simpl.
  - exact H.
  - destruct (json_Unmarshal X routeJSON) as [route|]; [|by apply IH].
    apply IH. intros id. destruct (decide (routeID = id)) as [->|Hne].
    + by rewrite !lookup_insert_eq.
    + rewrite !lookup_insert_ne by done. apply H.
Qed.

Lemma loadAllRoutesFromRedis_consistent rc rm :
  catalog_consistent rm ->
  catalog_consistent (loadAllRoutesFromRedis X rc rm).
Proof.
  intros H. unfold loadAllRoutesFromRedis.
  destruct (HGetAll_routes rc) as [routes|]; [|exact H].
  pose proof (loadAll_range_agree routes ∅ ∅) as Hall.
  destruct (loadAll_range X routes ∅ ∅) as [cache versions].
  intros id. simpl in *. apply Hall. intros id'. by rewrite !lookup_empty.
Qed.

Lemma loadRoutesIncremental_consistent rc rm :
  catalog_consistent rm ->
  catalog_consistent (loadRoutesIncremental X rc rm).1.
Proof.
  intros H. unfold loadRoutesIncremental.
  repeat case_match; simpl;
    auto using applyUpdatedRoute_fold_consistent,
               loadAllRoutesFromRedis_consistent with catalog.
Qed.

Lemma HandleEvent_consistent rm event :
  catalog_consistent rm -> catalog_consistent (HandleEvent rm event).2.
Proof.
  intros H.
  unfold HandleEvent, handleCreateEvent, handleUpdateEvent, handleDeleteEvent.
  repeat case_match; simpl; auto with catalog.
Qed.

Lemma AddRoute_consistent rc time_Now rm route :
  catalog_consistent rm ->
  catalog_consistent (AddRoute X rc time_Now rm route).1.2.
Proof.
  intros H. unfold AddRoute.
  destruct (validateRouteConfiguration route); simpl; [exact H|].
  apply consistent_notify.
  apply (consistent_insert rm _ (RouteConfig.with_stamps route _ _ _) H).
Qed.

Lemma UpdateRoute_consistent rc time_Now rm routeID newRoute :
  catalog_consistent rm ->
  catalog_consistent (UpdateRoute X rc time_Now rm routeID newRoute).1.2.
Proof.
  intros H. unfold UpdateRoute.
  destruct (RouteManager.routeCache rm !! routeID); [|exact H].
  destruct (validateRouteConfiguration newRoute); [exact H|].
  destruct (negb (String.eqb routeID (RouteConfig.ID newRoute))); [exact H|].
  simpl. apply consistent_notify.
  apply (consistent_insert rm _ (RouteConfig.with_stamps newRoute _ _ _) H).
Qed.

Lemma DeleteRoute_consistent rc time_Now rm routeID :
  catalog_consistent rm ->
  catalog_consistent (DeleteRoute rc time_Now rm routeID).1.2.
Proof.
  intros H. unfold DeleteRoute. simpl. auto with catalog.
Qed.

End CatalogFacts.

(** ** Incremental reconciliation *)

Section ReconciliationFacts.
Context (X : Extern).

Lemma applyUpdatedRoute_redisEnabled rc rm member :
  RouteManager.redisEnabled (applyUpdatedRoute X rc rm member)
  = RouteManager.redisEnabled rm.
Proof. unfold applyUpdatedRoute. repeat case_match; reflexivity. Qed.

Lemma applyUpdatedRoute_fold_redisEnabled rc members :
  forall rm,
    RouteManager.redisEnabled (fold_left (applyUpdatedRoute X rc) members rm)
    = RouteManager.redisEnabled rm.
Proof.
  induction members as [|member members IH]; intros rm; simpl.
  - reflexivity.
  - rewrite IH. apply applyUpdatedRoute_redisEnabled.
Qed.

Lemma loadAllRoutesFromRedis_redisEnabled rc rm :
  RouteManager.redisEnabled (loadAllRoutesFromRedis X rc rm)
  = RouteManager.redisEnabled rm.
Proof.
  unfold loadAllRoutesFromRedis.
  destruct (HGetAll_routes rc) as [routes|]; [|reflexivity].
  destruct (loadAll_range X routes ∅ ∅). reflexivity.
Qed.

(** When the global version has advanced and the marker set has members,
    reconciliation is the loop over the members, followed by the deletion of
    the set and the update of [lastConfigUpdate]. *)
Lemma loadRoutesIncremental_markers rc rm v members :
  RouteManager.redisEnabled rm = true ->
  currentConfigVersion X rc = Some v ->
  RouteManager.lastConfigUpdate rm < v ->
  SMembers_routes_updated rc = ReplyOk members ->
  members <> [] ->
  loadRoutesIncremental X rc rm
  = (RouteManager.with_lastConfigUpdate
       (fold_left (applyUpdatedRoute X rc) members rm) v,
     [Del "gateway:routes:updated"]).
Proof.
  intros Hen Hv Hlt Hm Hne. unfold loadRoutesIncremental.
  rewrite Hen, Hv, Hm. simpl.
  destruct (Z.leb_spec v (RouteManager.lastConfigUpdate rm)); [lia|].
  destruct members; [done|]. reflexivity.
Qed.

(** A plain member never lowers a version, whatever the id. *)
Lemma applyUpdatedRoute_plain_version rc rm member id :
  GoStrings.HasPrefix member "DELETE:" = false ->
  RouteManager.version_of rm id
  <= RouteManager.version_of (applyUpdatedRoute X rc rm member) id.
Proof.
  intros Hplain. unfold applyUpdatedRoute. rewrite Hplain.
  destruct (String.eqb member ""); [lia|].
  destruct (HGet_routes rc member) as [routeJSON|]; [|lia].
  destruct (json_Unmarshal X routeJSON) as [route|]; [|lia].
  destruct (Z.gtb_spec (RouteConfig.Version route)
              (RouteManager.version_of rm member)) as [Hgt|Hle]; [|lia].
  unfold RouteManager.version_of in *. simpl.
  destruct (decide (member = id)) as [->|Hne].
  - rewrite lookup_insert_eq. simpl. lia.
  - rewrite lookup_insert_ne by done. lia.
Qed.

End ReconciliationFacts.

(** C2. During incremental reconciliation each member of the marker set is
    handled by one pass of the loop. On a replica whose two maps agree, a
    tombstone [DELETE:<id>] leaves [id] in neither the cache nor the version
    map and touches no other id. A plain member [<id>] whose route is read
    and decoded from the store hash overwrites both maps at [id] when the
    route's version is strictly greater than the local version of [id]
    (0 when there is none) and touches no other id; when the version is not
    greater, or nothing is read, the replica is left as it was. *)
Theorem incremental_reconciliation_per_member (X : Extern) (rc : RedisClient)
    (rm : RouteManager.t) (member : string) :
  catalog_consistent rm ->
  let rm' := applyUpdatedRoute X rc rm member in
  (forall id, member = "DELETE:" +:+ id ->
     RouteManager.routeCache rm' !! id = None
     /\ RouteManager.routeVersions rm' !! id = None
     /\ forall other, other <> id ->
          RouteManager.routeCache rm' !! other
          = RouteManager.routeCache rm !! other
          /\ RouteManager.routeVersions rm' !! other
             = RouteManager.routeVersions rm !! other)
  /\ (member <> "" -> ~ starts_with member "DELETE:" ->
      match HGet_routes rc member ≫= json_Unmarshal X with
      | Some route =>
          (RouteManager.version_of rm member < RouteConfig.Version route ->
           RouteManager.routeCache rm' !! member = Some route
           /\ RouteManager.routeVersions rm' !! member
              = Some (RouteConfig.Version route)
           /\ forall other, other <> member ->
                RouteManager.routeCache rm' !! other
                = RouteManager.routeCache rm !! other
                /\ RouteManager.routeVersions rm' !! other
                   = RouteManager.routeVersions rm !! other)
          /\ (RouteConfig.Version route <= RouteManager.version_of rm member ->
              rm' = rm)
      | None => rm' = rm
      end)
  /\ (forall v members,
        RouteManager.redisEnabled rm = true ->
        currentConfigVersion X rc = Some v ->
        RouteManager.lastConfigUpdate rm < v ->
        SMembers_routes_updated rc = ReplyOk members ->
        member ∈ members ->
        loadRoutesIncremental X rc rm
        = (RouteManager.with_lastConfigUpdate
             (fold_left (applyUpdatedRoute X rc) members rm) v,
           [Del "gateway:routes:updated"])).
Proof.
  intros Hcons rm'. subst rm'. split; [|split].
  - intros id ->. unfold applyUpdatedRoute.
    destruct (TrimPrefix_prefixed "DELETE:" id) as [Hpre Htrim].
    rewrite Hpre, Htrim. simpl String.eqb. cbv iota.
    destruct (RouteManager.routeCache rm !! id) as [r|] eqn:Hr.
    + simpl. rewrite !lookup_delete_eq. repeat split; try reflexivity.
      all: by rewrite lookup_delete_ne.
    + repeat split; try assumption; try reflexivity.
      rewrite Hcons, Hr. reflexivity.
  - intros Hne Hplain. unfold applyUpdatedRoute.
    apply String.eqb_neq in Hne. rewrite Hne.
    destruct (GoStrings.HasPrefix member "DELETE:") eqn:Hp.
    { exfalso. apply Hplain, HasPrefix_starts_with, Hp. }
    destruct (HGet_routes rc member) as [routeJSON|]; simpl; [|reflexivity].
    destruct (json_Unmarshal X routeJSON) as [route|]; [|reflexivity].
    destruct (Z.gtb_spec (RouteConfig.Version route)
                (RouteManager.version_of rm member)) as [Hgt|Hle].
    + split; [|lia]. intros _. simpl. rewrite !lookup_insert_eq.
      repeat split; try reflexivity.
      all: by rewrite lookup_insert_ne.
    + split; [lia | reflexivity].
  - intros v members Hen Hv Hlt Hm Hin.
    apply loadRoutesIncremental_markers; try assumption.
    intros ->. by apply elem_of_nil in Hin.
Qed.

(** The marker [hello] on an empty replica, the store holding version 7. *)
Lemma incremental_reconciliation_per_member_witness :
  catalog_consistent Sample.manager
  /\ RouteManager.routeCache
       (applyUpdatedRoute Sample.extern Sample.redis Sample.manager "hello")
       !! "hello" = Some Sample.hello7
  /\ RouteManager.routeVersions
       (applyUpdatedRoute Sample.extern Sample.redis Sample.manager "hello")
       !! "hello" = Some 7
  /\ RouteManager.routeCache
       (applyUpdatedRoute Sample.extern Sample.redis
          (applyUpdatedRoute Sample.extern Sample.redis Sample.manager "hello")
          "DELETE:hello")
       !! "hello" = None.
Proof.
  assert (H0 : catalog_consistent Sample.manager).
  { intros id. reflexivity. }
  split; [exact H0|].
  pose proof (incremental_reconciliation_per_member
                Sample.extern Sample.redis Sample.manager "hello" H0)
    as (_ & Hplain & _).
  specialize (Hplain ltac:(discriminate)).
  assert (Hnt : ~ starts_with "hello" "DELETE:").
  { intros [rest Hrest]. discriminate. }
  destruct (Hplain Hnt) as [Hnewer _].
  destruct (Hnewer ltac:(vm_compute; reflexivity)) as (Hc & Hv & _).
  split; [exact Hc | split; [exact Hv|]].
  assert (H1 : catalog_consistent
                 (applyUpdatedRoute Sample.extern Sample.redis
                    Sample.manager "hello")).
  { apply applyUpdatedRoute_consistent, H0. }
  pose proof (incremental_reconciliation_per_member
                Sample.extern Sample.redis _ "DELETE:hello" H1)
    as (Htomb & _ & _).
  destruct (Htomb "hello" eq_refl) as [Hgone _]. exact Hgone.
Defined.

(** C3, as the code has it. A plain marker applied by incremental
    reconciliation never lowers the local version of any id. The handlers of
    CREATE and UPDATE events store the route of the event and its version
    under the target id whatever the local version is, and [AddRoute] and
    [UpdateRoute] store the reading of the clock taken at the mutation. *)
Theorem applied_versions (X : Extern) (rc : RedisClient)
    (time_Now : nat -> Time) (rm : RouteManager.t) :
  (forall member id,
     GoStrings.HasPrefix member "DELETE:" = false ->
     RouteManager.version_of rm id
     <= RouteManager.version_of (applyUpdatedRoute X rc rm member) id)
  /\ (forall event data,
        RouteEvent.RouteData event = Some data ->
        RouteEvent.EventType event = "CREATE"
        \/ RouteEvent.EventType event = "UPDATE" ->
        let target :=
          if String.eqb (RouteConfig.ID data) "" then RouteEvent.RouteID event
          else RouteConfig.ID data in
        RouteManager.routeCache (HandleEvent rm event).2 !! target = Some data
        /\ RouteManager.version_of (HandleEvent rm event).2 target
           = RouteConfig.Version data)
  /\ (forall route,
        match AddRoute X rc time_Now rm route with
        | (None, rm', _) =>
            RouteManager.version_of rm' (RouteConfig.ID route)
            = UnixNano (time_Now 1%nat)
        | (Some _, rm', _) => rm' = rm
        end)
  /\ (forall id route,
        match UpdateRoute X rc time_Now rm id route with
        | (None, rm', _) =>
            RouteManager.version_of rm' id = UnixNano (time_Now 1%nat)
        | (Some _, rm', _) => rm' = rm
        end).
Proof.
  split; [|split; [|split]].
  - intros member id. apply applyUpdatedRoute_plain_version.
  - intros event data Hdata Htype target. subst target.
    unfold HandleEvent, handleCreateEvent, handleUpdateEvent,
      RouteManager.version_of.
    destruct Htype as [-> | ->]; simpl String.eqb; cbv iota; rewrite Hdata.
    + simpl. by rewrite !lookup_insert_eq.
    + destruct (RouteManager.routeCache rm !! _); simpl;
        by rewrite !lookup_insert_eq.
  - intros route. unfold AddRoute, RouteManager.version_of.
    destruct (validateRouteConfiguration route); [reflexivity|].
    simpl. by rewrite lookup_insert_eq.
  - intros id route. unfold UpdateRoute, RouteManager.version_of.
    destruct (RouteManager.routeCache rm !! id); [|reflexivity].
    destruct (validateRouteConfiguration route); [reflexivity|].
    destruct (negb (String.eqb id (RouteConfig.ID route))); [reflexivity|].
    simpl. by rewrite lookup_insert_eq.
Qed.

(** An UPDATE event of version 5 on a replica that holds version 10. *)
Lemma applied_versions_witness :
  RouteEvent.RouteData (Sample.event "UPDATE" "hello" (Some Sample.hello5))
  = Some Sample.hello5
  /\ RouteManager.version_of
       (HandleEvent
          (HandleEvent Sample.manager
             (Sample.event "CREATE" "hello" (Some Sample.hello10))).2
          (Sample.event "UPDATE" "hello" (Some Sample.hello5))).2
       "hello" = 5.
Proof.
  split; [reflexivity|].
  pose proof (applied_versions Sample.extern Sample.redis Sample.clock
                (HandleEvent Sample.manager
                   (Sample.event "CREATE" "hello" (Some Sample.hello10))).2)
    as (_ & Hevent & _).
  destruct (Hevent (Sample.event "UPDATE" "hello" (Some Sample.hello5))
                   Sample.hello5 eq_refl (or_intror eq_refl)) as [_ Hv].
  exact Hv.
Defined.

(** C3 as stated fails: an UPDATE event that carries version 5 is applied
    over version 10, so the versions applied for [hello] are 10, then 5. *)
Lemma applied_versions_counterexample :
  let rm1 :=
    (HandleEvent Sample.manager
       (Sample.event "CREATE" "hello" (Some Sample.hello10))).2 in
  let rm2 :=
    (HandleEvent rm1 (Sample.event "UPDATE" "hello" (Some Sample.hello5))).2 in
  RouteManager.version_of rm1 "hello" = 10
  /\ RouteManager.version_of rm2 "hello" = 5
  /\ ~ (RouteManager.version_of rm1 "hello"
        <= RouteManager.version_of rm2 "hello").
Proof.
  vm_compute. repeat split; try reflexivity. intros H. apply H. reflexivity.
Qed.

(** C4, as the code has it. The maps of a new replica agree, and every
    catalog operation keeps them in agreement: afterwards the cache and the
    version map have the same keys, and the version stored under a key is
    the version of the route cached under that key. *)
Theorem catalog_stays_consistent (X : Extern) (rc : RedisClient)
    (time_Now : nat -> Time) (rm : RouteManager.t) :
  catalog_consistent rm ->
  (forall route, catalog_consistent (AddRoute X rc time_Now rm route).1.2)
  /\ (forall id route,
        catalog_consistent (UpdateRoute X rc time_Now rm id route).1.2)
  /\ (forall id, catalog_consistent (DeleteRoute rc time_Now rm id).1.2)
  /\ (forall event, catalog_consistent (HandleEvent rm event).2)
  /\ catalog_consistent (loadRoutesIncremental X rc rm).1
  /\ catalog_consistent (loadAllRoutesFromRedis X rc rm)
  /\ (forall enabled instance,
        catalog_consistent (RouteManager.new enabled instance))
  /\ (forall rm0,
        catalog_consistent rm0
        <-> dom (RouteManager.routeCache rm0)
            = dom (RouteManager.routeVersions rm0)
            /\ forall id r, RouteManager.routeCache rm0 !! id = Some r ->
                 RouteManager.routeVersions rm0 !! id
                 = Some (RouteConfig.Version r)).
Proof.
  intros H.
  refine (conj _ (conj _ (conj _ (conj _ (conj _ (conj _ (conj _ _))))))).
  - intros route. by apply AddRoute_consistent.
  - intros id route. by apply UpdateRoute_consistent.
  - intros id. by apply DeleteRoute_consistent.
  - intros event. by apply HandleEvent_consistent.
  - by apply loadRoutesIncremental_consistent.
  - by apply loadAllRoutesFromRedis_consistent.
  - intros enabled instance. apply consistent_new.
  - intros rm0. apply catalog_consistent_spelled.
Qed.

(** A CREATE event whose route data has no id, on an empty replica. *)
Lemma catalog_stays_consistent_witness :
  catalog_consistent Sample.manager
  /\ catalog_consistent
       (HandleEvent Sample.manager
          (Sample.event "CREATE" "x" (Some Sample.anonymous5))).2
  /\ catalog_consistent
       (loadRoutesIncremental Sample.extern Sample.redis Sample.manager).1.
Proof.
  assert (H0 : catalog_consistent Sample.manager).
  { intros id. reflexivity. }
  split; [exact H0|].
  pose proof (catalog_stays_consistent Sample.extern Sample.redis
                Sample.clock Sample.manager H0)
    as (_ & _ & _ & Hevent & Hload & _).
  split; [apply Hevent | exact Hload].
Defined.

(** C4 as stated fails: a CREATE event whose route data has an empty id is
    cached under the event's route id [x]; the version map has no entry for
    the id of the cached route, which is empty, while the route has
    version 5. *)
Lemma versions_by_route_id_counterexample :
  let rm' :=
    (HandleEvent Sample.manager
       (Sample.event "CREATE" "x" (Some Sample.anonymous5))).2 in
  RouteManager.routeCache rm' !! "x" = Some Sample.anonymous5
  /\ RouteManager.version_of rm' (RouteConfig.ID Sample.anonymous5) = 0
  /\ RouteConfig.Version Sample.anonymous5 = 5
  /\ ~ (forall id r, RouteManager.routeCache rm' !! id = Some r ->
          RouteManager.version_of rm' (RouteConfig.ID r)
          = RouteConfig.Version r).
Proof.
  cbv zeta.
  assert (Hx : RouteManager.routeCache
                 (HandleEvent Sample.manager
                    (Sample.event "CREATE" "x" (Some Sample.anonymous5))).2
               !! "x" = Some Sample.anonymous5).
  { vm_compute. reflexivity. }
  split; [exact Hx|]. split; [vm_compute; reflexivity|].
  split; [reflexivity|].
  intros H. specialize (H "x" Sample.anonymous5 Hx). vm_compute in H.
  discriminate H.
Qed.

(** ** Reconciliation twice *)

Section IdempotenceFacts.
Context (X : Extern).

Lemma loadRoutesIncremental_unchanged rc rm v :
  currentConfigVersion X rc = Some v ->
  v <= RouteManager.lastConfigUpdate rm ->
  loadRoutesIncremental X rc rm = (rm, []).
Proof.
  intros Hv Hle. unfold loadRoutesIncremental. rewrite Hv.
  destruct (negb (RouteManager.redisEnabled rm)); [reflexivity|].
  destruct (Z.leb_spec v (RouteManager.lastConfigUpdate rm)); [reflexivity|lia].
Qed.

Lemma redis_after_version cmd rc :
  currentConfigVersion X (redis_after cmd rc) = currentConfigVersion X rc.
Proof.
  destruct cmd; try reflexivity. simpl.
  destruct (String.eqb key "gateway:routes:updated"); reflexivity.
Qed.

Lemma redis_after_all_version cmds rc :
  currentConfigVersion X (fold_right redis_after rc cmds)
  = currentConfigVersion X rc.
Proof.
  induction cmds as [|cmd cmds IH]; simpl; [reflexivity|].
  rewrite redis_after_version. exact IH.
Qed.

(** A reconciliation either changes nothing and sends nothing, or has read a
    global version and leaves it in [lastConfigUpdate]. *)
Lemma loadRoutesIncremental_cases rc rm :
  loadRoutesIncremental X rc rm = (rm, [])
  \/ exists v, currentConfigVersion X rc = Some v
               /\ RouteManager.lastConfigUpdate (loadRoutesIncremental X rc rm).1
                  = v.
Proof.
  unfold loadRoutesIncremental.
  destruct (negb (RouteManager.redisEnabled rm)); [by left|].
  destruct (currentConfigVersion X rc) as [v|]; [|by left].
  destruct (v <=? RouteManager.lastConfigUpdate rm); [by left|].
  destruct (SMembers_routes_updated rc) as [members| |]; [| |by left].
  - right. exists v. split; [reflexivity|].
    destruct (0 <? Z.of_nat (length members)); reflexivity.
  - right. exists v. split; reflexivity.
Qed.

End IdempotenceFacts.

(** C5. A reconciliation that reads a global version not above
    [lastConfigUpdate] returns the replica as it was and sends nothing to
    the store. Hence a second reconciliation, run on the store as the first
    one left it (with the marker set deleted, or untouched when the deletion
    was not sent or did not take effect), changes nothing: cache, version
    map and the rest of the replica are what the first one returned. *)
Theorem reconciliation_idempotent (X : Extern) (rc : RedisClient)
    (rm : RouteManager.t) :
  (forall v,
     currentConfigVersion X rc = Some v ->
     v <= RouteManager.lastConfigUpdate rm ->
     loadRoutesIncremental X rc rm = (rm, []))
  /\ (let rm1 := (loadRoutesIncremental X rc rm).1 in
      let rc1 := fold_right redis_after rc (loadRoutesIncremental X rc rm).2 in
      loadRoutesIncremental X rc1 rm1 = (rm1, [])
      /\ loadRoutesIncremental X rc rm1 = (rm1, [])).
Proof.
  split.
  - intros v. apply loadRoutesIncremental_unchanged.
  - cbv zeta.
    destruct (loadRoutesIncremental_cases X rc rm) as [Hsame | [v [Hv Hlast]]].
    + rewrite Hsame. simpl. split; exact Hsame.
    + split.
      * apply (loadRoutesIncremental_unchanged X _ _ v).
        -- rewrite redis_after_all_version. exact Hv.
        -- rewrite Hlast. lia.
      * apply (loadRoutesIncremental_unchanged X _ _ v); [exact Hv|].
        rewrite Hlast. lia.
Qed.

(** The store at global version 42 with the marker [hello]: the first
    reconciliation caches the route, the second leaves the replica alone. *)
Lemma reconciliation_idempotent_witness :
  currentConfigVersion Sample.extern Sample.redis = Some 42
  /\ 42 <= RouteManager.lastConfigUpdate
             (loadRoutesIncremental Sample.extern Sample.redis
                Sample.manager).1
  /\ RouteManager.routeCache
       (loadRoutesIncremental Sample.extern Sample.redis Sample.manager).1
     !! "hello" = Some Sample.hello7
  /\ loadRoutesIncremental Sample.extern Sample.redis
       (loadRoutesIncremental Sample.extern Sample.redis Sample.manager).1
     = ((loadRoutesIncremental Sample.extern Sample.redis Sample.manager).1,
        []).
Proof.
  assert (Hv : currentConfigVersion Sample.extern Sample.redis = Some 42).
  { vm_compute. reflexivity. }
  assert (Hle : 42 <= RouteManager.lastConfigUpdate
                        (loadRoutesIncremental Sample.extern Sample.redis
                           Sample.manager).1).
  { vm_compute. discriminate. }
  split; [exact Hv | split; [exact Hle | split]].
  - vm_compute. reflexivity.
  - exact (proj1 (reconciliation_idempotent Sample.extern Sample.redis
                    (loadRoutesIncremental Sample.extern Sample.redis
                       Sample.manager).1) 42 Hv Hle).
Defined.

(** ** Admin mutations *)

(** C6, as the code has it. [UpdateRoute] returns an error, leaves the
    replica as it was and sends nothing to the store when the id of the URL
    is not cached or when the id of the body differs from it; the PUT
    handler answers an id that is not cached with status 400, whatever the
    body. *)
Theorem UpdateRoute_refuses (X : Extern) (rc : RedisClient)
    (time_Now : nat -> Time) (rm : RouteManager.t) (id : string)
    (route : RouteConfig.t) :
  RouteManager.routeCache rm !! id = None \/ RouteConfig.ID route <> id ->
  (exists err, UpdateRoute X rc time_Now rm id route = (Some err, rm, []))
  /\ (RouteManager.routeCache rm !! id = None ->
      forall body,
        exists fields,
          updateRouteHandler X rc time_Now rm id body
          = (respondJSON 400 fields, rm, [])).
Proof.
  intros Hbad. split.
  - unfold UpdateRoute.
    destruct (RouteManager.routeCache rm !! id) as [cached|]; [|eauto].
    destruct Hbad as [[=]|Hne].
    destruct (validateRouteConfiguration route) as [err|]; [eauto|].
    assert (Hid : String.eqb id (RouteConfig.ID route) = false).
    { apply String.eqb_neq. congruence. }
    rewrite Hid. simpl. eauto.
  - intros Hnone [err|body]; unfold updateRouteHandler, UpdateRoute.
    + eauto.
    + rewrite Hnone. eauto.
Qed.

(** PUT /admin/routes/ghost on a replica that caches nothing. *)
Lemma UpdateRoute_refuses_witness :
  RouteManager.routeCache Sample.manager !! "ghost" = None
  /\ (exists err,
        UpdateRoute Sample.extern Sample.redis Sample.clock Sample.manager
                    "ghost" Sample.hello7
        = (Some err, Sample.manager, [])).
Proof.
  assert (H : RouteManager.routeCache Sample.manager !! "ghost" = None).
  { reflexivity. }
  split; [exact H|].
  exact (proj1 (UpdateRoute_refuses Sample.extern Sample.redis Sample.clock
                  Sample.manager "ghost" Sample.hello7 (or_introl H))).
Defined.

(** C6 as stated fails: the PUT handler answers an unknown id with 400,
    not 404. *)
Lemma updateRouteHandler_unknown_id_counterexample :
  RouteManager.routeCache Sample.manager !! "ghost" = None
  /\ StatusCode
       (updateRouteHandler Sample.extern Sample.redis Sample.clock
          Sample.manager "ghost" (inr Sample.hello7)).1.1 = 400
  /\ StatusCode
       (updateRouteHandler Sample.extern Sample.redis Sample.clock
          Sample.manager "ghost" (inr Sample.hello7)).1.1 <> 404.
Proof. vm_compute. repeat split; try reflexivity. discriminate. Qed.

(** C9. [DeleteRoute] returns no error for every id, cached or not, so the
    DELETE handler answers 200; afterwards the id is in neither map; and a
    replica with the store enabled sends a DELETE event for the id to the
    event stream, while a replica without the store sends nothing. *)
Theorem DeleteRoute_always_succeeds (rc : RedisClient)
    (time_Now : nat -> Time) (rm : RouteManager.t) (id : string) :
  (DeleteRoute rc time_Now rm id).1.1 = None
  /\ RouteManager.routeCache (DeleteRoute rc time_Now rm id).1.2 !! id = None
  /\ RouteManager.routeVersions (DeleteRoute rc time_Now rm id).1.2 !! id
     = None
  /\ (if RouteManager.redisEnabled rm
      then exists event,
             XAdd "gateway:route:events" event
               ∈ (DeleteRoute rc time_Now rm id).2
             /\ RouteEvent.EventType event = "DELETE"
             /\ RouteEvent.RouteID event = id
      else (DeleteRoute rc time_Now rm id).2 = [])
  /\ (deleteRouteHandler rc time_Now rm id).1.1
     = respondJSON 200 [("message", "route deleted")].
Proof.
  unfold deleteRouteHandler, DeleteRoute. simpl.
  rewrite !lookup_delete_eq. repeat split.
  destruct (RouteManager.redisEnabled rm); [|reflexivity].
  eexists. split.
  - apply elem_of_app. right. apply list_elem_of_here.
  - split; reflexivity.
Qed.

(** DELETE /admin/routes/ghost, an id that was never created. *)
Example DeleteRoute_missing_id :
  RouteManager.routeCache Sample.manager !! "ghost" = None
  /\ (DeleteRoute Sample.redis Sample.clock Sample.manager "ghost").1.1 = None
  /\ StatusCode
       (deleteRouteHandler Sample.redis Sample.clock Sample.manager
          "ghost").1.1 = 200
  /\ length (DeleteRoute Sample.redis Sample.clock Sample.manager "ghost").2
     = 4%nat.
Proof. vm_compute. repeat split; reflexivity. Qed.

(** ** The gateway listener *)

Lemma no_candidates (rt : Runtime) (sp : SandboxPool.t) (sandboxType : string) :
  range_instances rt ≡ₚ map_to_list (SandboxPool.instances sp) ->
  (forall id instance,
     SandboxPool.instances sp !! id = Some instance ->
     ~ (SandboxInstance.Type_ instance = sandboxType
        /\ SandboxInstance.Status instance = "healthy")) ->
  List.filter (is_candidate sandboxType) (range_instances rt) = [].
Proof.
  intros Hperm Hnone.
  assert (Hall : forall entry, entry ∈ range_instances rt ->
                   is_candidate sandboxType entry = false).
  { intros [id instance] Hin. rewrite Hperm in Hin.
    apply elem_of_map_to_list in Hin.
    destruct (is_candidate sandboxType (id, instance)) eqn:Hc; [|reflexivity].
    exfalso. apply (Hnone id instance Hin).
    unfold is_candidate in Hc. simpl in Hc.
    apply andb_true_iff in Hc as [Ht Hs].
    split; by apply String.eqb_eq. }
  clear Hperm Hnone. revert Hall.
  generalize (range_instances rt) as entries.
  induction entries as [|entry entries IH]; intros Hall; [reflexivity|].
  simpl. rewrite (Hall entry) by apply list_elem_of_here.
  apply IH. intros e He. apply Hall. by apply list_elem_of_further.
Qed.

Lemma authenticated_key (config : AppConfig.t) (r : Request.t) :
  authenticateGatewayRequest config r = true ->
  String.eqb (Request.Header_X_Api_Key r) "" = false.
Proof.
  unfold authenticateGatewayRequest. intros H.
  apply andb_true_iff in H as [Hne Heq].
  apply String.eqb_eq in Heq. rewrite <- Heq.
  by apply negb_true_iff in Hne.
Qed.

(** C7: what the code does. A request that passes the check of the gateway
    key is not always answered: [dynamicRouteHandler] calls [matchRoute],
    which panics when mux dereferences the nil request that
    [http.NewRequest] returns for a path that does not parse (the defect of
    C1), and then the handler writes no response. For the catalog of the
    one route GET /api/hello and the request GET with path [/%] no route
    matches, so the claim says 404, and the handler panics. Whenever
    [matchRoute]
    returns, the answers are those of the claim: 404 with the body
    [{"error":"route not found"}] when it returns nil; 503 when the route's
    handler is [sandbox] and the pool holds no healthy instance of the
    route's sandbox type; 502 when an instance is chosen, the request to it
    can be built and the one call of [client.Do] that [forwardToSandbox]
    makes, with the timeout of the route and the key of the request,
    fails; 501 when the handler is [proxy] or [static]; 500 for any other
    handler. *)
Theorem gateway_error_responses (X : Extern) (config : AppConfig.t)
    (http : HttpClient) (rt : Runtime) (sp : SandboxPool.t) (r : Request.t) :
  authenticateGatewayRequest config r = true ->
  range_instances rt ≡ₚ map_to_list (SandboxPool.instances sp) ->
  let answer := (authenticatedRouteHandler X config http rt sp r).1 in
  let matched :=
    matchRoute X (range_routeCache rt) (Request.URL_Path r)
               (Request.Method r) in
  (matched = None -> answer = Panicked)
  /\ (matched = Some None ->
      answer = Responded (respondJSON 404 [("error", "route not found")]))
  /\ (forall route, matched = Some (Some route) ->
       (RouteConfig.Handler route = "sandbox" ->
        (forall id instance,
           SandboxPool.instances sp !! id = Some instance ->
           ~ (SandboxInstance.Type_ instance = RouteConfig.SandboxType route
              /\ SandboxInstance.Status instance = "healthy")) ->
        exists msg, answer = Responded (respondJSON 503 [("error", msg)]))
       /\ (RouteConfig.Handler route = "sandbox" ->
           forall instance sp' err,
             GetHealthyInstance rt sp (RouteConfig.SandboxType route)
             = (Some instance, None, sp') ->
             NewRequest http (SandboxInstance.URL instance +:+ "/run")
             = None ->
             Do http (clientTimeout (executionReq route))
                (SandboxInstance.URL instance +:+ "/run")
                (Request.Header_X_Api_Key r) (executionReq route)
             = inl err ->
             answer
             = Responded
                 (respondJSON 502
                    [("error", "sandbox unavailable: " +:+ err)]))
       /\ (RouteConfig.Handler route = "proxy"
           \/ RouteConfig.Handler route = "static" ->
           exists msg, answer = Responded (respondJSON 501 [("error", msg)]))
       /\ (RouteConfig.Handler route <> "sandbox" ->
           RouteConfig.Handler route <> "proxy" ->
           RouteConfig.Handler route <> "static" ->
           answer
           = Responded (respondJSON 500 [("error", "unknown handler type")])))
  /\ (authenticateGatewayRequest Sample.config
        (Sample.request "/%" "GET" "gateway-secret") = true
      /\ (forall id route,
            (id, route) ∈ range_routeCache Sample.runtime ->
            spec_priority Sample.extern route "/%" "GET" 0)
      /\ (authenticatedRouteHandler Sample.extern Sample.config
            Sample.http_down Sample.runtime Sample.pool
            (Sample.request "/%" "GET" "gateway-secret")).1 = Panicked).
Proof.
  intros Hauth Hperm answer matched. subst answer matched.
  unfold authenticatedRouteHandler, dynamicRouteHandler.
  rewrite Hauth. simpl negb. cbv iota. split; [|split; [|split]].
  - intros ->. reflexivity.
  - intros ->. reflexivity.
  - intros route ->. split; [|split; [|split]].
    + intros -> Hnone. simpl String.eqb. cbv iota.
      unfold handleSandboxRequest, GetHealthyInstance.
      rewrite (no_candidates rt sp _ Hperm Hnone). simpl. eauto.
    + intros -> instance sp' err Hget Hreq Hdo. simpl String.eqb. cbv iota.
      unfold handleSandboxRequest. rewrite Hget.
      unfold forwardToSandbox. rewrite Hreq.
      rewrite (authenticated_key config r Hauth), Hdo. reflexivity.
    + intros [-> | ->]; simpl; eauto.
    + intros Hs Hp Hst.
      apply String.eqb_neq in Hs, Hp, Hst. rewrite Hs, Hp, Hst. reflexivity.
  - split; [reflexivity | split; [|reflexivity]].
    intros id route Hin. simpl in Hin.
    apply list_elem_of_singleton in Hin. injection Hin as -> ->.
    apply prio_otherwise.
    + intros [Hm _]. by apply Hm.
    + discriminate.
    + discriminate.
    + intros [rest Hrest]. discriminate.
    + intros [[before [after Hc]] _].
      assert (Hn : GoStrings.Contains "/api/hello" "*" = true).
      { apply Contains_contains. by exists before, after. }
      discriminate Hn.
Qed.

(** GET /does/not/exist with the gateway key (scenario 5). *)
Lemma gateway_error_responses_witness :
  authenticateGatewayRequest Sample.config
    (Sample.request "/does/not/exist" "GET" "gateway-secret") = true
  /\ range_instances Sample.runtime
     ≡ₚ map_to_list (SandboxPool.instances Sample.pool)
  /\ matchRoute Sample.extern (range_routeCache Sample.runtime)
       "/does/not/exist" "GET" = Some None
  /\ (authenticatedRouteHandler Sample.extern Sample.config Sample.http_down
        Sample.runtime Sample.pool
        (Sample.request "/does/not/exist" "GET" "gateway-secret")).1
     = Responded (respondJSON 404 [("error", "route not found")]).
Proof.
  assert (Hauth : authenticateGatewayRequest Sample.config
                    (Sample.request "/does/not/exist" "GET" "gateway-secret")
                  = true) by reflexivity.
  assert (Hperm : range_instances Sample.runtime
                  ≡ₚ map_to_list (SandboxPool.instances Sample.pool)).
  { unfold Sample.pool. simpl.
    rewrite map_to_list_insert by apply lookup_empty.
    rewrite map_to_list_empty. reflexivity. }
  assert (Hnone : matchRoute Sample.extern (range_routeCache Sample.runtime)
                    "/does/not/exist" "GET" = Some None) by reflexivity.
  split; [exact Hauth | split; [exact Hperm | split; [exact Hnone|]]].
  exact (proj1 (proj2 (gateway_error_responses Sample.extern Sample.config
                         Sample.http_down Sample.runtime Sample.pool
                         (Sample.request "/does/not/exist" "GET"
                            "gateway-secret")
                         Hauth Hperm)) Hnone).
Defined.

(** The route [hello] is matched and the one sandbox is chosen, but it does
    not answer: 502. *)
Example gateway_sandbox_down :
  (authenticatedRouteHandler Sample.extern Sample.config
     Sample.http_down Sample.runtime Sample.pool
     (Sample.request "/api/hello" "GET" "gateway-secret")).1
  = Responded
      (respondJSON 502
         [("error", "sandbox unavailable: connection refused")]).
Proof. vm_compute. reflexivity. Qed.

(** C8: what the code does. The envelope always holds the route's
    [Timeout] as an [int], so the client that [forwardToSandbox] builds
    always gets that many seconds as its timeout and the default of 30 s is
    never taken; a route that gives no timeout has [Timeout] 0, and the client
    gets the timeout 0, which for [http.Client] means no timeout at all. *)
Theorem sandbox_client_timeout (route : RouteConfig.t) :
  clientTimeout (executionReq route)
  = wrap64 (RouteConfig.Timeout route * Second)
  /\ (forall config http instance r,
        NewRequest http (SandboxInstance.URL instance +:+ "/run") = None ->
        exists key,
          forwardToSandbox config http (Some instance) (executionReq route) r
          = match Do http (wrap64 (RouteConfig.Timeout route * Second))
                     (SandboxInstance.URL instance +:+ "/run") key
                     (executionReq route) with
            | inl err =>
                Responded
                  (respondJSON 502
                     [("error", "sandbox unavailable: " +:+ err)])
            | inr resp => Responded resp
            end)
  /\ RouteConfig.Timeout Sample.no_timeout = 0
  /\ clientTimeout (executionReq Sample.no_timeout) = 0
  /\ clientTimeout (executionReq Sample.no_timeout) <> 30 * Second.
Proof.
  assert (Ht : clientTimeout (executionReq route)
               = wrap64 (RouteConfig.Timeout route * Second)).
  { unfold clientTimeout, executionReq. by rewrite lookup_insert_eq. }
  split; [exact Ht | split].
  - intros config http instance r Hreq. unfold forwardToSandbox.
    rewrite Hreq, Ht. eexists. reflexivity.
  - vm_compute. repeat split; try reflexivity. discriminate.
Qed.

(** ** Authentication *)

(** C10: what the code does. When the primary key of a listener and the
    legacy key are both empty, the check of that listener rejects every
    request it sees, whatever its [X-Api-Key] header:
    [authenticateGatewayRequest] is false and the handler of the gateway
    listener answers 401 without touching the pool, [GatewayAuth] aborts
    with 401, and [AdminAuth] aborts with 401. On the admin listener the
    check is not the first thing that runs: a request with the method
    OPTIONS is answered 204 by [corsMiddleware], a request gin finds no
    handler for is answered 404 (or redirected) by gin, and every other
    request is answered 401. None of the answers comes from a handler: the
    answer is the same whatever the handlers do. *)
Theorem authentication_fail_closed (config : AppConfig.t) (r : Request.t) :
  AppConfig.Key config = "" ->
  (AppConfig.GatewayKey config = "" ->
   authenticateGatewayRequest config r = false
   /\ GatewayAuth config r
      = Abort (respondJSON 401 [("error", "invalid gateway api key")])
   /\ forall X http rt sp,
        authenticatedRouteHandler X config http rt sp r
        = (Responded (respondJSON 401 [("error", "invalid gateway api key")]),
           sp))
  /\ (AppConfig.AdminKey config = "" ->
      AdminAuth config r
      = Abort (respondJSON 401 [("error", "invalid admin api key")])
      /\ forall gin_lookup,
           adminListener config gin_lookup r
           = match gin_lookup r with
             | RedirectTrailingSlash resp => resp
             | Found _ =>
                 if String.eqb (Request.Method r) "OPTIONS"
                 then {| StatusCode := 204; Header := corsHeaders;
                         ResponseBody := Raw "" |}
                 else with_corsHeaders
                        (respondJSON 401
                           [("error", "invalid admin api key")])
             | NotFound =>
                 if String.eqb (Request.Method r) "OPTIONS"
                 then {| StatusCode := 204; Header := corsHeaders;
                         ResponseBody := Raw "" |}
                 else with_corsHeaders
                        {| StatusCode := 404; Header := [];
                           ResponseBody := Raw "404 page not found" |}
             end
           /\ (forall handler,
                 adminListener config (with_handler gin_lookup handler) r
                 = adminListener config gin_lookup r)
           /\ ((exists handler, gin_lookup r = Found handler) ->
               Request.Method r <> "OPTIONS" ->
               StatusCode (adminListener config gin_lookup r) = 401)).
Proof.
  intros Hkey. split.
  - intros Hgw.
    assert (Hfalse : authenticateGatewayRequest config r = false).
    { unfold authenticateGatewayRequest. rewrite Hgw, Hkey. reflexivity. }
    split; [exact Hfalse | split].
    + unfold GatewayAuth. rewrite Hgw, Hkey. reflexivity.
    + intros X http rt sp. unfold authenticatedRouteHandler.
      rewrite Hfalse. reflexivity.
  - intros Hadmin.
    assert (Hauth : AdminAuth config r
                    = Abort (respondJSON 401
                               [("error", "invalid admin api key")])).
    { unfold AdminAuth. rewrite Hadmin, Hkey. reflexivity. }
    split; [exact Hauth|]. intros gin_lookup.
    unfold adminListener, with_handler, corsMiddleware. rewrite Hauth.
    split; [|split].
    + destruct (gin_lookup r);
        destruct (String.eqb (Request.Method r) "OPTIONS"); reflexivity.
    + intros handler. destruct (gin_lookup r); reflexivity.
    + intros [handler ->] Hm. apply String.eqb_neq in Hm. rewrite Hm.
      reflexivity.
Qed.

(** No key is configured and the request carries no key either. *)
Lemma authentication_fail_closed_witness :
  AppConfig.Key Sample.config_without_keys = ""
  /\ AppConfig.GatewayKey Sample.config_without_keys = ""
  /\ AppConfig.AdminKey Sample.config_without_keys = ""
  /\ authenticateGatewayRequest Sample.config_without_keys
       (Sample.request "/api/hello" "GET" "") = false
  /\ AdminAuth Sample.config_without_keys
       (Sample.request "/admin/routes" "GET" "")
     = Abort (respondJSON 401 [("error", "invalid admin api key")]).
Proof.
  split; [reflexivity | split; [reflexivity | split; [reflexivity|]]].
  split.
  - exact (proj1 (proj1 (authentication_fail_closed
                           Sample.config_without_keys
                           (Sample.request "/api/hello" "GET" "") eq_refl)
                    eq_refl)).
  - exact (proj1 (proj2 (authentication_fail_closed
                           Sample.config_without_keys
                           (Sample.request "/admin/routes" "GET" "") eq_refl)
                    eq_refl)).
Defined.

(** C10 as stated fails: no key is configured, and two requests on the
    admin listener are not answered 401. OPTIONS /admin/routes, for which
    [setupGinRoutes] registers no handler, is answered 204 by
    [corsMiddleware], and GET /nowhere is answered 404. *)
Lemma adminListener_not_401_counterexample :
  AppConfig.AdminKey Sample.config_without_keys = ""
  /\ AppConfig.Key Sample.config_without_keys = ""
  /\ StatusCode
       (adminListener Sample.config_without_keys (fun _ => NotFound)
          (Sample.request "/admin/routes" "OPTIONS" "")) = 204
  /\ StatusCode
       (adminListener Sample.config_without_keys (fun _ => NotFound)
          (Sample.request "/admin/routes" "OPTIONS" "")) <> 401
  /\ StatusCode
       (adminListener Sample.config_without_keys (fun _ => NotFound)
          (Sample.request "/nowhere" "GET" "")) = 404
  /\ StatusCode
       (adminListener Sample.config_without_keys (fun _ => NotFound)
          (Sample.request "/nowhere" "GET" "")) <> 401.
Proof. vm_compute. repeat split; discriminate. Qed.

(** * Further properties of the code *)

(** ** Validation and the admin mutations *)

(** X1. [validateRouteConfiguration] accepts a route exactly when its id,
    path and method are not empty and its handler is [proxy], [static], or
    [sandbox] with a sandbox type among [python], [nodejs] and [go]. *)
Theorem validateRouteConfiguration_accepts (route : RouteConfig.t) :
  validateRouteConfiguration route = None
  <-> RouteConfig.ID route <> ""
      /\ RouteConfig.Path route <> ""
      /\ RouteConfig.Method route <> ""
      /\ (RouteConfig.Handler route = "proxy"
          \/ RouteConfig.Handler route = "static"
          \/ RouteConfig.Handler route = "sandbox"
             /\ (RouteConfig.SandboxType route = "python"
                 \/ RouteConfig.SandboxType route = "nodejs"
                 \/ RouteConfig.SandboxType route = "go")).
Proof.
  unfold validateRouteConfiguration.
  destruct (String.eqb_spec (RouteConfig.ID route) "") as [Hid|Hid];
    [split; [discriminate | intros [? _]; contradiction]|].
  destruct (String.eqb_spec (RouteConfig.Path route) "") as [Hp|Hp];
    [split; [discriminate | intros (_ & ? & _); contradiction]|].
  destruct (String.eqb_spec (RouteConfig.Method route) "") as [Hm|Hm];
    [split; [discriminate | intros (_ & _ & ? & _); contradiction]|].
  destruct (String.eqb_spec (RouteConfig.Handler route) "") as [Hh|Hh].
  { split; [discriminate|]. rewrite Hh.
    intros (_ & _ & _ & [?|[?|[? _]]]); discriminate. }
  destruct (String.eqb_spec (RouteConfig.Handler route) "sandbox") as [Hs|Hs].
  - simpl.
    destruct (String.eqb_spec (RouteConfig.SandboxType route) "python");
    destruct (String.eqb_spec (RouteConfig.SandboxType route) "nodejs");
    destruct (String.eqb_spec (RouteConfig.SandboxType route) "go");
    simpl; split; try discriminate; try (intros _; tauto).
    rewrite Hs. intros (_ & _ & _ & [?|[?|[_ [?|[?|?]]]]]);
      try discriminate; contradiction.
  - destruct (String.eqb_spec (RouteConfig.Handler route) "proxy");
    destruct (String.eqb_spec (RouteConfig.Handler route) "static");
    simpl; split; try discriminate; try (intros _; tauto).
    intros (_ & _ & _ & [?|[?|[? _]]]); contradiction.
Qed.

(** X2. [addRouteHandler] answers 200 exactly when the body binds and the
    route passes validation. In that case the route is cached under its
    id with the stamps of the clock, its own [created_at] being kept when it
    has one, and no other id is touched; in any other case the answer is
    400, the replica is as before and nothing is sent to the store or to
    the event stream. *)
Theorem addRouteHandler_outcome (X : Extern) (rc : RedisClient)
    (time_Now : nat -> Time) (rm : RouteManager.t)
    (body : string + RouteConfig.t) :
  match body with
  | inr route =>
      match validateRouteConfiguration route with
      | None =>
          let stamped :=
            RouteConfig.with_stamps route
              (if RouteConfig.CreatedAt route =? 0
               then Unix (time_Now 0%nat) else RouteConfig.CreatedAt route)
              (Unix (time_Now 0%nat)) (UnixNano (time_Now 1%nat)) in
          let rm' := (addRouteHandler X rc time_Now rm body).1.2 in
          StatusCode (addRouteHandler X rc time_Now rm body).1.1 = 200
          /\ RouteManager.routeCache rm' !! RouteConfig.ID route = Some stamped
          /\ RouteManager.version_of rm' (RouteConfig.ID route)
             = UnixNano (time_Now 1%nat)
          /\ RouteManager.updateChannel rm' = true
          /\ forall other, other <> RouteConfig.ID route ->
               RouteManager.routeCache rm' !! other
               = RouteManager.routeCache rm !! other
               /\ RouteManager.routeVersions rm' !! other
                  = RouteManager.routeVersions rm !! other
      | Some err =>
          addRouteHandler X rc time_Now rm body
          = (respondJSON 400 [("error", err)], rm, [])
      end
  | inl err =>
      addRouteHandler X rc time_Now rm body
      = (respondJSON 400 [("error", err)], rm, [])
  end.
Proof.
  destruct body as [err|route]; [reflexivity|].
  unfold addRouteHandler, AddRoute.
  destruct (validateRouteConfiguration route) as [err|]; [reflexivity|].
  cbv zeta. unfold RouteManager.version_of. simpl.
  rewrite !lookup_insert_eq. repeat split; try reflexivity.
  all: by rewrite lookup_insert_ne.
Qed.

(** X3. [UpdateRoute] succeeds exactly when the id of the URL is cached, the
    body passes validation and the id of the body is the id of the URL. The
    cached route is then the body with the stamps of the clock: [created_at]
    is the one of the body, not the one of the route that was cached. No
    other id is touched. *)
Theorem UpdateRoute_outcome (X : Extern) (rc : RedisClient)
    (time_Now : nat -> Time) (rm : RouteManager.t) (id : string)
    (newRoute : RouteConfig.t) :
  ((UpdateRoute X rc time_Now rm id newRoute).1.1 = None
   <-> is_Some (RouteManager.routeCache rm !! id)
       /\ validateRouteConfiguration newRoute = None
       /\ RouteConfig.ID newRoute = id)
  /\ ((UpdateRoute X rc time_Now rm id newRoute).1.1 = None ->
      let rm' := (UpdateRoute X rc time_Now rm id newRoute).1.2 in
      RouteManager.routeCache rm' !! id
      = Some (RouteConfig.with_stamps newRoute
                (RouteConfig.CreatedAt newRoute)
                (Unix (time_Now 0%nat)) (UnixNano (time_Now 1%nat)))
      /\ forall other, other <> id ->
           RouteManager.routeCache rm' !! other
           = RouteManager.routeCache rm !! other
           /\ RouteManager.routeVersions rm' !! other
              = RouteManager.routeVersions rm !! other).
Proof.
  unfold UpdateRoute.
  destruct (RouteManager.routeCache rm !! id) as [cached|] eqn:Hc.
  2: { simpl. split; [|discriminate]. split; [discriminate|].
       intros [[? [=]] _]. }
  destruct (validateRouteConfiguration newRoute) as [err|] eqn:Hv.
  { simpl. split; [|discriminate]. split; [discriminate|].
    intros (_ & [=] & _). }
  destruct (String.eqb_spec id (RouteConfig.ID newRoute)) as [Hid|Hid]; simpl.
  - split.
    + split; [intros _; eauto | reflexivity].
    + intros _. rewrite lookup_insert_eq. split; [reflexivity|].
      intros other Hne. by rewrite !lookup_insert_ne.
  - split; [|discriminate]. split; [discriminate|].
    intros (_ & _ & Heq). congruence.
Qed.

(** PUT of [hello] with a body that has no [created_at], on a replica that
    caches [hello]. *)
Lemma UpdateRoute_outcome_witness :
  (UpdateRoute Sample.extern Sample.redis Sample.clock
     (HandleEvent Sample.manager
        (Sample.event "CREATE" "hello" (Some Sample.hello7))).2
     "hello" Sample.hello10).1.1 = None
  /\ RouteConfig.CreatedAt <$>
       RouteManager.routeCache
         (UpdateRoute Sample.extern Sample.redis Sample.clock
            (HandleEvent Sample.manager
               (Sample.event "CREATE" "hello" (Some Sample.hello7))).2
            "hello" Sample.hello10).1.2 !! "hello" = Some 0.
Proof.
  assert (H : (UpdateRoute Sample.extern Sample.redis Sample.clock
                 (HandleEvent Sample.manager
                    (Sample.event "CREATE" "hello" (Some Sample.hello7))).2
                 "hello" Sample.hello10).1.1 = None) by reflexivity.
  split; [exact H|].
  destruct (proj2 (UpdateRoute_outcome Sample.extern Sample.redis Sample.clock
                     (HandleEvent Sample.manager
                        (Sample.event "CREATE" "hello"
                           (Some Sample.hello7))).2
                     "hello" Sample.hello10) H) as [Hc _].
  rewrite Hc. reflexivity.
Defined.

(** ** Propagation to peers *)

(** X4. On a replica with the store enabled, every successful mutation
    publishes one event to the stream, and a peer that handles this event
    reproduces the mutation: after the event of [AddRoute] or [UpdateRoute]
    the peer caches, under the route's id, the very route and version the
    origin caches; after the event of [DeleteRoute] the peer caches no route
    under the id. A mutation that fails publishes nothing. *)
Theorem events_reproduce_mutations (X : Extern) (rc : RedisClient)
    (time_Now : nat -> Time) (rm peer : RouteManager.t) :
  RouteManager.redisEnabled rm = true ->
  (forall route,
     match AddRoute X rc time_Now rm route with
     | (None, rm', cmds) =>
         exists event,
           XAdd "gateway:route:events" event ∈ cmds
           /\ (HandleEvent peer event).1 = None
           /\ is_Some (RouteManager.routeCache rm' !! RouteConfig.ID route)
           /\ RouteManager.routeCache (HandleEvent peer event).2
                !! RouteConfig.ID route
              = RouteManager.routeCache rm' !! RouteConfig.ID route
           /\ RouteManager.routeVersions (HandleEvent peer event).2
                !! RouteConfig.ID route
              = RouteManager.routeVersions rm' !! RouteConfig.ID route
     | (Some _, _, cmds) => cmds = []
     end)
  /\ (forall id route,
        match UpdateRoute X rc time_Now rm id route with
        | (None, rm', cmds) =>
            exists event,
              XAdd "gateway:route:events" event ∈ cmds
              /\ (HandleEvent peer event).1 = None
              /\ is_Some (RouteManager.routeCache rm' !! id)
              /\ RouteManager.routeCache (HandleEvent peer event).2 !! id
                 = RouteManager.routeCache rm' !! id
              /\ RouteManager.routeVersions (HandleEvent peer event).2 !! id
                 = RouteManager.routeVersions rm' !! id
        | (Some _, _, cmds) => cmds = []
        end)
  /\ (forall id,
        exists event,
          XAdd "gateway:route:events" event
            ∈ (DeleteRoute rc time_Now rm id).2
          /\ (HandleEvent peer event).1 = None
          /\ RouteManager.routeCache (HandleEvent peer event).2 !! id = None).
Proof.
  intros Hen. split; [|split].
  - intros route. unfold AddRoute.
    destruct (validateRouteConfiguration route) as [err|]; [reflexivity|].
    rewrite Hen. cbv zeta. eexists. split.
    { apply elem_of_app. right. apply list_elem_of_here. }
    unfold HandleEvent, handleCreateEvent. simpl.
    destruct (String.eqb (RouteConfig.ID route) ""); simpl;
      rewrite !lookup_insert_eq; eauto.
  - intros id route. unfold UpdateRoute.
    destruct (RouteManager.routeCache rm !! id) as [cached|]; [|reflexivity].
    destruct (validateRouteConfiguration route) as [err|]; [reflexivity|].
    destruct (String.eqb_spec id (RouteConfig.ID route)) as [Hid|Hid];
      [|reflexivity].
    simpl negb. cbv iota. rewrite Hen. cbv zeta. eexists. split.
    { apply elem_of_app. right. apply list_elem_of_here. }
    unfold HandleEvent, handleUpdateEvent. simpl. rewrite <- Hid.
    destruct (String.eqb id ""), (RouteManager.routeCache peer !! id); simpl;
      rewrite !lookup_insert_eq; eauto.
  - intros id. unfold DeleteRoute. rewrite Hen. cbv zeta. cbn [snd].
    eexists. split.
    { apply elem_of_app. right. apply list_elem_of_here. }
    unfold HandleEvent, handleDeleteEvent. simpl.
    destruct (RouteManager.routeCache peer !! id) eqn:Hp; simpl.
    + split; [reflexivity|]. apply lookup_delete_eq.
    + split; [reflexivity | exact Hp].
Qed.

(** [AddRoute] of [hello] on an empty replica with the store enabled; the
    peer is another empty replica. *)
Lemma events_reproduce_mutations_witness :
  RouteManager.redisEnabled Sample.manager = true
  /\ exists event,
       XAdd "gateway:route:events" event
         ∈ (AddRoute Sample.extern Sample.redis Sample.clock Sample.manager
              Sample.hello7).2
       /\ RouteManager.routeCache (HandleEvent Sample.manager event).2
            !! "hello"
          = RouteManager.routeCache
              (AddRoute Sample.extern Sample.redis Sample.clock
                 Sample.manager Sample.hello7).1.2 !! "hello".
Proof.
  split; [reflexivity|].
  pose proof (proj1 (events_reproduce_mutations Sample.extern Sample.redis
                       Sample.clock Sample.manager Sample.manager eq_refl)
                Sample.hello7) as H.
  change (AddRoute Sample.extern Sample.redis Sample.clock Sample.manager
            Sample.hello7)
    with (@None string,
          (AddRoute Sample.extern Sample.redis Sample.clock Sample.manager
             Sample.hello7).1.2,
          (AddRoute Sample.extern Sample.redis Sample.clock Sample.manager
             Sample.hello7).2) in H at 1.
  cbv beta iota in H.
  destruct H as (event & Hin & _ & _ & Hcache & _).
  exists event. split; [exact Hin | exact Hcache].
Defined.

Lemma applyUpdatedRoute_tombstone (X : Extern) (rc : RedisClient)
    (rm : RouteManager.t) (id : string) :
  RouteManager.routeCache (applyUpdatedRoute X rc rm ("DELETE:" +:+ id)) !! id
  = None
  /\ forall other, other <> id ->
       RouteManager.routeCache (applyUpdatedRoute X rc rm ("DELETE:" +:+ id))
         !! other
       = RouteManager.routeCache rm !! other.
Proof.
  unfold applyUpdatedRoute.
  destruct (TrimPrefix_prefixed "DELETE:" id) as [Hpre Htrim].
  rewrite Hpre, Htrim. simpl String.eqb. cbv iota.
  destruct (RouteManager.routeCache rm !! id) as [r|] eqn:Hr; simpl.
  - rewrite lookup_delete_eq. split; [reflexivity|].
    intros other Hne. by rewrite lookup_delete_ne.
  - split; [exact Hr | reflexivity].
Qed.

(** X5. The store path of [AddRoute]. With the store enabled and the HSET
    accepted, [AddRoute] of a valid route writes the stamped route under its
    id and marks the id in the marker set. A peer whose store returns this
    document, with a codec that reads back what it wrote, and whose local
    version of the id is lower, caches the stamped route and its version
    when its reconciliation handles the marker; the origin itself, handling
    its own marker, is left as it is. The id must not start with
    [DELETE:]. *)
Theorem markers_reproduce_AddRoute (X : Extern) (rc rc_peer : RedisClient)
    (time_Now : nat -> Time) (rm peer : RouteManager.t)
    (route : RouteConfig.t) :
  RouteManager.redisEnabled rm = true ->
  HSet_routes_ok rc = true ->
  validateRouteConfiguration route = None ->
  GoStrings.HasPrefix (RouteConfig.ID route) "DELETE:" = false ->
  let stamped :=
    RouteConfig.with_stamps route
      (if RouteConfig.CreatedAt route =? 0
       then Unix (time_Now 0%nat) else RouteConfig.CreatedAt route)
      (Unix (time_Now 0%nat)) (UnixNano (time_Now 1%nat)) in
  json_Unmarshal X (json_Marshal X stamped) = Some stamped ->
  HGet_routes rc_peer (RouteConfig.ID route) = Some (json_Marshal X stamped) ->
  HSet "gateway:routes" (RouteConfig.ID route) (json_Marshal X stamped)
    ∈ (AddRoute X rc time_Now rm route).2
  /\ SAdd "gateway:routes:updated" (RouteConfig.ID route)
       ∈ (AddRoute X rc time_Now rm route).2
  /\ (RouteManager.version_of peer (RouteConfig.ID route)
      < UnixNano (time_Now 1%nat) ->
      RouteManager.routeCache
        (applyUpdatedRoute X rc_peer peer (RouteConfig.ID route))
        !! RouteConfig.ID route = Some stamped
      /\ RouteManager.routeVersions
           (applyUpdatedRoute X rc_peer peer (RouteConfig.ID route))
           !! RouteConfig.ID route = Some (UnixNano (time_Now 1%nat)))
  /\ applyUpdatedRoute X rc_peer (AddRoute X rc time_Now rm route).1.2
       (RouteConfig.ID route)
     = (AddRoute X rc time_Now rm route).1.2.
Proof.
  intros Hen Hok Hvalid Hplain stamped Hcodec Hget.
  assert (Hid : String.eqb (RouteConfig.ID route) "" = false).
  { unfold validateRouteConfiguration in Hvalid.
    by destruct (String.eqb (RouteConfig.ID route) ""). }
  unfold AddRoute. rewrite Hvalid, Hen, Hok. cbv zeta. fold stamped.
  cbn [fst snd].
  change (RouteConfig.ID stamped) with (RouteConfig.ID route).
  change (RouteConfig.Version stamped) with (UnixNano (time_Now 1%nat)).
  split; [apply list_elem_of_here|].
  split; [apply list_elem_of_further, list_elem_of_here|].
  split.
  - intros Hlt. unfold applyUpdatedRoute.
    rewrite Hid, Hplain, Hget, Hcodec.
    change (RouteConfig.Version stamped) with (UnixNano (time_Now 1%nat)).
    destruct (Z.gtb_spec (UnixNano (time_Now 1%nat))
                (RouteManager.version_of peer (RouteConfig.ID route)));
      [|lia].
    simpl. by rewrite !lookup_insert_eq.
  - unfold applyUpdatedRoute.
    rewrite Hid, Hplain, Hget, Hcodec.
    change (RouteConfig.Version stamped) with (UnixNano (time_Now 1%nat)).
    unfold RouteManager.version_of. simpl. rewrite lookup_insert_eq. simpl.
    destruct (Z.gtb_spec (UnixNano (time_Now 1%nat))
                (UnixNano (time_Now 1%nat))); [lia | reflexivity].
Qed.

(** [AddRoute] of [hello]; the peer is an empty replica whose store returns
    the document written. *)
Lemma markers_reproduce_AddRoute_witness :
  RouteManager.redisEnabled Sample.manager = true
  /\ HSet_routes_ok Sample.redis = true
  /\ validateRouteConfiguration Sample.hello7 = None
  /\ GoStrings.HasPrefix (RouteConfig.ID Sample.hello7) "DELETE:" = false
  /\ json_Unmarshal Sample2.extern (json_Marshal Sample2.extern Sample2.stamped)
     = Some Sample2.stamped
  /\ HGet_routes Sample2.redis "hello"
     = Some (json_Marshal Sample2.extern Sample2.stamped)
  /\ RouteManager.routeCache
       (applyUpdatedRoute Sample2.extern Sample2.redis Sample.manager "hello")
       !! "hello" = Some Sample2.stamped.
Proof.
  repeat (split; [reflexivity|]).
  pose proof (markers_reproduce_AddRoute Sample2.extern Sample.redis
                Sample2.redis Sample.clock Sample.manager Sample.manager
                Sample.hello7 eq_refl eq_refl eq_refl eq_refl eq_refl eq_refl)
    as (_ & _ & Hpeer & _).
  exact (proj1 (Hpeer ltac:(vm_compute; reflexivity))).
Defined.

(** X6. The store path of [DeleteRoute], and an id that looks like a
    tombstone. With the store enabled and the HDEL accepted, [DeleteRoute]
    marks [DELETE:<id>], and a peer that handles this marker caches no route
    under [id] and keeps every other route. The same holds for the marker
    that [AddRoute] writes for a valid route whose own id is [DELETE:<x>]:
    a peer that handles it drops its route [x] and does not load the new
    route. *)
Theorem tombstone_markers (X : Extern) (rc rc_peer : RedisClient)
    (time_Now : nat -> Time) (rm peer : RouteManager.t) :
  RouteManager.redisEnabled rm = true ->
  (forall id,
     HDel_routes_ok rc = true ->
     SAdd "gateway:routes:updated" ("DELETE:" +:+ id)
       ∈ (DeleteRoute rc time_Now rm id).2
     /\ RouteManager.routeCache
          (applyUpdatedRoute X rc_peer peer ("DELETE:" +:+ id)) !! id = None
     /\ forall other, other <> id ->
          RouteManager.routeCache
            (applyUpdatedRoute X rc_peer peer ("DELETE:" +:+ id)) !! other
          = RouteManager.routeCache peer !! other)
  /\ (forall route x,
        HSet_routes_ok rc = true ->
        validateRouteConfiguration route = None ->
        RouteConfig.ID route = "DELETE:" +:+ x ->
        SAdd "gateway:routes:updated" (RouteConfig.ID route)
          ∈ (AddRoute X rc time_Now rm route).2
        /\ RouteManager.routeCache
             (applyUpdatedRoute X rc_peer peer (RouteConfig.ID route)) !! x
           = None
        /\ RouteManager.routeCache
             (applyUpdatedRoute X rc_peer peer (RouteConfig.ID route))
             !! RouteConfig.ID route
           = RouteManager.routeCache peer !! RouteConfig.ID route).
Proof.
  intros Hen. split.
  - intros id Hok. unfold DeleteRoute. rewrite Hen, Hok. cbv zeta. cbn [snd].
    split; [apply list_elem_of_further, list_elem_of_here|].
    apply applyUpdatedRoute_tombstone.
  - intros route x Hok Hvalid Hid. unfold AddRoute.
    rewrite Hvalid, Hen, Hok. cbv zeta. cbn [snd].
    split; [apply list_elem_of_further, list_elem_of_here|].
    rewrite Hid.
    destruct (applyUpdatedRoute_tombstone X rc_peer peer x) as [Hx Hother].
    split; [exact Hx|]. apply Hother.
    intros Heq. apply (f_equal String.length) in Heq.
    simpl in Heq. change ("" +:+ x) with x in Heq. lia.
Qed.

(** A route whose id is [DELETE:hello], added on one replica, and a peer
    that caches [hello]. *)
Lemma tombstone_markers_witness :
  RouteManager.redisEnabled Sample.manager = true
  /\ validateRouteConfiguration
       (Sample.route "DELETE:hello" "/api/x" "GET" "proxy" 0 0) = None
  /\ RouteManager.routeCache
       (HandleEvent Sample.manager
          (Sample.event "CREATE" "hello" (Some Sample.hello7))).2 !! "hello"
     = Some Sample.hello7
  /\ RouteManager.routeCache
       (applyUpdatedRoute Sample.extern Sample.redis
          (HandleEvent Sample.manager
             (Sample.event "CREATE" "hello" (Some Sample.hello7))).2
          "DELETE:hello") !! "hello" = None.
Proof.
  repeat (split; [reflexivity|]).
  pose proof (proj2 (tombstone_markers Sample.extern Sample.redis Sample.redis
                       Sample.clock Sample.manager
                       (HandleEvent Sample.manager
                          (Sample.event "CREATE" "hello"
                             (Some Sample.hello7))).2 eq_refl)
                (Sample.route "DELETE:hello" "/api/x" "GET" "proxy" 0 0)
                "hello" eq_refl eq_refl eq_refl) as (_ & Hx & _).
  exact Hx.
Defined.

(** ** Events *)

(** X7. [HandleEvent] at its edges: an event of a type other than CREATE,
    UPDATE and DELETE is ignored without error; a CREATE or UPDATE event
    without route data returns an error and leaves the replica as it was; a
    DELETE event never returns an error; and an UPDATE event has the effect
    of the CREATE event with the same content, so it creates the route when
    the id is not cached. *)
Theorem HandleEvent_edges (rm : RouteManager.t) (event : RouteEvent.t) :
  (RouteEvent.EventType event <> "CREATE" ->
   RouteEvent.EventType event <> "UPDATE" ->
   RouteEvent.EventType event <> "DELETE" ->
   HandleEvent rm event = (None, rm))
  /\ (RouteEvent.EventType event = "CREATE"
      \/ RouteEvent.EventType event = "UPDATE" ->
      RouteEvent.RouteData event = None ->
      exists err, HandleEvent rm event = (Some err, rm))
  /\ (RouteEvent.EventType event = "DELETE" ->
      (HandleEvent rm event).1 = None)
  /\ (handleUpdateEvent rm event).2 = (handleCreateEvent rm event).2.
Proof.
  split; [|split; [|split]].
  - intros Hc Hu Hd. unfold HandleEvent.
    apply String.eqb_neq in Hc, Hu, Hd. by rewrite Hc, Hu, Hd.
  - intros [Ht|Ht] Hdata; unfold HandleEvent, handleCreateEvent,
      handleUpdateEvent; rewrite Ht, Hdata; simpl; eauto.
  - intros Ht. unfold HandleEvent, handleDeleteEvent. rewrite Ht. simpl.
    repeat case_match; reflexivity.
  - unfold handleUpdateEvent, handleCreateEvent.
    destruct (RouteEvent.RouteData event); [|reflexivity].
    by case_match.
Qed.

(** X8. Handling an event twice is handling it once, so a redelivered event
    does no harm: this holds for every CREATE and UPDATE event and for every
    event of another type, and for a DELETE event whose route data is
    absent, has an empty id, or has the id of the event (the events that
    [DeleteRoute] publishes carry no route data). *)
Theorem HandleEvent_idempotent (rm : RouteManager.t) (event : RouteEvent.t) :
  (RouteEvent.EventType event = "DELETE" ->
   forall data, RouteEvent.RouteData event = Some data ->
     RouteConfig.ID data = "" \/ RouteConfig.ID data = RouteEvent.RouteID event) ->
  (HandleEvent (HandleEvent rm event).2 event).2 = (HandleEvent rm event).2.
Proof.
  intros Hdel. unfold HandleEvent.
  destruct (String.eqb_spec (RouteEvent.EventType event) "CREATE") as [Hc|Hc].
  { unfold handleCreateEvent.
    destruct (RouteEvent.RouteData event) as [data|]; [|reflexivity].
    simpl. unfold RouteManager.with_routes. simpl.
    by rewrite !insert_insert_eq. }
  destruct (String.eqb_spec (RouteEvent.EventType event) "UPDATE") as [Hu|Hu].
  { unfold handleUpdateEvent.
    destruct (RouteEvent.RouteData event) as [data|]; [|reflexivity].
    cbv zeta.
    destruct (RouteManager.routeCache rm !! _); simpl;
      rewrite lookup_insert_eq; unfold RouteManager.with_routes; simpl;
      by rewrite !insert_insert_eq. }
  destruct (String.eqb_spec (RouteEvent.EventType event) "DELETE") as [Hd|Hd];
    [|reflexivity].
  specialize (Hdel Hd). unfold handleDeleteEvent.
  destruct (RouteManager.routeCache rm !! RouteEvent.RouteID event)
    as [cached|] eqn:Hcached.
  - simpl. rewrite lookup_delete_eq.
    destruct (RouteEvent.RouteData event) as [data|]; [|reflexivity].
    destruct (Hdel data eq_refl) as [Hid|Hid]; rewrite Hid.
    + reflexivity.
    + destruct (negb (String.eqb (RouteEvent.RouteID event) ""));
        [|reflexivity].
      by rewrite lookup_delete_eq.
  - destruct (RouteEvent.RouteData event) as [data|].
    2: { simpl. by rewrite Hcached. }
    destruct (Hdel data eq_refl) as [Hid|Hid]; rewrite Hid.
    + simpl. by rewrite Hcached.
    + destruct (negb (String.eqb (RouteEvent.RouteID event) ""));
        repeat first [rewrite Hcached | progress simpl]; reflexivity.
Qed.

(** The DELETE event that [DeleteRoute] publishes for [hello], delivered
    twice to a replica that caches [hello]. *)
Lemma HandleEvent_idempotent_witness :
  (HandleEvent
     (HandleEvent
        (HandleEvent Sample.manager
           (Sample.event "CREATE" "hello" (Some Sample.hello7))).2
        (Sample.event "DELETE" "hello" None)).2
     (Sample.event "DELETE" "hello" None)).2
  = (HandleEvent
       (HandleEvent Sample.manager
          (Sample.event "CREATE" "hello" (Some Sample.hello7))).2
       (Sample.event "DELETE" "hello" None)).2.
Proof.
  apply (HandleEvent_idempotent
           (HandleEvent Sample.manager
              (Sample.event "CREATE" "hello" (Some Sample.hello7))).2
           (Sample.event "DELETE" "hello" None)).
  intros _ data Hdata. discriminate Hdata.
Defined.

(** ** The event consumer *)

Lemma processMessage_cases
    (decode : string -> option RouteEvent.t) (xack : string -> error)
    (config : EventConsumerConfig.t) (rm : RouteManager.t)
    (message : XMessage.t) :
  let result := processMessage decode xack config rm message in
  match XMessage.Values message !! "event_data" with
  | Some (AnyString eventData) =>
      match decode eventData with
      | Some event =>
          result.1.2 = (HandleEvent rm event).2
          /\ match (HandleEvent rm event).1 with
             | Some _ => is_Some result.1.1 /\ result.2 = []
             | None =>
                 result.2
                 = (if EventConsumerConfig.AutoAck config
                    then [XAck "gateway:route:events"
                               (EventConsumerConfig.ConsumerGroup config)
                               (XMessage.ID message)]
                    else [])
                 /\ (result.1.1 = None
                     <-> EventConsumerConfig.AutoAck config = false
                         \/ xack (XMessage.ID message) = None)
             end
      | None => is_Some result.1.1 /\ result.1.2 = rm /\ result.2 = []
      end
  | _ => is_Some result.1.1 /\ result.1.2 = rm /\ result.2 = []
  end.
Proof.
  cbv zeta. unfold processMessage.
  destruct (XMessage.Values message !! "event_data") as [[eventData|b|i]|];
    simpl; eauto.
  destruct (decode eventData) as [event|]; simpl; eauto.
  destruct (HandleEvent rm event) as [[err|] rm']; simpl; eauto.
  destruct (EventConsumerConfig.AutoAck config); simpl.
  - split; [reflexivity|]. split; [reflexivity|].
    destruct (xack (XMessage.ID message)); simpl; split;
      try discriminate; eauto.
    intros [|]; discriminate.
  - split; [reflexivity|]. split; [reflexivity|]. split; eauto.
Qed.

(** X9. [processMessage] acknowledges a message only after the handler has
    accepted its event, and then only when [AutoAck] is set: a message
    without a string under [event_data], with an event that does not
    decode, or whose handler returns an error (a CREATE or UPDATE event
    without route data) returns an error and sends no acknowledgement, and
    the first two leave the replica as it was. With [AutoAck] set, an
    accepted event is acknowledged once, under the id of the message and
    the group of the consumer. *)
Theorem processMessage_acknowledges
    (decode : string -> option RouteEvent.t) (xack : string -> error)
    (config : EventConsumerConfig.t) (rm : RouteManager.t)
    (message : XMessage.t) :
  let result := processMessage decode xack config rm message in
  match XMessage.Values message !! "event_data" with
  | Some (AnyString eventData) =>
      match decode eventData with
      | Some event =>
          result.1.2 = (HandleEvent rm event).2
          /\ match (HandleEvent rm event).1 with
             | Some _ => is_Some result.1.1 /\ result.2 = []
             | None =>
                 result.2
                 = (if EventConsumerConfig.AutoAck config
                    then [XAck "gateway:route:events"
                               (EventConsumerConfig.ConsumerGroup config)
                               (XMessage.ID message)]
                    else [])
                 /\ (result.1.1 = None
                     <-> EventConsumerConfig.AutoAck config = false
                         \/ xack (XMessage.ID message) = None)
             end
      | None => is_Some result.1.1 /\ result.1.2 = rm /\ result.2 = []
      end
  | _ => is_Some result.1.1 /\ result.1.2 = rm /\ result.2 = []
  end.
Proof. apply processMessage_cases. Qed.

(** A CREATE event without route data is not acknowledged, although the
    consumer acknowledges automatically. *)
Example processMessage_missing_route_data :
  EventConsumerConfig.AutoAck Sample2.consumer = true
  /\ (processMessage Sample2.decode_event (fun _ => None) Sample2.consumer
        Sample.manager (Sample2.message "1-0" "create-nothing")).2 = []
  /\ (processMessage Sample2.decode_event (fun _ => None) Sample2.consumer
        Sample.manager (Sample2.message "1-1" "create-hello")).2
     = [XAck "gateway:route:events" "route-managers" "1-1"].
Proof. vm_compute. repeat split; reflexivity. Qed.

Lemma processMessage_consistent
    (decode : string -> option RouteEvent.t) (xack : string -> error)
    (config : EventConsumerConfig.t) (rm : RouteManager.t)
    (message : XMessage.t) :
  catalog_consistent rm ->
  catalog_consistent (processMessage decode xack config rm message).1.2.
Proof.
  intros H. unfold processMessage.
  destruct (XMessage.Values message !! "event_data") as [[eventData|b|i]|];
    try exact H.
  destruct (decode eventData) as [event|]; [|exact H].
  pose proof (HandleEvent_consistent rm event H) as H'.
  destruct (HandleEvent rm event) as [[err|] rm']; simpl in *; [exact H'|].
  destruct (EventConsumerConfig.AutoAck config); exact H'.
Qed.

(** X10. One read of the consumer: whatever the messages hold, the loop over
    them keeps the two maps of the replica in agreement, and every
    acknowledgement it sends is for a message of the read whose
    [event_data] decodes to an event. *)
Theorem processMessages_safe
    (decode : string -> option RouteEvent.t) (xack : string -> error)
    (config : EventConsumerConfig.t) (messages : list XMessage.t)
    (rm : RouteManager.t) :
  catalog_consistent rm ->
  catalog_consistent (processMessages decode xack config rm messages).1
  /\ forall stream group id,
       XAck stream group id
         ∈ (processMessages decode xack config rm messages).2 ->
       exists message eventData event,
         message ∈ messages
         /\ XMessage.ID message = id
         /\ XMessage.Values message !! "event_data"
            = Some (AnyString eventData)
         /\ decode eventData = Some event.
Proof.
  revert rm. induction messages as [|message messages IH]; intros rm H.
  - simpl. split; [exact H|]. intros ? ? ? Hin. by apply elem_of_nil in Hin.
  - simpl.
    pose proof (processMessage_consistent decode xack config rm message H)
      as H1.
    pose proof (processMessage_cases decode xack config rm message)
      as Hack.
    destruct (processMessage decode xack config rm message)
      as [[err rm1] acks] eqn:Hpm.
    simpl in H1. specialize (IH rm1 H1).
    destruct (processMessages decode xack config rm1 messages)
      as [rm2 acks2].
    simpl in *. destruct IH as [IH1 IH2]. split; [exact IH1|].
    intros stream group id [Hin|Hin]%elem_of_app.
    + assert (Hhere : exists eventData event,
                XMessage.ID message = id
                /\ XMessage.Values message !! "event_data"
                   = Some (AnyString eventData)
                /\ decode eventData = Some event).
      { destruct (XMessage.Values message !! "event_data")
          as [[eventData|b|i]|] eqn:Hvalues.
        2-4: destruct Hack as (_ & _ & ->); by apply elem_of_nil in Hin.
        destruct (decode eventData) as [event|] eqn:Hdecode.
        2: destruct Hack as (_ & _ & ->); by apply elem_of_nil in Hin.
        exists eventData, event. split; [|split; [reflexivity | exact Hdecode]].
        destruct Hack as [_ Hack].
        destruct ((HandleEvent rm event).1).
        - destruct Hack as [_ ->]. by apply elem_of_nil in Hin.
        - destruct Hack as [-> _].
          destruct (EventConsumerConfig.AutoAck config).
          + apply list_elem_of_singleton in Hin. by injection Hin.
          + by apply elem_of_nil in Hin. }
      destruct Hhere as (eventData & event & Hid & Hv & Hd).
      exists message, eventData, event.
      split; [apply list_elem_of_here | auto].
    + destruct (IH2 stream group id Hin) as (m & eventData & event & Hm & ?).
      exists m, eventData, event. split; [by apply list_elem_of_further|auto].
Qed.

(** A read of two messages, the first one without route data. *)
Lemma processMessages_safe_witness :
  catalog_consistent Sample.manager
  /\ catalog_consistent
       (processMessages Sample2.decode_event (fun _ => None) Sample2.consumer
          Sample.manager
          [Sample2.message "1-0" "create-nothing";
           Sample2.message "1-1" "create-hello"]).1.
Proof.
  assert (H0 : catalog_consistent Sample.manager).
  { intros id. reflexivity. }
  split; [exact H0|].
  exact (proj1 (processMessages_safe Sample2.decode_event (fun _ => None)
                  Sample2.consumer
                  [Sample2.message "1-0" "create-nothing";
                   Sample2.message "1-1" "create-hello"]
                  Sample.manager H0)).
Defined.

(** ** More on reconciliation *)

Section MoreReconciliation.
Context (X : Extern).

Lemma applyUpdatedRoute_frame rc rm member :
  RouteManager.lastConfigUpdate (applyUpdatedRoute X rc rm member)
  = RouteManager.lastConfigUpdate rm
  /\ RouteManager.updateChannel (applyUpdatedRoute X rc rm member)
     = RouteManager.updateChannel rm
  /\ RouteManager.instanceID (applyUpdatedRoute X rc rm member)
     = RouteManager.instanceID rm.
Proof. unfold applyUpdatedRoute. repeat case_match; auto. Qed.

Lemma applyUpdatedRoute_fold_frame rc members :
  forall rm,
    RouteManager.updateChannel (fold_left (applyUpdatedRoute X rc) members rm)
    = RouteManager.updateChannel rm
    /\ RouteManager.instanceID (fold_left (applyUpdatedRoute X rc) members rm)
       = RouteManager.instanceID rm.
Proof.
  induction members as [|member members IH]; intros rm; simpl; [auto|].
  destruct (IH (applyUpdatedRoute X rc rm member)) as [-> ->].
  destruct (applyUpdatedRoute_frame rc rm member) as (_ & -> & ->). auto.
Qed.

Lemma loadAll_range_lookup entries :
  NoDup entries.*1 ->
  forall cache versions id,
    (loadAll_range X entries cache versions).1 !! id
    = match (list_to_map entries : gmap string string) !! id
            ≫= json_Unmarshal X with
      | Some route => Some route
      | None => cache !! id
      end.
Proof.
  induction entries as [|[routeID routeJSON] entries IH];
    intros Hnd cache versions id.
  - simpl. by rewrite lookup_empty.
  - simpl in Hnd. apply NoDup_cons in Hnd as [Hfresh Hnd].
    cbn [loadAll_range list_to_map foldr].
    assert (Hnone : (list_to_map entries : gmap string string) !! routeID
                    = None).
    { by apply not_elem_of_list_to_map_1. }
    destruct (decide (routeID = id)) as [->|Hne].
    + rewrite lookup_insert_eq. simpl.
      destruct (json_Unmarshal X routeJSON) as [route|].
      * rewrite (IH Hnd), Hnone. simpl. by rewrite lookup_insert_eq.
      * rewrite (IH Hnd), Hnone. reflexivity.
    + rewrite lookup_insert_ne by done.
      destruct (json_Unmarshal X routeJSON) as [route|].
      * rewrite (IH Hnd). by rewrite lookup_insert_ne.
      * by rewrite (IH Hnd).
Qed.

End MoreReconciliation.

(** X11. What a reconciliation can change: it never lowers
    [lastConfigUpdate], it leaves the flag of the store, the instance id and
    the update channel alone, and it sends to the store nothing but the
    deletion of the marker set; a replica without the store is returned as
    it is and sends nothing. *)
Theorem loadRoutesIncremental_frame (X : Extern) (rc : RedisClient)
    (rm : RouteManager.t) :
  RouteManager.lastConfigUpdate rm
  <= RouteManager.lastConfigUpdate (loadRoutesIncremental X rc rm).1
  /\ RouteManager.redisEnabled (loadRoutesIncremental X rc rm).1
     = RouteManager.redisEnabled rm
  /\ RouteManager.instanceID (loadRoutesIncremental X rc rm).1
     = RouteManager.instanceID rm
  /\ RouteManager.updateChannel (loadRoutesIncremental X rc rm).1
     = RouteManager.updateChannel rm
  /\ ((loadRoutesIncremental X rc rm).2 = []
      \/ (loadRoutesIncremental X rc rm).2 = [Del "gateway:routes:updated"])
  /\ (RouteManager.redisEnabled rm = false ->
      loadRoutesIncremental X rc rm = (rm, [])).
Proof.
  unfold loadRoutesIncremental.
  destruct (RouteManager.redisEnabled rm) eqn:Hen; simpl.
  2: { repeat split; auto; try lia. }
  destruct (currentConfigVersion X rc) as [v|].
  2: { simpl. rewrite Hen. repeat split; auto; try lia; try discriminate. }
  destruct (Z.leb_spec v (RouteManager.lastConfigUpdate rm)) as [Hle|Hlt].
  { simpl. rewrite Hen. repeat split; auto; try lia; try discriminate. }
  assert (Hfull :
    RouteManager.redisEnabled (loadAllRoutesFromRedis X rc rm) = true
    /\ RouteManager.instanceID (loadAllRoutesFromRedis X rc rm)
       = RouteManager.instanceID rm
    /\ RouteManager.updateChannel (loadAllRoutesFromRedis X rc rm)
       = RouteManager.updateChannel rm).
  { rewrite loadAllRoutesFromRedis_redisEnabled.
    unfold loadAllRoutesFromRedis.
    destruct (HGetAll_routes rc) as [entries|]; [|auto].
    destruct (loadAll_range X entries ∅ ∅). auto. }
  destruct Hfull as (Hf1 & Hf2 & Hf3).
  destruct (SMembers_routes_updated rc) as [members| |].
  - destruct (0 <? Z.of_nat (length members)); simpl.
    + rewrite applyUpdatedRoute_fold_redisEnabled, Hen.
      destruct (applyUpdatedRoute_fold_frame X rc members rm) as [-> ->].
      repeat split; auto; try lia; try discriminate.
    + rewrite Hf1, Hf2, Hf3. repeat split; auto; try lia; try discriminate.
  - simpl. rewrite Hf1, Hf2, Hf3. repeat split; auto; try lia; try discriminate.
  - simpl. rewrite Hen. repeat split; auto; try lia; try discriminate.
Qed.

(** X12. The fallback. When the global version has advanced and the marker
    set is empty or missing, reconciliation sends nothing, records the
    version, and replaces the cache by the content of the store hash: an id
    is cached exactly when the hash has a field for it whose value decodes,
    and the route is the decoded one, so routes that the store no longer
    holds are dropped. When the hash cannot be read the cache is kept, and
    the version is recorded all the same. *)
Theorem full_load_fallback (X : Extern) (rc : RedisClient)
    (rm : RouteManager.t) (v : Z) :
  RouteManager.redisEnabled rm = true ->
  currentConfigVersion X rc = Some v ->
  RouteManager.lastConfigUpdate rm < v ->
  SMembers_routes_updated rc = ReplyOk []
  \/ SMembers_routes_updated rc = RedisNil ->
  (loadRoutesIncremental X rc rm).2 = []
  /\ RouteManager.lastConfigUpdate (loadRoutesIncremental X rc rm).1 = v
  /\ match HGetAll_routes rc with
     | Some entries =>
         NoDup entries.*1 ->
         forall id,
           RouteManager.routeCache (loadRoutesIncremental X rc rm).1 !! id
           = (list_to_map entries : gmap string string) !! id
               ≫= json_Unmarshal X
     | None =>
         (loadRoutesIncremental X rc rm).1
         = RouteManager.with_lastConfigUpdate rm v
     end.
Proof.
  intros Hen Hv Hlt Hm. unfold loadRoutesIncremental.
  rewrite Hen, Hv. simpl negb. cbv iota.
  destruct (Z.leb_spec v (RouteManager.lastConfigUpdate rm)); [lia|].
  assert (Hgoal :
    (RouteManager.with_lastConfigUpdate (loadAllRoutesFromRedis X rc rm) v,
     @nil RedisCmd).2 = []
    /\ RouteManager.lastConfigUpdate
         (RouteManager.with_lastConfigUpdate
            (loadAllRoutesFromRedis X rc rm) v) = v
    /\ match HGetAll_routes rc with
       | Some entries =>
           NoDup entries.*1 ->
           forall id,
             RouteManager.routeCache
               (RouteManager.with_lastConfigUpdate
                  (loadAllRoutesFromRedis X rc rm) v) !! id
             = (list_to_map entries : gmap string string) !! id
                 ≫= json_Unmarshal X
       | None =>
           RouteManager.with_lastConfigUpdate
             (loadAllRoutesFromRedis X rc rm) v
           = RouteManager.with_lastConfigUpdate rm v
       end).
  { split; [reflexivity | split; [reflexivity|]].
    unfold loadAllRoutesFromRedis.
    destruct (HGetAll_routes rc) as [entries|]; [|reflexivity].
    intros Hnd id.
    pose proof (loadAll_range_lookup X entries Hnd ∅ ∅ id) as Hl.
    destruct (loadAll_range X entries ∅ ∅) as [cache versions].
    simpl in *. rewrite Hl, lookup_empty.
    by destruct (list_to_map entries !! id ≫= json_Unmarshal X). }
  destruct Hm as [-> | ->]; exact Hgoal.
Qed.

(** An empty marker set at global version 42: the replica loads [hello]
    from the hash. *)
Lemma full_load_fallback_witness :
  RouteManager.redisEnabled Sample.manager = true
  /\ RouteManager.lastConfigUpdate Sample.manager < 42
  /\ RouteManager.routeCache
       (loadRoutesIncremental Sample.extern
          (redis_after (Del "gateway:routes:updated") Sample.redis)
          Sample.manager).1 !! "hello"
     = Some Sample.hello7.
Proof.
  split; [reflexivity | split; [reflexivity|]].
  pose proof (full_load_fallback Sample.extern
                (redis_after (Del "gateway:routes:updated") Sample.redis)
                Sample.manager 42 eq_refl eq_refl eq_refl
                (or_introl eq_refl)) as (_ & _ & Hload).
  simpl in Hload. rewrite Hload; [reflexivity|].
  apply NoDup_singleton.
Defined.

(** ** More on the matcher *)

Section MoreMatcher.
Context (X : Extern).

Lemma matchRoute_range_first routes path method :
  forall matchedRoute matchPriority result,
    matchRoute_range X routes path method matchedRoute matchPriority
    = Some result ->
    (result = matchedRoute
     /\ forall r, r ∈ routes ->
          exists p, calculateMatchPriority X r path method = Some p
                    /\ p <= matchPriority)
    \/ exists before best after pb,
         result = Some best
         /\ routes = (before ++ best :: after)%list
         /\ calculateMatchPriority X best path method = Some pb
         /\ matchPriority < pb
         /\ (forall r, r ∈ before ->
               exists p, calculateMatchPriority X r path method = Some p
                         /\ p < pb)
         /\ (forall r, r ∈ after ->
               exists p, calculateMatchPriority X r path method = Some p
                         /\ p <= pb).
Proof.
  induction routes as [|route routes IH];
    intros matchedRoute matchPriority result Hres; cbn [matchRoute_range] in Hres.
  - left. split; [congruence|]. intros r Hr. by apply elem_of_nil in Hr.
  - destruct (calculateMatchPriority X route path method) as [priority|]
      eqn:Hprio; [|discriminate].
    destruct (Z.gtb_spec priority matchPriority) as [Hgt|Hle].
    + right.
      destruct (IH _ _ _ Hres)
        as [[-> Hall]
           | (before & best & after & pb & -> & -> & Hb & Hlt & Hbe & Haf)].
      * exists [], route, routes, priority. repeat split; auto.
        intros r Hr. by apply elem_of_nil in Hr.
      * exists (route :: before), best, after, pb.
        repeat split; auto; try lia.
        intros r [->|Hr]%elem_of_cons; [|by apply Hbe].
        exists priority. split; [exact Hprio | lia].
    + destruct (IH _ _ _ Hres)
        as [[-> Hall]
           | (before & best & after & pb & -> & -> & Hb & Hlt & Hbe & Haf)].
      * left. split; [reflexivity|].
        intros r [->|Hr]%elem_of_cons; [|by apply Hall].
        exists priority. split; [exact Hprio | lia].
      * right. exists (route :: before), best, after, pb.
        repeat split; auto.
        intros r [->|Hr]%elem_of_cons; [|by apply Hbe].
        exists priority. split; [exact Hprio | lia].
Qed.

Lemma priority_positive_method route path method p :
  calculateMatchPriority X route path method = Some p ->
  0 < p ->
  RouteConfig.Method route = method \/ RouteConfig.Method route = "ANY".
Proof.
  unfold calculateMatchPriority.
  destruct (String.eqb_spec (RouteConfig.Method route) method);
    destruct (String.eqb_spec (RouteConfig.Method route) "ANY");
    simpl; auto.
  intros [= <-]. lia.
Qed.

Lemma priority_100 route path method :
  calculateMatchPriority X route path method = Some 100
  <-> RouteConfig.Path route = path
      /\ (RouteConfig.Method route = method
          \/ RouteConfig.Method route = "ANY").
Proof.
  split.
  - intros H. split.
    + revert H. unfold calculateMatchPriority.
      destruct (String.eqb_spec (RouteConfig.Path route) path); [auto|].
      repeat case_match; discriminate.
    + apply (priority_positive_method route path method 100 H). lia.
  - intros [Hp Hm]. unfold calculateMatchPriority.
    apply String.eqb_eq in Hp. rewrite Hp.
    destruct Hm as [Hm|Hm]; apply String.eqb_eq in Hm; rewrite Hm; simpl;
      [reflexivity|].
    by rewrite andb_false_r.
Qed.

End MoreMatcher.

(** X13. When [matchRoute] returns a route, the route accepts the method of
    the request (its method is the request's or [ANY]), its priority is
    positive, and among the routes of the largest priority it is the one
    the range visits first: every route visited before it has a strictly
    smaller priority, every route visited after it a smaller or equal one.
    When it returns nil, every route visited has priority 0. It panics
    exactly when the priority of a route visited is not computed: the route
    accepts the method, its path is not the path of the request, and mux
    panics on the request that [http.NewRequest] returns for the path. *)
Theorem matchRoute_first_of_best (X : Extern)
    (order : list (string * RouteConfig.t)) (path method : string) :
  match matchRoute X order path method with
  | Some (Some best) =>
      (RouteConfig.Method best = method \/ RouteConfig.Method best = "ANY")
      /\ exists before after pb,
           order.*2 = (before ++ best :: after)%list
           /\ calculateMatchPriority X best path method = Some pb
           /\ 0 < pb
           /\ (forall r, r ∈ before ->
                 exists p, calculateMatchPriority X r path method = Some p
                           /\ p < pb)
           /\ (forall r, r ∈ after ->
                 exists p, calculateMatchPriority X r path method = Some p
                           /\ p <= pb)
  | Some None =>
      forall r, r ∈ order.*2 ->
        calculateMatchPriority X r path method = Some 0
  | None =>
      exists r, r ∈ order.*2
                /\ ~ disqualified r method
                /\ RouteConfig.Path r <> path
                /\ mux_Match X (RouteConfig.Path r) (http_NewRequest X path)
                   = None
  end.
Proof.
  unfold matchRoute.
  pose proof (matchRoute_range_best X (order.*2) path method None 0 eq_refl)
    as Hbest.
  destruct (matchRoute_range X (order.*2) path method None 0)
    as [[best|]|] eqn:Hres.
  - destruct (matchRoute_range_first X _ _ _ _ _ _ Hres)
      as [[[=] _]
         | (before & best' & after & pb & [= <-] & Heq & Hb & Hpos & Hbe & Haf)].
    split.
    + by apply (priority_positive_method X best path method pb).
    + exists before, after, pb. auto.
  - destruct Hbest as (_ & _ & Hz). exact Hz.
  - destruct Hbest as (r & Hr & Hnone).
    apply calculateMatchPriority_panics in Hnone as (Hnd & Hne & Hbad).
    exists r. auto.
Qed.

(** Two routes for the same path and method: the one visited first is
    returned, so the answer depends on the order of the range. *)
Lemma matchRoute_first_of_best_witness :
  matchRoute Sample.extern [("a", Sample.hello7); ("b", Sample.hello10)]
             "/api/hello" "GET" = Some (Some Sample.hello7)
  /\ matchRoute Sample.extern [("b", Sample.hello10); ("a", Sample.hello7)]
                "/api/hello" "GET" = Some (Some Sample.hello10)
  /\ (RouteConfig.Method Sample.hello7 = "GET"
      \/ RouteConfig.Method Sample.hello7 = "ANY").
Proof.
  split; [reflexivity | split; [reflexivity|]].
  exact (proj1 (matchRoute_first_of_best Sample.extern
                  [("a", Sample.hello7); ("b", Sample.hello10)]
                  "/api/hello" "GET")).
Defined.

(** X14. Mutations are visible to the matcher at once. After [AddRoute] has
    accepted a route, a request for exactly the route's path, with the
    route's method, is never answered with nil, whatever the order of the
    range: when [matchRoute] returns, it returns a cached route with that
    very path that accepts the method; it panics only when the cache holds
    a route with another path that accepts the method and mux panics for
    it on the request that [http.NewRequest] returns for the path.
    After [DeleteRoute] of an id, every route that [matchRoute] returns was
    cached under another id before. *)
Theorem mutations_visible_to_matcher (X : Extern) (rc : RedisClient)
    (time_Now : nat -> Time) (rm : RouteManager.t) :
  (forall route order,
     validateRouteConfiguration route = None ->
     order ≡ₚ map_to_list
               (RouteManager.routeCache (AddRoute X rc time_Now rm route).1.2) ->
     match matchRoute X order (RouteConfig.Path route)
                      (RouteConfig.Method route) with
     | Some (Some best) =>
         RouteConfig.Path best = RouteConfig.Path route
         /\ (RouteConfig.Method best = RouteConfig.Method route
             \/ RouteConfig.Method best = "ANY")
     | Some None => False
     | None =>
         exists other r,
           RouteManager.routeCache (AddRoute X rc time_Now rm route).1.2
             !! other = Some r
           /\ RouteConfig.Path r <> RouteConfig.Path route
           /\ ~ disqualified r (RouteConfig.Method route)
           /\ mux_Match X (RouteConfig.Path r)
                (http_NewRequest X (RouteConfig.Path route)) = None
     end)
  /\ (forall id order path method best,
        order ≡ₚ map_to_list
                  (RouteManager.routeCache
                     (DeleteRoute rc time_Now rm id).1.2) ->
        matchRoute X order path method = Some (Some best) ->
        exists other,
          other <> id /\ RouteManager.routeCache rm !! other = Some best).
Proof.
  split.
  - intros route order Hvalid Hperm.
    set (path := RouteConfig.Path route).
    set (method := RouteConfig.Method route).
    assert (Hin : exists stamped,
              RouteManager.routeCache (AddRoute X rc time_Now rm route).1.2
                !! RouteConfig.ID route = Some stamped
              /\ calculateMatchPriority X stamped path method = Some 100).
    { unfold AddRoute. rewrite Hvalid. simpl. rewrite lookup_insert_eq.
      eexists. split; [reflexivity|]. apply priority_100. simpl. auto. }
    destruct Hin as (stamped & Hcached & Hprio).
    assert (Hs : stamped ∈ order.*2).
    { eapply range_visits_cache; eauto. }
    pose proof (matchRoute_range_best X (order.*2) path method None 0 eq_refl)
      as Hbest.
    unfold matchRoute.
    destruct (matchRoute_range X (order.*2) path method None 0)
      as [[best|]|].
    + destruct Hbest as (_ & _ & pb & Hb & _ & _ & Hmax).
      specialize (Hmax stamped 100 Hs Hprio).
      pose proof (calculateMatchPriority_values X best path method pb Hb)
        as Hv.
      assert (Hpb : pb = 100).
      { rewrite !elem_of_cons in Hv.
        destruct Hv as [Hv|[Hv|[Hv|[Hv|[Hv|Hv]]]]]; try lia.
        by apply elem_of_nil in Hv. }
      subst pb. by apply priority_100 in Hb.
    + destruct Hbest as (_ & _ & Hz).
      specialize (Hz stamped Hs). congruence.
    + destruct Hbest as (r & Hr & Hnone).
      apply calculateMatchPriority_panics in Hnone as (Hnd & Hne & Hbad).
      apply (range_visits_cache _ order r Hperm) in Hr as [other Hother].
      exists other, r. auto.
  - intros id order path method best Hperm Hres.
    pose proof (matchRoute_range_best X (order.*2) path method None 0 eq_refl)
      as Hbest.
    unfold matchRoute in Hres. rewrite Hres in Hbest.
    destruct Hbest as (_ & [[=]|Hin] & _).
    apply (range_visits_cache _ order best Hperm) in Hin as [other Hother].
    unfold DeleteRoute in Hother. simpl in Hother.
    apply lookup_delete_Some in Hother as [Hne Hother]. eauto.
Qed.

(** [AddRoute] of [hello] on an empty replica, then GET /api/hello. *)
Lemma mutations_visible_to_matcher_witness :
  validateRouteConfiguration Sample.hello7 = None
  /\ exists best,
       matchRoute Sample.extern
         (map_to_list
            (RouteManager.routeCache
               (AddRoute Sample.extern Sample.redis Sample.clock
                  Sample.manager Sample.hello7).1.2))
         "/api/hello" "GET" = Some (Some best)
       /\ RouteConfig.Path best = "/api/hello".
Proof.
  split; [reflexivity|].
  pose proof (proj1 (mutations_visible_to_matcher Sample.extern Sample.redis
                       Sample.clock Sample.manager)
                Sample.hello7 _ eq_refl (reflexivity _)) as H.
  change (RouteConfig.Path Sample.hello7) with "/api/hello" in H.
  change (RouteConfig.Method Sample.hello7) with "GET" in H.
  destruct (matchRoute Sample.extern _ "/api/hello" "GET") as [[best|]|].
  - exists best. split; [reflexivity | exact (proj1 H)].
  - destruct H.
  - destruct H as (other & r & _ & _ & _ & Hbad). discriminate Hbad.
Defined.

(** ** More on authentication and dispatch *)

(** X15. The key checks. The check of the gateway listener and the
    [GatewayAuth] middleware accept the same requests. A request is accepted
    exactly when its [X-Api-Key] is the gateway key, or, when no gateway key
    is configured, the non-empty legacy key; [AdminAuth] is the same with
    the admin key. So a configured primary key shuts the legacy key out,
    and a request without the header is never accepted. *)
Theorem key_checks (config : AppConfig.t) (r : Request.t) :
  (authenticateGatewayRequest config r = true <-> GatewayAuth config r = Next)
  /\ (GatewayAuth config r = Next
      <-> AppConfig.GatewayKey config <> ""
          /\ Request.Header_X_Api_Key r = AppConfig.GatewayKey config
          \/ AppConfig.GatewayKey config = ""
             /\ AppConfig.Key config <> ""
             /\ Request.Header_X_Api_Key r = AppConfig.Key config)
  /\ (AdminAuth config r = Next
      <-> AppConfig.AdminKey config <> ""
          /\ Request.Header_X_Api_Key r = AppConfig.AdminKey config
          \/ AppConfig.AdminKey config = ""
             /\ AppConfig.Key config <> ""
             /\ Request.Header_X_Api_Key r = AppConfig.Key config)
  /\ (Request.Header_X_Api_Key r = "" ->
      authenticateGatewayRequest config r = false
      /\ GatewayAuth config r <> Next
      /\ AdminAuth config r <> Next).
Proof.
  unfold authenticateGatewayRequest, GatewayAuth, AdminAuth.
  destruct (String.eqb_spec (AppConfig.GatewayKey config) "") as [Hg|Hg];
  destruct (String.eqb_spec (AppConfig.AdminKey config) "") as [Ha|Ha];
  destruct (String.eqb_spec (AppConfig.Key config) "") as [Hk|Hk];
  repeat match goal with
         | |- context [String.eqb ?a ?b] =>
             destruct (String.eqb_spec a b); simpl
         end;
  repeat split; intros; try discriminate; try congruence;
    try (intuition congruence).
Qed.

(** X16. The key that reaches the sandbox. For a request that passed the
    check of the gateway listener, [forwardToSandbox] sends the request's
    own [X-Api-Key], which is the configured gateway secret, to the sandbox;
    the fallbacks to the configured key and to [xai-sandbox] are for a
    request without the header, and in every case the key sent is not
    empty. When the sandbox answers, its response is the answer. *)
Theorem forwardToSandbox_key (config : AppConfig.t) (http : HttpClient)
    (instance : SandboxInstance.t) (reqData : gmap string Any)
    (r : Request.t) :
  NewRequest http (SandboxInstance.URL instance +:+ "/run") = None ->
  (exists key,
     key <> ""
     /\ forwardToSandbox config http (Some instance) reqData r
        = match Do http (clientTimeout reqData)
                   (SandboxInstance.URL instance +:+ "/run") key reqData with
          | inl err =>
              Responded
                (respondJSON 502 [("error", "sandbox unavailable: " +:+ err)])
          | inr resp => Responded resp
          end)
  /\ (authenticateGatewayRequest config r = true ->
      forwardToSandbox config http (Some instance) reqData r
      = match Do http (clientTimeout reqData)
                 (SandboxInstance.URL instance +:+ "/run")
                 (Request.Header_X_Api_Key r) reqData with
        | inl err =>
            Responded
              (respondJSON 502 [("error", "sandbox unavailable: " +:+ err)])
        | inr resp => Responded resp
        end).
Proof.
  intros Hreq. unfold forwardToSandbox. rewrite Hreq. split.
  - destruct (String.eqb_spec (Request.Header_X_Api_Key r) "") as [Hh|Hh].
    + destruct (String.eqb_spec (AppConfig.GatewayKey config) "") as [Hg|Hg].
      * exists "xai-sandbox". split; [discriminate | reflexivity].
      * exists (AppConfig.GatewayKey config). split; [exact Hg | reflexivity].
    + exists (Request.Header_X_Api_Key r). split; [exact Hh | reflexivity].
  - intros Hauth.
    destruct (String.eqb_spec (Request.Header_X_Api_Key r) "") as [Hh|Hh];
      [|reflexivity].
    exfalso. revert Hauth. unfold authenticateGatewayRequest. rewrite Hh.
    generalize (if String.eqb (AppConfig.GatewayKey config) ""
                then AppConfig.Key config else AppConfig.GatewayKey config).
    intros expectedKey. cbv zeta.
    destruct (String.eqb expectedKey ""); discriminate.
Qed.

(** A request with the gateway secret, forwarded to a sandbox that is
    down. *)
Lemma forwardToSandbox_key_witness :
  NewRequest Sample.http_down (SandboxInstance.URL Sample.sandbox +:+ "/run")
  = None
  /\ authenticateGatewayRequest Sample.config
       (Sample.request "/api/hello" "GET" "gateway-secret") = true
  /\ forwardToSandbox Sample.config Sample.http_down (Some Sample.sandbox)
       (executionReq Sample.hello7)
       (Sample.request "/api/hello" "GET" "gateway-secret")
     = Responded
         (respondJSON 502
            [("error", "sandbox unavailable: connection refused")]).
Proof.
  split; [reflexivity | split; [reflexivity|]].
  exact (proj2 (forwardToSandbox_key Sample.config Sample.http_down
                  Sample.sandbox (executionReq Sample.hello7)
                  (Sample.request "/api/hello" "GET" "gateway-secret")
                  eq_refl) eq_refl).
Defined.

(** ** The load balancer and the sandbox pool *)

Lemma leastConnections_range_min
    (instances : list (string * SandboxInstance.t)) :
  forall selected minLoad,
    (forall s, selected = Some s -> SandboxInstance.Load s.2 = minLoad) ->
    match LoadBalancer.leastConnections_range instances selected minLoad with
    | Some r =>
        (selected = Some r \/ r ∈ instances)
        /\ SandboxInstance.Load r.2 <= minLoad
        /\ (selected = None -> SandboxInstance.Load r.2 < minLoad)
        /\ forall other, other ∈ instances ->
             SandboxInstance.Load r.2 <= SandboxInstance.Load other.2
    | None =>
        selected = None
        /\ forall other, other ∈ instances ->
             minLoad <= SandboxInstance.Load other.2
    end.
Proof.
  induction instances as [|instance instances IH]; intros selected minLoad Hinv.
  - simpl. destruct selected as [s|].
    + rewrite (Hinv s eq_refl). repeat split; auto; try lia; try discriminate.
      intros other Hin. by apply elem_of_nil in Hin.
    + split; [reflexivity|]. intros other Hin. by apply elem_of_nil in Hin.
  - simpl.
    destruct (Z.ltb_spec (SandboxInstance.Load instance.2) minLoad)
      as [Hlt|Hge].
    + specialize (IH (Some instance) (SandboxInstance.Load instance.2)).
      assert (Hinv' : forall s, Some instance = Some s ->
                SandboxInstance.Load s.2 = SandboxInstance.Load instance.2).
      { by intros s [= ->]. }
      specialize (IH Hinv').
      destruct (LoadBalancer.leastConnections_range instances _ _) as [r|].
      * destruct IH as (Hin & Hle & _ & Hmin).
        split; [|split; [|split]]; try lia.
        -- right. destruct Hin as [[= ->]|Hin];
             [apply list_elem_of_here | by apply list_elem_of_further].
        -- intros other [->|Ho]%elem_of_cons; [exact Hle | by apply Hmin].
      * destruct IH as [[=] _].
    + specialize (IH selected minLoad Hinv).
      destruct (LoadBalancer.leastConnections_range instances _ _) as [r|].
      * destruct IH as (Hin & Hle & Hnone & Hmin).
        split; [|split; [|split]]; auto.
        -- destruct Hin as [Hin|Hin]; [by left | right].
           by apply list_elem_of_further.
        -- intros other [->|Ho]%elem_of_cons; [lia | by apply Hmin].
      * destruct IH as [-> Hall]. split; [reflexivity|].
        intros other [->|Ho]%elem_of_cons; [lia | by apply Hall].
Qed.

(** X17. [leastConnections] returns a candidate whose load, before the
    dispatch is counted, is below the largest [int] and not above the load
    of any candidate, with its load incremented by one. It returns nil
    exactly when no candidate has a load below the largest [int]; that is
    the case of an empty list, and also of a list whose loads have all
    reached that value. *)
Theorem leastConnections_least
    (instances : list (string * SandboxInstance.t)) :
  match LoadBalancer.leastConnections instances with
  | Some (key, chosen) =>
      exists instance,
        (key, instance) ∈ instances
        /\ chosen = SandboxInstance.with_Load instance
                      (wrap64 (SandboxInstance.Load instance + 1))
        /\ SandboxInstance.Load instance < LoadBalancer.MaxInt
        /\ (- 2 ^ 63 <= SandboxInstance.Load instance ->
            SandboxInstance.Load chosen = SandboxInstance.Load instance + 1)
        /\ forall other, other ∈ instances ->
             SandboxInstance.Load instance <= SandboxInstance.Load other.2
  | None =>
      forall other, other ∈ instances ->
        LoadBalancer.MaxInt <= SandboxInstance.Load other.2
  end.
Proof.
  unfold LoadBalancer.leastConnections.
  pose proof (leastConnections_range_min instances None LoadBalancer.MaxInt)
    as H.
  specialize (H ltac:(intros s [=])).
  destruct (LoadBalancer.leastConnections_range instances None _)
    as [[key instance]|]; simpl.
  - destruct H as ([[=]|Hin] & _ & Hlt & Hmin). specialize (Hlt eq_refl).
    exists instance. simpl in *. repeat split; auto.
    intros Hlow. unfold wrap64, LoadBalancer.MaxInt in *.
    rewrite Z.mod_small by lia. lia.
  - by destruct H as [_ H].
Qed.

Lemma Select_member (strategy : string) (rand : Z -> Z)
    (instances : list (string * SandboxInstance.t)) key chosen :
  LoadBalancer.Select strategy rand instances = Some (key, chosen) ->
  exists instance,
    (key, instance) ∈ instances
    /\ chosen = SandboxInstance.with_Load instance
                  (wrap64 (SandboxInstance.Load instance + 1)).
Proof.
  assert (Hlc : LoadBalancer.leastConnections instances = Some (key, chosen) ->
                exists instance,
                  (key, instance) ∈ instances
                  /\ chosen = SandboxInstance.with_Load instance
                                (wrap64 (SandboxInstance.Load instance + 1))).
  { unfold LoadBalancer.leastConnections.
    pose proof (leastConnections_range_min instances None LoadBalancer.MaxInt
                  ltac:(intros s [=])) as Hl.
    destruct (LoadBalancer.leastConnections_range instances None _)
      as [[k i]|]; simpl; [|done].
    intros [= <- <-]. destruct Hl as ([[=]|Hin] & _). eauto. }
  assert (Hrnd : LoadBalancer.random rand instances = Some (key, chosen) ->
                 exists instance,
                   (key, instance) ∈ instances
                   /\ chosen = SandboxInstance.with_Load instance
                                 (wrap64 (SandboxInstance.Load instance + 1))).
  { unfold LoadBalancer.random. destruct (length instances =? 0)%nat; [done|].
    destruct (instances !! _) as [[k i]|] eqn:Hl; simpl; [|done].
    intros [= <- <-]. exists i. split; [|reflexivity].
    apply list_elem_of_lookup. eauto. }
  unfold LoadBalancer.Select, LoadBalancer.roundRobin.
  repeat case_match; auto; discriminate.
Qed.

Lemma Select_none (strategy : string) (rand : Z -> Z)
    (instances : list (string * SandboxInstance.t)) :
  LoadBalancer.Select strategy rand instances = None ->
  instances <> [] ->
  0 <= rand (Z.of_nat (length instances)) < Z.of_nat (length instances) ->
  forall other, other ∈ instances ->
    LoadBalancer.MaxInt <= SandboxInstance.Load other.2.
Proof.
  intros Hsel Hne Hrand.
  assert (Hlc : LoadBalancer.leastConnections instances = None ->
                forall other, other ∈ instances ->
                  LoadBalancer.MaxInt <= SandboxInstance.Load other.2).
  { unfold LoadBalancer.leastConnections.
    pose proof (leastConnections_range_min instances None LoadBalancer.MaxInt
                  ltac:(intros s [=])) as Hl.
    destruct (LoadBalancer.leastConnections_range instances None _)
      as [[k i]|]; simpl; [discriminate|].
    intros _. exact (proj2 Hl). }
  assert (Hrnd : LoadBalancer.random rand instances <> None).
  { unfold LoadBalancer.random.
    destruct instances as [|i0 rest]; [done|].
    change (length (i0 :: rest) =? 0)%nat with false. cbv iota.
    destruct (_ !! _) as [[k i]|] eqn:Hi; simpl; [discriminate|].
    apply lookup_ge_None in Hi. lia. }
  revert Hsel. unfold LoadBalancer.Select, LoadBalancer.roundRobin.
  destruct instances as [|i0 rest]; [done|].
  change (length (i0 :: rest) =? 0)%nat with false. cbv iota.
  repeat case_match; auto; intros Hsel; by destruct Hrnd.
Qed.

(** X18. [GetHealthyInstance] has three outcomes. It returns an error, and
    no instance, exactly when no instance visited has the requested type
    and the status [healthy], and then the pool is untouched. An instance it
    returns, without an error, has the requested type and the status
    [healthy]; it is an instance of the pool with its load incremented by
    one, and the pool afterwards differs from the pool before in that
    instance only. It returns neither an error nor an instance, and leaves
    the pool untouched, when healthy instances of the type exist and the
    balancer selects none of them: with [rand.Intn] in its range this is
    the case of [leastConnections] when every one of them has a load of at
    least the largest [int]. *)
Theorem GetHealthyInstance_outcome (rt : Runtime) (sp : SandboxPool.t)
    (sandboxType : string) :
  match GetHealthyInstance rt sp sandboxType with
  | (chosen, Some _, sp') =>
      chosen = None /\ sp' = sp
      /\ forall entry, entry ∈ range_instances rt ->
           ~ (SandboxInstance.Type_ entry.2 = sandboxType
              /\ SandboxInstance.Status entry.2 = "healthy")
  | (Some chosen, None, sp') =>
      SandboxInstance.Type_ chosen = sandboxType
      /\ SandboxInstance.Status chosen = "healthy"
      /\ exists key instance,
           (key, instance) ∈ range_instances rt
           /\ chosen = SandboxInstance.with_Load instance
                         (wrap64 (SandboxInstance.Load instance + 1))
           /\ SandboxPool.instances sp'
              = <[key := chosen]> (SandboxPool.instances sp)
           /\ SandboxPool.loadBalancer sp' = SandboxPool.loadBalancer sp
  | (None, None, sp') =>
      sp' = sp
      /\ (exists entry, entry ∈ range_instances rt
            /\ SandboxInstance.Type_ entry.2 = sandboxType
            /\ SandboxInstance.Status entry.2 = "healthy")
      /\ let n :=
           Z.of_nat
             (length (List.filter (is_candidate sandboxType)
                                  (range_instances rt))) in
         (0 <= rand_Intn rt n < n ->
          forall entry, entry ∈ range_instances rt ->
            SandboxInstance.Type_ entry.2 = sandboxType ->
            SandboxInstance.Status entry.2 = "healthy" ->
            LoadBalancer.MaxInt <= SandboxInstance.Load entry.2)
  end.
Proof.
  unfold GetHealthyInstance.
  set (candidates := List.filter (is_candidate sandboxType)
                                 (range_instances rt)).
  assert (Hcand : forall entry, entry ∈ candidates <->
            entry ∈ range_instances rt
            /\ SandboxInstance.Type_ entry.2 = sandboxType
            /\ SandboxInstance.Status entry.2 = "healthy").
  { intros entry. unfold candidates.
    rewrite !list_elem_of_In, filter_In. unfold is_candidate.
    rewrite andb_true_iff, !String.eqb_eq. reflexivity. }
  destruct candidates as [|first rest] eqn:Hc.
  - simpl. repeat split.
    intros entry Hin Hok.
    assert (Hnil : entry ∈ @nil (string * SandboxInstance.t)).
    { apply Hcand. auto. }
    by apply elem_of_nil in Hnil.
  - cbn [length Nat.eqb].
    destruct (LoadBalancer.Select _ _ (first :: rest))
      as [[key chosen]|] eqn:Hsel.
    + destruct (Select_member _ _ _ _ _ Hsel) as (instance & Hin & ->).
      apply Hcand in Hin as (Hin & Ht & Hs). simpl in *.
      repeat split; auto. exists key, instance. auto.
    + split; [reflexivity | split].
      * exists first. apply Hcand. apply list_elem_of_here.
      * intros Hrand entry Hin Ht Hs.
        apply (Select_none _ _ _ Hsel); [discriminate | exact Hrand|].
        apply Hcand. auto.
Qed.

(** The one healthy sandbox has the load of the largest [int]:
    [leastConnections] selects nothing, and the caller gets neither an
    instance nor an error. *)
Example GetHealthyInstance_saturated :
  let full := SandboxInstance.with_Load Sample.sandbox LoadBalancer.MaxInt in
  let sp := SandboxPool.Build (<["py-1" := full]> ∅) "least-connections" in
  let rt := {| range_routeCache := [];
               range_instances := [("py-1", full)];
               rand_Intn := fun _ => 0 |} in
  GetHealthyInstance rt sp "python" = (None, None, sp).
Proof. vm_compute. reflexivity. Qed.

Section PoolFacts.
Context (marshal : SandboxInstance.t -> string).

Lemma health_url_not_empty (s : string) :
  String.eqb (s +:+ "/health") "" = false.
Proof. destruct s; reflexivity. Qed.

(** What the probe of one instance decides. *)
Lemma checkInstanceHealth_cases (http_Get : string -> option Z) (now : Z)
    (instance : SandboxInstance.t) :
  (SandboxInstance.URL instance <> ""
   /\ http_Get (buildHealthCheckURL instance) = Some 200
   /\ checkInstanceHealth http_Get now instance
      = instance_with_Status instance "healthy" now)
  \/ (~ (SandboxInstance.URL instance <> ""
         /\ http_Get (buildHealthCheckURL instance) = Some 200)
      /\ checkInstanceHealth http_Get now instance
         = instance_with_Status instance "unhealthy"
             (SandboxInstance.LastPing instance)).
Proof.
  unfold checkInstanceHealth.
  destruct (String.eqb_spec (SandboxInstance.URL instance) "") as [Hu|Hu].
  { right. unfold buildHealthCheckURL. apply String.eqb_eq in Hu.
    rewrite Hu. simpl. split; [|reflexivity].
    intros [Hne _]. apply String.eqb_eq in Hu. contradiction. }
  assert (Hurl : String.eqb (buildHealthCheckURL instance) "" = false).
  { unfold buildHealthCheckURL. apply String.eqb_neq in Hu. rewrite Hu.
    destruct (_ || _); [apply health_url_not_empty|].
    reflexivity. }
  rewrite Hurl.
  destruct (http_Get (buildHealthCheckURL instance)) as [code|].
  - destruct (Z.eqb_spec code 200) as [->|Hc].
    + left. auto.
    + right. split; [|reflexivity]. intros [_ [=]]. contradiction.
  - right. split; [|reflexivity]. intros [_ [=]].
Qed.

Lemma checkInstanceHealth_twice (http_Get : string -> option Z) (now : Z)
    (instance : SandboxInstance.t) :
  checkInstanceHealth http_Get now (checkInstanceHealth http_Get now instance)
  = checkInstanceHealth http_Get now instance.
Proof.
  destruct (checkInstanceHealth_cases http_Get now instance)
    as [(Hu & Hget & ->) | (Hnot & ->)].
  - destruct (checkInstanceHealth_cases http_Get now
                (instance_with_Status instance "healthy" now))
      as [(_ & _ & ->) | (Hnot & _)]; [reflexivity|].
    exfalso. apply Hnot. split; [exact Hu | exact Hget].
  - destruct (checkInstanceHealth_cases http_Get now
                (instance_with_Status instance "unhealthy"
                   (SandboxInstance.LastPing instance)))
      as [(Hu & Hget & _) | (_ & ->)]; [|reflexivity].
    exfalso. apply Hnot. split; [exact Hu | exact Hget].
Qed.

Lemma checkInstancesHealth_lookup (http_Get : string -> option Z)
    (time_Now : string -> Time) (ids : list string) :
  forall sp id,
    SandboxPool.instances
      (checkInstancesHealth marshal http_Get time_Now ids sp).1 !! id
    = if bool_decide (id ∈ ids)
      then checkInstanceHealth http_Get (Unix (time_Now id))
             <$> SandboxPool.instances sp !! id
      else SandboxPool.instances sp !! id.
Proof.
  induction ids as [|id0 ids IH]; intros sp id.
  - cbn [checkInstancesHealth fst].
    by rewrite bool_decide_eq_false_2 by apply not_elem_of_nil.
  - cbn [checkInstancesHealth].
    destruct (SandboxPool.instances sp !! id0) as [instance|] eqn:H0.
    + specialize (IH (SandboxPool.Build
                        (<[id0 := checkInstanceHealth http_Get
                                    (Unix (time_Now id0)) instance]>
                           (SandboxPool.instances sp))
                        (SandboxPool.loadBalancer sp)) id).
      destruct (checkInstancesHealth marshal http_Get time_Now ids _)
        as [sp' cmds].
      cbn [fst] in *. rewrite IH. cbn [SandboxPool.instances].
      destruct (decide (id = id0)) as [->|Hne].
      * rewrite lookup_insert_eq, H0.
        rewrite (bool_decide_eq_true_2 (id0 ∈ id0 :: ids))
          by apply list_elem_of_here.
        simpl. case_bool_decide; [|reflexivity].
        by rewrite checkInstanceHealth_twice.
      * rewrite lookup_insert_ne by done.
        destruct (decide (id ∈ ids)) as [Hin|Hout].
        -- rewrite !bool_decide_eq_true_2;
             [reflexivity | by apply list_elem_of_further | exact Hin].
        -- rewrite !bool_decide_eq_false_2; [reflexivity | | exact Hout].
           intros [?|?]%elem_of_cons; contradiction.
    + rewrite IH.
      destruct (decide (id = id0)) as [->|Hne].
      * rewrite H0. by repeat case_bool_decide.
      * destruct (decide (id ∈ ids)) as [Hin|Hout].
        -- rewrite !bool_decide_eq_true_2;
             [reflexivity | by apply list_elem_of_further | exact Hin].
        -- rewrite !bool_decide_eq_false_2; [reflexivity | | exact Hout].
           intros [?|?]%elem_of_cons; contradiction.
Qed.

End PoolFacts.

(** X19. [RegisterInstance] never fails and stores the instance under its
    id, leaving the other instances alone. The URL stored is empty when the
    URL given is empty, and otherwise starts with [http://] or [https://]:
    a URL that has one of the two schemes is stored as it is, any other gets
    [http://] in front. The URL that the health check probes is the same for
    the instance given and the instance stored, and for a non-empty URL it
    is the stored URL followed by [/health]. Registering the stored instance
    again changes nothing. *)
Theorem RegisterInstance_normalises (marshal : SandboxInstance.t -> string)
    (sp : SandboxPool.t) (instance : SandboxInstance.t) :
  (RegisterInstance marshal sp instance).1.1 = None
  /\ exists stored,
       SandboxPool.instances (RegisterInstance marshal sp instance).1.2
         !! SandboxInstance.ID instance = Some stored
       /\ stored = instance_with_URL instance (SandboxInstance.URL stored)
       /\ (SandboxInstance.URL instance = "" -> SandboxInstance.URL stored = "")
       /\ (SandboxInstance.URL instance <> "" ->
           starts_with (SandboxInstance.URL stored) "http://"
           \/ starts_with (SandboxInstance.URL stored) "https://")
       /\ (starts_with (SandboxInstance.URL instance) "http://"
           \/ starts_with (SandboxInstance.URL instance) "https://" ->
           stored = instance)
       /\ buildHealthCheckURL stored = buildHealthCheckURL instance
       /\ (SandboxInstance.URL instance <> "" ->
           buildHealthCheckURL stored
           = SandboxInstance.URL stored +:+ "/health")
       /\ (forall other, other <> SandboxInstance.ID instance ->
             SandboxPool.instances (RegisterInstance marshal sp instance).1.2
               !! other
             = SandboxPool.instances sp !! other)
       /\ RegisterInstance marshal
            (RegisterInstance marshal sp instance).1.2 stored
          = RegisterInstance marshal sp instance.
Proof.
  split; [reflexivity|].
  unfold RegisterInstance. cbv zeta.
  set (cond := negb (String.eqb (SandboxInstance.URL instance) "")
               && negb (GoStrings.HasPrefix (SandboxInstance.URL instance)
                          "http://")
               && negb (GoStrings.HasPrefix (SandboxInstance.URL instance)
                          "https://")).
  set (stored := if cond
                 then instance_with_URL instance
                        ("http://" +:+ SandboxInstance.URL instance)
                 else instance).
  assert (Hid : SandboxInstance.ID stored = SandboxInstance.ID instance).
  { unfold stored. destruct cond; reflexivity. }
  assert (Hnorm :
            negb (String.eqb (SandboxInstance.URL stored) "")
            && negb (GoStrings.HasPrefix (SandboxInstance.URL stored)
                       "http://")
            && negb (GoStrings.HasPrefix (SandboxInstance.URL stored)
                       "https://") = false).
  { unfold stored. destruct cond eqn:Hc; [|exact Hc].
    cbn [instance_with_URL SandboxInstance.URL].
    rewrite (proj1 (TrimPrefix_prefixed "http://"
                      (SandboxInstance.URL instance))).
    simpl negb. by rewrite andb_false_r. }
  assert (Hne : SandboxInstance.URL instance <> "" ->
                String.eqb (SandboxInstance.URL stored) "" = false).
  { intros Hu. unfold stored. destruct cond; [reflexivity|].
    by apply String.eqb_neq. }
  cbn [fst snd SandboxPool.instances]. rewrite Hid.
  exists stored. rewrite lookup_insert_eq. split; [reflexivity|].
  split; [|split; [|split; [|split; [|split; [|split; [|split]]]]]].
  - unfold stored. destruct cond; destruct instance; reflexivity.
  - intros Hu. unfold stored, cond. rewrite Hu. simpl. exact Hu.
  - intros Hu. specialize (Hne Hu). rewrite Hne in Hnorm.
    destruct (GoStrings.HasPrefix (SandboxInstance.URL stored) "http://")
      eqn:H1.
    { left. by apply HasPrefix_starts_with. }
    destruct (GoStrings.HasPrefix (SandboxInstance.URL stored) "https://")
      eqn:H2; [|discriminate Hnorm].
    right. by apply HasPrefix_starts_with.
  - intros [H|H]; apply HasPrefix_starts_with in H; unfold stored, cond;
      rewrite H; simpl; by rewrite ?andb_false_r.
  - unfold stored. destruct cond eqn:Hc; [|reflexivity].
    unfold cond in Hc.
    apply andb_true_iff in Hc as [Hc H2]. apply andb_true_iff in Hc as [H0 H1].
    apply negb_true_iff in H0, H1, H2.
    unfold buildHealthCheckURL.
    cbn [instance_with_URL SandboxInstance.URL].
    rewrite H0, H1, H2.
    rewrite (proj1 (TrimPrefix_prefixed "http://"
                      (SandboxInstance.URL instance))).
    reflexivity.
  - intros Hu. specialize (Hne Hu). unfold buildHealthCheckURL.
    rewrite Hne in Hnorm |- *.
    destruct (GoStrings.HasPrefix (SandboxInstance.URL stored) "http://");
      [reflexivity|].
    destruct (GoStrings.HasPrefix (SandboxInstance.URL stored) "https://");
      [reflexivity | simpl in Hnorm; discriminate Hnorm].
  - intros other Hne'. by rewrite lookup_insert_ne.
  - rewrite Hnorm.
    cbn [SandboxPool.instances SandboxPool.loadBalancer].
    by rewrite ?Hid, insert_insert_eq.
Qed.

(** X20. [checkInstancesHealth]. An instance that is visited ends
    [healthy], with [LastPing] set to the time of the probe, exactly when
    its URL is not empty and the probe of its health URL answers 200;
    otherwise it ends [unhealthy] with its [LastPing] kept. Nothing else of
    the instance changes and instances that are not visited are untouched.
    When no probe answers 200 and every instance is visited, the pool that
    results has no healthy instance: [GetHealthyInstance] returns an error
    for every sandbox type. *)
Theorem checkInstancesHealth_outcome (marshal : SandboxInstance.t -> string)
    (http_Get : string -> option Z) (time_Now : string -> Time)
    (ids : list string) (sp : SandboxPool.t) :
  let sp' := (checkInstancesHealth marshal http_Get time_Now ids sp).1 in
  (forall id,
     (id ∈ ids ->
      SandboxPool.instances sp' !! id
      = checkInstanceHealth http_Get (Unix (time_Now id))
          <$> SandboxPool.instances sp !! id)
     /\ (id ∉ ids ->
         SandboxPool.instances sp' !! id = SandboxPool.instances sp !! id))
  /\ (forall now instance,
        SandboxInstance.URL instance <> ""
        /\ http_Get (buildHealthCheckURL instance) = Some 200
        /\ checkInstanceHealth http_Get now instance
           = instance_with_Status instance "healthy" now
        \/ ~ (SandboxInstance.URL instance <> ""
              /\ http_Get (buildHealthCheckURL instance) = Some 200)
           /\ checkInstanceHealth http_Get now instance
              = instance_with_Status instance "unhealthy"
                  (SandboxInstance.LastPing instance))
  /\ ((forall url, http_Get url <> Some 200) ->
      (forall id, is_Some (SandboxPool.instances sp !! id) -> id ∈ ids) ->
      forall rt sandboxType,
        range_instances rt ≡ₚ map_to_list (SandboxPool.instances sp') ->
        exists err,
          GetHealthyInstance rt sp' sandboxType = (None, Some err, sp')).
Proof.
  cbv zeta. split; [|split].
  - intros id.
    pose proof (checkInstancesHealth_lookup marshal http_Get time_Now ids
                  sp id) as H.
    split; intros Hin; rewrite H.
    + by rewrite bool_decide_eq_true_2.
    + by rewrite bool_decide_eq_false_2.
  - intros now instance. apply checkInstanceHealth_cases.
  - intros Hdown Hall rt sandboxType Hperm.
    unfold GetHealthyInstance.
    rewrite (no_candidates rt _ sandboxType Hperm); [simpl; eauto|].
    intros id checked Hchecked [_ Hstatus].
    rewrite checkInstancesHealth_lookup in Hchecked.
    destruct (SandboxPool.instances sp !! id) as [instance|] eqn:Hi.
    2: { case_bool_decide; discriminate. }
    rewrite bool_decide_eq_true_2 in Hchecked by (apply Hall; eauto).
    simpl in Hchecked. injection Hchecked as <-.
    destruct (checkInstanceHealth_cases http_Get (Unix (time_Now id))
                instance) as [(_ & Hget & _) | (_ & Heq)].
    + by apply Hdown in Hget.
    + rewrite Heq in Hstatus. discriminate Hstatus.
Qed.

(** The pool of one healthy sandbox, probed while every sandbox is down:
    no route of type [python] can be dispatched afterwards. *)
Lemma checkInstancesHealth_outcome_witness :
  (forall url, (fun _ : string => @None Z) url <> Some 200)
  /\ (forall id,
        is_Some (SandboxPool.instances Sample.pool !! id) -> id ∈ ["py-1"])
  /\ SandboxInstance.Status
       <$> SandboxPool.instances
             (checkInstancesHealth Sample2.marshal (fun _ => None)
                (fun _ => Sample.clock 0) ["py-1"] Sample.pool).1 !! "py-1"
     = Some "unhealthy".
Proof.
  assert (Hdown : forall url, (fun _ : string => @None Z) url <> Some 200).
  { intros url. discriminate. }
  assert (Hall : forall id,
            is_Some (SandboxPool.instances Sample.pool !! id) ->
            id ∈ ["py-1"]).
  { intros id [instance Hi]. unfold Sample.pool in Hi. simpl in Hi.
    apply lookup_insert_Some in Hi as [[<- _]|[_ Hi]].
    - apply list_elem_of_here.
    - by rewrite lookup_empty in Hi. }
  split; [exact Hdown | split; [exact Hall|]].
  destruct (proj1 (checkInstancesHealth_outcome Sample2.marshal
                     (fun _ => None) (fun _ => Sample.clock 0) ["py-1"]
                     Sample.pool) "py-1") as [Hin _].
  rewrite (Hin ltac:(apply list_elem_of_here)). reflexivity.
Defined.

(** ** Degraded mode and failed store writes *)

(** X21. A replica without the store (degraded mode) sends nothing: neither
    the three mutations nor reconciliation send a command or publish an
    event, and the mutations leave the replica without the store. The
    mutations are applied to the local maps all the same: the maps after a
    mutation do not depend on the flag of the store nor on what the store
    replies. *)
Theorem degraded_mode (X : Extern) (rc rc' : RedisClient)
    (time_Now : nat -> Time) (rm : RouteManager.t) (id : string)
    (route : RouteConfig.t) :
  RouteManager.redisEnabled rm = false ->
  (AddRoute X rc time_Now rm route).2 = []
  /\ (UpdateRoute X rc time_Now rm id route).2 = []
  /\ (DeleteRoute rc time_Now rm id).2 = []
  /\ loadRoutesIncremental X rc rm = (rm, [])
  /\ RouteManager.redisEnabled (AddRoute X rc time_Now rm route).1.2 = false
  /\ RouteManager.redisEnabled (UpdateRoute X rc time_Now rm id route).1.2
     = false
  /\ RouteManager.redisEnabled (DeleteRoute rc time_Now rm id).1.2 = false
  /\ forall enabled,
       let rm_on :=
         RouteManager.Build (RouteManager.routeCache rm)
           (RouteManager.routeVersions rm) (RouteManager.updateChannel rm)
           enabled (RouteManager.lastConfigUpdate rm)
           (RouteManager.instanceID rm) in
       (AddRoute X rc' time_Now rm_on route).1.1
       = (AddRoute X rc time_Now rm route).1.1
       /\ RouteManager.routeCache (AddRoute X rc' time_Now rm_on route).1.2
          = RouteManager.routeCache (AddRoute X rc time_Now rm route).1.2
       /\ RouteManager.routeVersions (AddRoute X rc' time_Now rm_on route).1.2
          = RouteManager.routeVersions (AddRoute X rc time_Now rm route).1.2
       /\ RouteManager.routeCache (DeleteRoute rc' time_Now rm_on id).1.2
          = RouteManager.routeCache (DeleteRoute rc time_Now rm id).1.2.
Proof.
  intros Hoff.
  refine (conj _ (conj _ (conj _ (conj _ (conj _ (conj _ (conj _ _))))))).
  - unfold AddRoute. destruct (validateRouteConfiguration route);
      [reflexivity|]. by rewrite Hoff.
  - unfold UpdateRoute. rewrite Hoff.
    destruct (RouteManager.routeCache rm !! id); [|reflexivity].
    destruct (validateRouteConfiguration route); [reflexivity|].
    by destruct (negb (String.eqb id (RouteConfig.ID route))).
  - unfold DeleteRoute. by rewrite Hoff.
  - unfold loadRoutesIncremental. by rewrite Hoff.
  - unfold AddRoute. destruct (validateRouteConfiguration route); exact Hoff.
  - unfold UpdateRoute.
    destruct (RouteManager.routeCache rm !! id); [|exact Hoff].
    destruct (validateRouteConfiguration route); [exact Hoff|].
    destruct (negb (String.eqb id (RouteConfig.ID route))); exact Hoff.
  - exact Hoff.
  - intros enabled. cbv zeta. unfold AddRoute, DeleteRoute.
    destruct (validateRouteConfiguration route); repeat split; reflexivity.
Qed.

(** POST /admin/routes on a replica whose store was unreachable at boot
    (scenario 6): the route is cached and nothing is published. *)
Lemma degraded_mode_witness :
  RouteManager.redisEnabled (RouteManager.new false "instance-2") = false
  /\ (AddRoute Sample.extern Sample.redis Sample.clock
        (RouteManager.new false "instance-2") Sample.hello7).2 = []
  /\ StatusCode
       (addRouteHandler Sample.extern Sample.redis Sample.clock
          (RouteManager.new false "instance-2") (inr Sample.hello7)).1.1
     = 200.
Proof.
  split; [reflexivity|]. split; [|reflexivity].
  exact (proj1 (degraded_mode Sample.extern Sample.redis Sample.redis
                  Sample.clock (RouteManager.new false "instance-2")
                  "hello" Sample.hello7 eq_refl)).
Defined.

(** X22. A failed write to the store hash. When HSET (or HDEL for a
    deletion) returns an error on a replica with the store enabled, the
    mutation still succeeds and is applied locally, the event is still
    published, but the marker set and the global version are not written:
    the command to the hash and the event are all that is sent. When the
    write succeeds the marker and the version follow it, in this order,
    before the event. *)
Theorem store_write_protocol (X : Extern) (rc : RedisClient)
    (time_Now : nat -> Time) (rm : RouteManager.t) (id : string)
    (route : RouteConfig.t) :
  RouteManager.redisEnabled rm = true ->
  (validateRouteConfiguration route = None ->
   exists document event,
     (AddRoute X rc time_Now rm route).1.1 = None
     /\ RouteEvent.EventType event = "CREATE"
     /\ RouteEvent.RouteID event = RouteConfig.ID route
     /\ (AddRoute X rc time_Now rm route).2
        = if HSet_routes_ok rc
          then [HSet "gateway:routes" (RouteConfig.ID route) document;
                SAdd "gateway:routes:updated" (RouteConfig.ID route);
                SetInt "gateway:config:version" (UnixNano (time_Now 2%nat));
                XAdd "gateway:route:events" event]
          else [HSet "gateway:routes" (RouteConfig.ID route) document;
                XAdd "gateway:route:events" event])
  /\ exists event,
       RouteEvent.EventType event = "DELETE"
       /\ RouteEvent.RouteID event = id
       /\ RouteEvent.RouteData event = None
       /\ (DeleteRoute rc time_Now rm id).2
          = if HDel_routes_ok rc
            then [HDel "gateway:routes" id;
                  SAdd "gateway:routes:updated" ("DELETE:" +:+ id);
                  SetInt "gateway:config:version" (UnixNano (time_Now 0%nat));
                  XAdd "gateway:route:events" event]
            else [HDel "gateway:routes" id;
                  XAdd "gateway:route:events" event].
Proof.
  intros Hen. split.
  - intros Hvalid. unfold AddRoute. rewrite Hvalid, Hen. cbv zeta.
    cbn [fst snd]. eexists _, _.
    split; [reflexivity|]. split; [|split]; cycle 2.
    + unfold PublishRouteEvent. destruct (HSet_routes_ok rc); reflexivity.
    + reflexivity.
    + reflexivity.
  - unfold DeleteRoute. rewrite Hen. cbv zeta. cbn [fst snd]. eexists.
    split; [|split; [|split]]; cycle 3.
    + unfold PublishRouteEvent. destruct (HDel_routes_ok rc); reflexivity.
    + reflexivity.
    + reflexivity.
    + reflexivity.
Qed.

(** [DeleteRoute] while HDEL fails: two commands, no tombstone. *)
Lemma store_write_protocol_witness :
  RouteManager.redisEnabled Sample.manager = true
  /\ length
       (DeleteRoute
          {| Get_config_version := ReplyErr;
             SMembers_routes_updated := ReplyErr;
             HGet_routes := fun _ => None;
             HGetAll_routes := None;
             HSet_routes_ok := false;
             HDel_routes_ok := false |}
          Sample.clock Sample.manager "hello").2 = 2%nat.
Proof.
  split; [reflexivity|].
  destruct (proj2 (store_write_protocol Sample.extern
                     {| Get_config_version := ReplyErr;
                        SMembers_routes_updated := ReplyErr;
                        HGet_routes := fun _ => None;
                        HGetAll_routes := None;
                        HSet_routes_ok := false;
                        HDel_routes_ok := false |}
                     Sample.clock Sample.manager "hello" Sample.hello7
                     eq_refl)) as (event & _ & _ & _ & Hcmds).
  rewrite Hcmds. reflexivity.
Defined.
